(** * oncall: message fan-out and delivery tracking (server.js)

    A shallow embedding of the request handlers of [server.js] (the current
    revision, the one with the [webhooks] table, the [ui]/[data] columns and
    the purge route) together with the SQLite tables they read and write,
    of its start-up (the VAPID keys, the schema) and of the listeners of
    the service worker [public/sw.js].

    Modelling decisions, all taken from the source:
    - a table is the list of its rows in rowid order (the order of a table
      scan); [AUTOINCREMENT] keeps the largest rowid ever handed out in a
      counter next to the table;
    - [ORDER BY c DESC] sorts the scan on [c] and leaves rows with equal [c]
      in scan order, which is what SQLite's sorter does; the
      [datetime('now')] defaults are timestamps with a resolution of one
      second, read from the environment;
    - a string is the sequence of its code units; the text [JSON.stringify]
      produces is kept as the value it serialises;
    - the arguments of a statement are bound the way better-sqlite3 binds
      them: a string, a number or null takes the next positional parameter,
      an array is spread over the next positional parameters, a plain
      object carries named parameters (the statements have none), and the
      number of values must be the number of parameters;
    - everything outside the process (the clock, [uuidv4], the web-push
      transport and the order in which its promises settle, the set of
      WebSocket clients) is a field of the environment [Env];
    - a handler is a computation in a state-and-exception monad over the
      store plus a chronological trace of the effects it issued. A handler
      runs without another request touching the store in between. *)

From Stdlib Require Import List String Ascii ZArith Bool Arith Lia Permutation Sorted.
Import ListNotations.
Open Scope string_scope.
Open Scope list_scope.
Open Scope nat_scope.

Set Implicit Arguments.
Set Warnings "-register-all".

(** ** JavaScript values received in request bodies *)

Inductive JSON : Type :=
| JNull
| JBool (b : bool)
| JNum (n : Z)                      (* integer-valued number literals *)
| JStr (s : string)
| JArr (items : list JSON)
| JObj (fields : list (string * JSON)).

(** The text [JSON.stringify v]; kept as the value it serialises. *)
Inductive JsonText : Type := Stringify (v : JSON).

(** [undefined] is [None]. *)
Definition Value := option JSON.

Definition nonempty (s : string) : bool :=
  match s with EmptyString => false | String _ _ => true end.

(** JavaScript truthiness: [!v] is [negb (truthy v)]. *)
Definition truthy (v : Value) : bool :=
  match v with
  | None => false
  | Some JNull => false
  | Some (JBool b) => b
  | Some (JNum n) => negb (n =? 0)%Z
  | Some (JStr s) => nonempty s
  | Some (JArr _) => true
  | Some (JObj _) => true
  end.

Fixpoint assoc (k : string) (fs : list (string * JSON)) : Value :=
  match fs with
  | [] => None
  | (k', v) :: fs' => if String.eqb k k' then Some v else assoc k fs'
  end.

(** Property read [o.k]; on anything but an object the handlers' field
    names are [undefined]. *)
Definition prop (o : JSON) (k : string) : Value :=
  match o with
  | JObj fs => assoc k fs
  | _ => None
  end.

(** Optional chaining [o?.k]. *)
Definition oprop (o : Value) (k : string) : Value :=
  match o with
  | Some v => prop v k
  | None => None
  end.

(** Object literal [{k1: v1, ...}] as [JSON.stringify] / [res.json] see it:
    properties whose value is [undefined] are left out. *)
Fixpoint mkobj (fs : list (string * Value)) : list (string * JSON) :=
  match fs with
  | [] => []
  | (k, Some v) :: fs' => (k, v) :: mkobj fs'
  | (_, None) :: fs' => mkobj fs'
  end.

Definition obj (fs : list (string * Value)) : JSON := JObj (mkobj fs).

(** [v || null] *)
Definition or_null (v : Value) : JSON :=
  match v with
  | Some j => if truthy v then j else JNull
  | None => JNull
  end.

(** ** The tables *)

Definition Time := nat.

Record Subscription := mkSub {
  sub_id : Z;
  endpoint : string;
  keys_p256dh : string;
  keys_auth : string;
  sub_createdAt : Time
}.

Inductive MsgType := notification | response.

Record Message := mkMsg {
  msg_id : string;
  title : string;
  body : string;
  sentAt : Time;
  type : MsgType;
  parentId : option string;
  ui : option JsonText;
  data : option JsonText
}.

Record Webhook := mkHook {
  hook_id : Z;
  url : string;
  events : string;
  hook_createdAt : Time
}.

Record DB := mkDB {
  subscriptions : list Subscription;
  sub_seq : Z;                       (* sqlite_sequence row of subscriptions *)
  messages : list Message;
  webhooks : list Webhook;
  hook_seq : Z                       (* sqlite_sequence row of webhooks *)
}.

Definition empty_db : DB := mkDB [] 0 [] [] 0.

(** Largest rowid of a 64-bit rowid table. *)
Definition MAX_ROWID : Z := 9223372036854775807.

Definition is_notification (m : Message) : bool :=
  match type m with notification => true | response => false end.

(** ** The world outside the process *)

Record PushSub := mkPushSub {
  ps_endpoint : string;
  ps_p256dh : string;
  ps_auth : string
}.

Inductive PushResult :=
| PushOk
| PushErr (statusCode : option Z) (ebody : option string).

Record Env := mkEnv {
  API_KEY : string;
  now : Time;                                   (* datetime('now') *)
  uuidv4 : string;                              (* the identifier uuidv4() hands out *)
  sendNotification : PushSub -> JsonText -> option nat -> PushResult;
  settle : list Subscription -> list Subscription;
      (* the order in which the attempts of one Promise.all settle *)
  clients : list (nat * nat);                   (* wss.clients: id, readyState *)
  num_text : Z -> string;                       (* SQLite's text form of a bound number *)
  vapid_publicKey : string                      (* vapid.publicKey, loaded at start-up *)
}.

(** ** Effects and the handler monad *)

Inductive Event :=
| EvInsertSub (row : Subscription)
| EvDeleteSub (e : string)
| EvInsertMessage (row : Message)
| EvInsertWebhook (row : Webhook)
| EvDeleteWebhook (u : string)
| EvPush (sub : PushSub) (payload : JsonText) (ttl : option nat)
| EvWsSend (client : nat) (msg : JsonText)
| EvWsClose (client : nat) (code : nat)
| EvFetch (u : string) (payload : JsonText).

Inductive Exn :=
| TypeError (what : string)
| RangeError (what : string)
| SqliteError (code : string).

Inductive Res (A : Type) :=
| Ret (a : A)
| Raise (e : Exn).
Arguments Raise {A} e.

Record World := mkWorld { db : DB; trace : list Event }.

Definition M (A : Type) : Type := World -> Res A * World.

Definition ret {A} (a : A) : M A := fun w => (Ret a, w).
Definition raise {A} (e : Exn) : M A := fun w => (Raise e, w).
Definition bind {A B} (m : M A) (k : A -> M B) : M B :=
  fun w => match m w with
           | (Ret a, w') => k a w'
           | (Raise e, w') => (Raise e, w')
           end.

Declare Scope monad_scope.
Delimit Scope monad_scope with monad.
Notation "x <- m ;; k" := (bind m (fun x => k))
  (at level 61, m at next level, right associativity) : monad_scope.
Notation "m ;; k" := (bind m (fun _ => k))
  (at level 61, right associativity) : monad_scope.
Open Scope monad_scope.

Definition get_db : M DB := fun w => (Ret (db w), w).
Definition put_db (d : DB) : M unit := fun w => (Ret tt, mkWorld d (trace w)).
Definition emit (e : Event) : M unit :=
  fun w => (Ret tt, mkWorld (db w) (trace w ++ [e])).

Fixpoint forEach {A} (f : A -> M unit) (l : list A) : M unit :=
  match l with
  | [] => ret tt
  | x :: l' => f x ;; forEach f l'
  end.

Definition run {A} (m : M A) (d : DB) : Res A * World := m (mkWorld d []).

(** ** Strings *)

(** [s.split(sep)] for a one-character separator. *)
Fixpoint split (sep : ascii) (s : string) : list string :=
  match s with
  | EmptyString => [EmptyString]
  | String c s' =>
      if Ascii.eqb c sep then EmptyString :: split sep s'
      else match split sep s' with
           | [] => [String c EmptyString]
           | w :: ws => String c w :: ws
           end
  end.

(** [arr.includes(x)] on an array of strings. *)
Definition includes (x : string) (arr : list string) : bool :=
  existsb (String.eqb x) arr.

(** [s.slice(0, n)] *)
Definition slice0 (n : nat) (s : string) : string := substring 0 n s.

(** [s.slice(n)] *)
Definition slice_from (n : nat) (s : string) : string :=
  substring n (String.length s - n) s.

(** ** Queries *)

Section OrderBy.
Variable A : Type.
Variable key : A -> Time.

(** Place [x], which the scan met before every row of [l], into the
    already ordered [l]: after the rows with a strictly later key and
    before the others, so rows with equal keys stay in scan order. *)
Fixpoint place (x : A) (l : list A) : list A :=
  match l with
  | [] => [x]
  | y :: l' => if Nat.ltb (key x) (key y) then y :: place x l' else x :: l
  end.

(** [ORDER BY key DESC] over the rows [l] of a scan. *)
Fixpoint order_by_desc (l : list A) : list A :=
  match l with
  | [] => []
  | x :: l' => place x (order_by_desc l')
  end.

End OrderBy.

(** stmts.getAllSubs: SELECT * FROM subscriptions ORDER BY createdAt DESC *)
Definition getAllSubs_all (d : DB) : list Subscription :=
  order_by_desc sub_createdAt (subscriptions d).

(** stmts.getSubCount: SELECT COUNT( * ) FROM subscriptions *)
Definition getSubCount_get (d : DB) : nat := List.length (subscriptions d).

(** stmts.getMessages: SELECT ... FROM messages ORDER BY sentAt DESC LIMIT 100 *)
Definition getMessages_all (d : DB) : list Message :=
  firstn 100 (order_by_desc sentAt (messages d)).

(** stmts.getAllWebhooks: SELECT * FROM webhooks *)
Definition getAllWebhooks_all (d : DB) : list Webhook := webhooks d.

(** SELECT id FROM messages WHERE type = 'notification'
    ORDER BY sentAt DESC LIMIT 1 *)
Definition latest_notification (d : DB) : option Message :=
  hd_error (order_by_desc sentAt (filter is_notification (messages d))).

Definition getAllSubs : M (list Subscription) :=
  d <- get_db ;; ret (getAllSubs_all d).
Definition getSubCount : M nat :=
  d <- get_db ;; ret (getSubCount_get d).
Definition getAllWebhooks : M (list Webhook) :=
  d <- get_db ;; ret (getAllWebhooks_all d).

(** ** Statements that write *)

Definition Bound := list (option string).

(** What better-sqlite3 hands to SQLite for one value: a string, a number
    (which reaches a TEXT column as its text form), [null] or [undefined]
    as NULL; a boolean, an array or an object is refused with a
    TypeError. *)
Definition bind_value (env : Env) (v : Value) : Res (option string) :=
  match v with
  | Some (JStr s) => Ret (Some s)
  | Some (JNum n) => Ret (Some (num_text env n))
  | Some JNull | None => Ret None
  | Some (JBool _) | Some (JArr _) | Some (JObj _) =>
      Raise (TypeError "SQLite3 can only bind numbers, strings, bigints, buffers, and null")
  end.

(** [v] goes to the next anonymous parameter of a statement that has [n]
    of them; [bound] holds the values bound so far. *)
Definition bind_next (env : Env) (n : nat) (bound : Bound) (v : Value) : Res Bound :=
  match bind_value env v with
  | Ret x =>
      if n <=? List.length bound
      then Raise (RangeError "Too many parameter values were provided")
      else Ret (bound ++ [x])
  | Raise e => Raise e
  end.

(** An array among the arguments of run: each of its elements goes to the
    next anonymous parameter. *)
Fixpoint bind_array (env : Env) (n : nat) (items : list JSON) (bound : Bound)
    : Res Bound :=
  match items with
  | [] => Ret bound
  | x :: rest =>
      match bind_next env n bound (Some x) with
      | Ret bound' => bind_array env n rest bound'
      | Raise e => Raise e
      end
  end.

(** The arguments of stmt.run(...), from left to right. An array is spread
    over the anonymous parameters; a plain object carries named parameters,
    of which the statements of this server have none, and only one such
    object is accepted ([named] tells that one has been seen); any other
    value goes to the next anonymous parameter. *)
Fixpoint bind_args (env : Env) (n : nat) (args : list Value) (named : bool)
    (bound : Bound) : Res Bound :=
  match args with
  | [] => Ret bound
  | Some (JArr items) :: rest =>
      match bind_array env n items bound with
      | Ret bound' => bind_args env n rest named bound'
      | Raise e => Raise e
      end
  | Some (JObj _) :: rest =>
      if named
      then Raise (TypeError "You cannot specify named parameters in two different objects")
      else bind_args env n rest true bound
  | v :: rest =>
      match bind_next env n bound v with
      | Ret bound' => bind_args env n rest named bound'
      | Raise e => Raise e
      end
  end.

(** The values of the [n] parameters once the first [k] of them must have
    been given by [args]; the remaining [n - k] arguments of the call are
    each a string or null. *)
Definition bind_first (env : Env) (n k : nat) (args : list Value) : Res Bound :=
  match bind_args env n args false [] with
  | Ret bound =>
      if k <? List.length bound
      then Raise (RangeError "Too many parameter values were provided")
      else if List.length bound <? k
      then Raise (RangeError "Too few parameter values were provided")
      else Ret bound
  | Raise e => Raise e
  end.

(** All [n] parameters given by [args]. *)
Definition bind_all (env : Env) (n : nat) (args : list Value) : Res Bound :=
  bind_first env n n args.

Definition lift {A} (r : Res A) : M A := fun w => (r, w).

(** The value bound to parameter [i] (counted from 0). *)
Definition param (i : nat) (bound : Bound) : option string := nth i bound None.

(** An argument that is neither an array nor an object. *)
Definition scalar (v : Value) : bool :=
  match v with
  | Some (JArr _) | Some (JObj _) => false
  | _ => true
  end.

Definition not_null (c : option string) : M string :=
  match c with
  | Some s => ret s
  | None => raise (SqliteError "SQLITE_CONSTRAINT_NOTNULL")
  end.

(** CHECK (type IN ('notification', 'response')) *)
Definition check_type (s : string) : M MsgType :=
  if String.eqb s "notification" then ret notification
  else if String.eqb s "response" then ret response
  else raise (SqliteError "SQLITE_CONSTRAINT_CHECK").

Definition type_text (t : MsgType) : string :=
  match t with notification => "notification" | response => "response" end.

Definition has_endpoint (e : string) (s : Subscription) : bool :=
  String.eqb (endpoint s) e.
Definition has_url (u : string) (h : Webhook) : bool :=
  String.eqb (url h) u.
Definition has_id (i : string) (m : Message) : bool :=
  String.eqb (msg_id m) i.

(** stmts.insertSub.run(endpoint, p256dh, auth):
    INSERT OR REPLACE INTO subscriptions (endpoint, keys_p256dh, keys_auth).
    The row holding the same endpoint is deleted, the new row takes the
    next AUTOINCREMENT rowid and the default createdAt. *)
Definition insertSub_run (env : Env) (e p a : Value) : M unit :=
  bound <- lift (bind_all env 3 [e; p; a]) ;;
  e'' <- not_null (param 0 bound) ;;
  p'' <- not_null (param 1 bound) ;;
  a'' <- not_null (param 2 bound) ;;
  d <- get_db ;;
  if (MAX_ROWID <=? sub_seq d)%Z then raise (SqliteError "SQLITE_FULL")
  else
    let row := mkSub (sub_seq d + 1) e'' p'' a'' (now env) in
    let kept := filter (fun s => negb (has_endpoint e'' s)) (subscriptions d) in
    put_db (mkDB (kept ++ [row]) (sub_seq d + 1)
                 (messages d) (webhooks d) (hook_seq d)) ;;
    emit (EvInsertSub row).

(** stmts.deleteSub.run(endpoint): DELETE FROM subscriptions WHERE endpoint = ? *)
Definition deleteSub_run (env : Env) (e : Value) : M unit :=
  bound <- lift (bind_all env 1 [e]) ;;
  d <- get_db ;;
  match param 0 bound with
  | Some e'' =>
      put_db (mkDB (filter (fun s => negb (has_endpoint e'' s)) (subscriptions d))
                   (sub_seq d) (messages d) (webhooks d) (hook_seq d)) ;;
      emit (EvDeleteSub e'')
  | None => ret tt                (* endpoint = NULL matches no row *)
  end.

(** stmts.insertMessage.run(id, title, body, type, parentId, ui, data).
    [id] and [ty] are the string literals of the call; [uiJson] and
    [dataJson] are each a string or null and take the last two of the seven
    parameters, so the first five must come from the first five arguments.
    [id] is the primary key; [parentId], when not NULL, must be the id of
    a row of the table once the statement is done (foreign_keys = ON). *)
Definition insertMessage_run (env : Env) (id : string) (mtitle mbody : Value)
    (ty : MsgType) (parent : Value) (uiJson dataJson : option JsonText) : M unit :=
  bound <- lift (bind_first env 7 5
                   [Some (JStr id); mtitle; mbody; Some (JStr (type_text ty));
                    parent]) ;;
  i'' <- not_null (param 0 bound) ;;
  t'' <- not_null (param 1 bound) ;;
  b'' <- not_null (param 2 bound) ;;
  ty' <- not_null (param 3 bound) ;;
  ty'' <- check_type ty' ;;
  d <- get_db ;;
  if existsb (has_id i'') (messages d)
  then raise (SqliteError "SQLITE_CONSTRAINT_PRIMARYKEY")
  else
    let row := mkMsg i'' t'' b'' (now env) ty'' (param 4 bound) uiJson dataJson in
    let fk_ok := match param 4 bound with
                 | None => true
                 | Some p => existsb (has_id p) (messages d ++ [row])
                 end in
    if fk_ok then
      put_db (mkDB (subscriptions d) (sub_seq d) (messages d ++ [row])
                   (webhooks d) (hook_seq d)) ;;
      emit (EvInsertMessage row)
    else raise (SqliteError "SQLITE_CONSTRAINT_FOREIGNKEY").

(** stmts.insertWebhook.run(url, events):
    INSERT OR REPLACE INTO webhooks (url, events) *)
Definition insertWebhook_run (env : Env) (u ev : Value) : M unit :=
  bound <- lift (bind_all env 2 [u; ev]) ;;
  u'' <- not_null (param 0 bound) ;;
  ev'' <- not_null (param 1 bound) ;;
  d <- get_db ;;
  if (MAX_ROWID <=? hook_seq d)%Z then raise (SqliteError "SQLITE_FULL")
  else
    let row := mkHook (hook_seq d + 1) u'' ev'' (now env) in
    let kept := filter (fun h => negb (has_url u'' h)) (webhooks d) in
    put_db (mkDB (subscriptions d) (sub_seq d) (messages d)
                 (kept ++ [row]) (hook_seq d + 1)) ;;
    emit (EvInsertWebhook row).

(** stmts.deleteWebhook.run(url): DELETE FROM webhooks WHERE url = ? *)
Definition deleteWebhook_run (env : Env) (u : Value) : M unit :=
  bound <- lift (bind_all env 1 [u]) ;;
  d <- get_db ;;
  match param 0 bound with
  | Some u'' =>
      put_db (mkDB (subscriptions d) (sub_seq d) (messages d)
                   (filter (fun h => negb (has_url u'' h)) (webhooks d))
                   (hook_seq d)) ;;
      emit (EvDeleteWebhook u'')
  | None => ret tt
  end.

(** ** Event fan-out *)

(** broadcastWs(data): one send per client whose readyState is 1 (OPEN). *)
Definition broadcastWs (env : Env) (data : JSON) : M unit :=
  forEach (fun c : nat * nat =>
             if Nat.eqb (snd c) 1 then emit (EvWsSend (fst c) (Stringify data))
             else ret tt)
          (clients env).

(** The filter of fireWebhooks:
    h.events === "*" || h.events.split(",").includes(event) *)
Definition hook_matches (event : string) (h : Webhook) : bool :=
  String.eqb (events h) "*" || includes event (split "," (events h)).

(** fireWebhooks(event, payload): one fetch per matching hook, none awaited. *)
Definition fireWebhooks (event : string) (payload : JSON) : M unit :=
  all <- getAllWebhooks ;;
  let hooks := filter (hook_matches event) all in
  forEach (fun h => emit (EvFetch (url h) (Stringify payload))) hooks.

(** ** Push dispatch *)

Record ErrEntry := mkErr {
  err_status : option Z;
  err_body : option string;
  err_endpoint : string
}.

Record Results := mkResults {
  sent : nat;
  failed : nat;
  removed : nat;
  errors : list ErrEntry
}.

Definition pushSub (sub : Subscription) : PushSub :=
  mkPushSub (endpoint sub) (keys_p256dh sub) (keys_auth sub).

(** err.statusCode === 404 || err.statusCode === 410 *)
Definition is_gone (st : option Z) : bool :=
  match st with
  | Some c => (c =? 404)%Z || (c =? 410)%Z
  | None => false
  end.

(** The part of the callback of sendToAll that runs once the attempt for
    [sub] has settled. *)
Definition settled (env : Env) (payload : JsonText) (sub : Subscription)
    (results : Results) : M Results :=
  match sendNotification env (pushSub sub) payload None with
  | PushOk =>
      ret (mkResults (sent results + 1) (failed results) (removed results)
                     (errors results))
  | PushErr st b =>
      let entry := mkErr st b (slice0 60 (endpoint sub) ++ "...")%string in
      let results1 := mkResults (sent results) (failed results + 1)
                                (removed results) (errors results ++ [entry]) in
      if is_gone st then
        deleteSub_run env (Some (JStr (endpoint sub))) ;;
        ret (mkResults (sent results1) (failed results1) (removed results1 + 1)
                       (errors results1))
      else ret results1
  end.

Fixpoint settle_all (env : Env) (payload : JsonText) (order : list Subscription)
    (results : Results) : M Results :=
  match order with
  | [] => ret results
  | sub :: rest =>
      results' <- settled env payload sub results ;;
      settle_all env payload rest results'
  end.

(** sendToAll(subs, payload): every attempt is started, in the order of
    [subs]; the callbacks then resume in the order the attempts settle. *)
Definition sendToAll (env : Env) (subs : list Subscription) (payload : JsonText)
    : M Results :=
  forEach (fun sub => emit (EvPush (pushSub sub) payload None)) subs ;;
  settle_all env payload (settle env subs) (mkResults 0 0 0 []).

Definition jnat (n : nat) : JSON := JNum (Z.of_nat n).

Definition err_json (e : ErrEntry) : JSON :=
  obj [("status", option_map JNum (err_status e));
       ("body", option_map JStr (err_body e));
       ("endpoint", Some (JStr (err_endpoint e)))].

Definition results_json (r : Results) : JSON :=
  obj [("sent", Some (jnat (sent r)));
       ("failed", Some (jnat (failed r)));
       ("removed", Some (jnat (removed r)));
       ("errors", Some (JArr (map err_json (errors r))))].

(** ** Request handlers *)

Inductive Reply := Replied (status : nat) (json : JSON).

Definition error_json (msg : string) : JSON := obj [("error", Some (JStr msg))].
Definition ok_json : JSON := obj [("ok", Some (JBool true))].

(** app.get("/api/vapid-public-key") *)
Definition get_vapid_public_key (env : Env) : M Reply :=
  ret (Replied 200 (obj [("publicKey", Some (JStr (vapid_publicKey env)))])).

(** app.post("/api/subscribe") *)
Definition post_subscribe (env : Env) (req_body : JSON) : M Reply :=
  let endpoint := prop req_body "endpoint" in
  let keys := prop req_body "keys" in
  if negb (truthy endpoint) || negb (truthy (oprop keys "p256dh"))
     || negb (truthy (oprop keys "auth"))
  then ret (Replied 400 (error_json "Invalid subscription"))
  else
    insertSub_run env endpoint (oprop keys "p256dh") (oprop keys "auth") ;;
    count <- getSubCount ;;
    broadcastWs env (obj [("type", Some (JStr "subscription"));
                          ("count", Some (jnat count))]) ;;
    ret (Replied 200 ok_json).

(** app.delete("/api/subscribe") *)
Definition delete_subscribe (env : Env) (req_body : JSON) : M Reply :=
  let endpoint := prop req_body "endpoint" in
  if negb (truthy endpoint)
  then ret (Replied 400 (error_json "Missing endpoint"))
  else
    deleteSub_run env endpoint ;;
    count <- getSubCount ;;
    broadcastWs env (obj [("type", Some (JStr "subscription"));
                          ("count", Some (jnat count))]) ;;
    ret (Replied 200 ok_json).

Definition sub_json (s : Subscription) : JSON :=
  obj [("id", Some (JNum (sub_id s)));
       ("endpoint", Some (JStr (endpoint s)));
       ("keys_p256dh", Some (JStr (keys_p256dh s)));
       ("keys_auth", Some (JStr (keys_auth s)));
       ("createdAt", Some (jnat (sub_createdAt s)))].

(** app.get("/api/subscriptions") *)
Definition get_subscriptions : M Reply :=
  subs <- getAllSubs ;;
  ret (Replied 200 (obj [("subscriptions", Some (JArr (map sub_json subs)));
                         ("count", Some (jnat (List.length subs)))])).

(** app.post("/api/notify") *)
Definition post_notify (env : Env) (req_body : JSON) : M Reply :=
  let title := prop req_body "title" in
  let body := prop req_body "body" in
  let url := prop req_body "url" in
  let tag := prop req_body "tag" in
  let ui := prop req_body "ui" in
  if negb (truthy title) || negb (truthy body)
  then ret (Replied 400 (error_json "title and body required"))
  else
    let messageId := uuidv4 env in
    let uiJson := if truthy ui then option_map Stringify ui else None in
    insertMessage_run env messageId title body notification (Some JNull)
                      uiJson None ;;
    subs <- getAllSubs ;;
    let payload := Stringify (obj [("title", title); ("body", body);
                                   ("url", url); ("tag", tag);
                                   ("messageId", Some (JStr messageId))]) in
    results <- sendToAll env subs payload ;;
    broadcastWs env (obj [("type", Some (JStr "notification"));
                          ("messageId", Some (JStr messageId));
                          ("title", title); ("body", body);
                          ("ui", Some (or_null ui))]) ;;
    fireWebhooks "notification"
                 (obj [("event", Some (JStr "notification"));
                       ("messageId", Some (JStr messageId));
                       ("title", title); ("body", body)]) ;;
    ret (Replied 200 (obj [("messageId", Some (JStr messageId));
                           ("results", Some (results_json results))])).

(** m.ui ? JSON.parse(m.ui) : null *)
Definition parse_or_null (c : option JsonText) : JSON :=
  match c with
  | Some (Stringify v) => v
  | None => JNull
  end.

Definition msg_json (m : Message) : JSON :=
  obj [("id", Some (JStr (msg_id m)));
       ("title", Some (JStr (title m)));
       ("body", Some (JStr (body m)));
       ("sentAt", Some (jnat (sentAt m)));
       ("type", Some (JStr (type_text (type m))));
       ("parentId", Some (match parentId m with
                          | Some p => JStr p
                          | None => JNull
                          end));
       ("ui", Some (parse_or_null (ui m)));
       ("data", Some (parse_or_null (data m)))].

(** app.get("/api/messages") *)
Definition get_messages : M Reply :=
  d <- get_db ;;
  ret (Replied 200 (obj [("messages",
                          Some (JArr (map msg_json (getMessages_all d))))])).

(** app.post("/api/respond") *)
Definition post_respond (env : Env) (req_body : JSON) : M Reply :=
  let messageId := prop req_body "messageId" in
  let text := prop req_body "text" in
  let data := prop req_body "data" in
  if negb (truthy text) && negb (truthy data)
  then ret (Replied 400 (error_json "text or data required"))
  else
    messageId <-
      (if negb (truthy messageId) then
         d <- get_db ;;
         match latest_notification d with
         | Some latest => ret (Some (JStr (msg_id latest)))
         | None => ret (Some JNull)
         end
       else ret messageId) ;;
    let responseId := uuidv4 env in
    let dataJson := if truthy data then option_map Stringify data else None in
    insertMessage_run env responseId (Some (JStr "Response"))
                      (if truthy text then text else Some (JStr ""))
                      response messageId None dataJson ;;
    broadcastWs env (obj [("type", Some (JStr "response"));
                          ("responseId", Some (JStr responseId));
                          ("messageId", messageId);
                          ("text", text); ("data", data)]) ;;
    fireWebhooks "response"
                 (obj [("event", Some (JStr "response"));
                       ("responseId", Some (JStr responseId));
                       ("messageId", messageId);
                       ("text", text); ("data", data)]) ;;
    ret (Replied 200 (obj [("ok", Some (JBool true));
                           ("responseId", Some (JStr responseId))])).

(** The payload of the probe push of the purge route. *)
Definition probe : JsonText :=
  Stringify (obj [("title", Some (JStr "oncall"));
                  ("body", Some (JStr "subscription verified"))]).

(** The callback of the purge route once the probe for [sub] has settled. *)
Definition probe_settled (env : Env) (sub : Subscription) (removed : nat) : M nat :=
  match sendNotification env (pushSub sub) probe (Some 0) with
  | PushOk => ret removed
  | PushErr st _ =>
      if is_gone st then
        deleteSub_run env (Some (JStr (endpoint sub))) ;;
        ret (removed + 1)
      else ret removed
  end.

Fixpoint probe_all (env : Env) (order : list Subscription) (removed : nat) : M nat :=
  match order with
  | [] => ret removed
  | sub :: rest =>
      removed' <- probe_settled env sub removed ;;
      probe_all env rest removed'
  end.

(** app.post("/api/purge") *)
Definition post_purge (env : Env) : M Reply :=
  subs <- getAllSubs ;;
  forEach (fun sub => emit (EvPush (pushSub sub) probe (Some 0))) subs ;;
  removed <- probe_all env (settle env subs) 0 ;;
  count <- getSubCount ;;
  broadcastWs env (obj [("type", Some (JStr "subscription"));
                        ("count", Some (jnat count))]) ;;
  remaining <- getSubCount ;;
  ret (Replied 200 (obj [("ok", Some (JBool true));
                         ("removed", Some (jnat removed));
                         ("remaining", Some (jnat remaining))])).

(** app.post("/api/webhooks") *)
Definition post_webhooks (env : Env) (req_body : JSON) : M Reply :=
  let url := prop req_body "url" in
  let events := prop req_body "events" in
  if negb (truthy url)
  then ret (Replied 400 (error_json "url required"))
  else
    insertWebhook_run env url
                      (if truthy events then events else Some (JStr "response")) ;;
    ret (Replied 200 ok_json).

(** app.delete("/api/webhooks") *)
Definition delete_webhooks (env : Env) (req_body : JSON) : M Reply :=
  let url := prop req_body "url" in
  if negb (truthy url)
  then ret (Replied 400 (error_json "url required"))
  else
    deleteWebhook_run env url ;;
    ret (Replied 200 ok_json).

Definition hook_json (h : Webhook) : JSON :=
  obj [("id", Some (JNum (hook_id h)));
       ("url", Some (JStr (url h)));
       ("events", Some (JStr (events h)));
       ("createdAt", Some (jnat (hook_createdAt h)))].

(** app.get("/api/webhooks") *)
Definition get_webhooks : M Reply :=
  hooks <- getAllWebhooks ;;
  ret (Replied 200 (obj [("webhooks", Some (JArr (map hook_json hooks)))])).

(** wss.on("connection"): the key is checked once, when the connection is
    made; [key] is url.searchParams.get("key"), [None] when absent. *)
Definition ws_connection (env : Env) (ws : nat) (key : option string) : M unit :=
  let authorised :=
    match key with
    | Some k => String.eqb k (API_KEY env)
    | None => false
    end in
  if negb authorised then emit (EvWsClose ws 4401)
  else
    count <- getSubCount ;;
    emit (EvWsSend ws (Stringify (obj [("type", Some (JStr "init"));
                                       ("count", Some (jnat count))]))).

(** The "message" handler of a WebSocket connection. [raw] is what
    JSON.parse made of the frame, [None] when it threw. *)
Definition ws_message (env : Env) (raw : option JSON) : M unit :=
  match raw with
  | None => ret tt
  | Some JNull => raise (TypeError "Cannot read properties of null")
  | Some msg =>
      let type_is_notify :=
        match prop msg "type" with
        | Some (JStr t) => String.eqb t "notify"
        | _ => false
        end in
      if type_is_notify && truthy (prop msg "title") && truthy (prop msg "body")
      then
        let messageId := uuidv4 env in
        insertMessage_run env messageId (prop msg "title") (prop msg "body")
                          notification (Some JNull) None None ;;
        subs <- getAllSubs ;;
        let payload := Stringify (obj [("title", prop msg "title");
                                       ("body", prop msg "body");
                                       ("messageId", Some (JStr messageId))]) in
        results <- sendToAll env subs payload ;;
        broadcastWs env (obj [("type", Some (JStr "notification"));
                              ("messageId", Some (JStr messageId));
                              ("title", prop msg "title");
                              ("body", prop msg "body");
                              ("results", Some (results_json results))])
      else ret tt
  end.

(** ** Routing *)

Inductive Route :=
| GET_vapid_public_key
| POST_subscribe | DELETE_subscribe | GET_subscriptions
| POST_notify | GET_messages | POST_respond | POST_purge
| POST_webhooks | DELETE_webhooks | GET_webhooks.

Record HttpRequest := mkReq {
  route : Route;
  authorization : option string;      (* req.headers.authorization *)
  query_key : option string;          (* req.query.key *)
  req_body : JSON
}.

(** checkAuth: the key is the bearer token when the header carries one,
    the query parameter otherwise. *)
Definition checkAuth (env : Env) (req : HttpRequest) : bool :=
  let key :=
    match authorization req with
    | Some header =>
        if String.prefix "Bearer " header then Some (slice_from 7 header)
        else query_key req
    | None => query_key req
    end in
  match key with
  | Some k => String.eqb k (API_KEY env)
  | None => false
  end.

Definition http (env : Env) (req : HttpRequest) : M Reply :=
  if negb (checkAuth env req)
  then ret (Replied 401 (error_json "Unauthorized"))
  else
    match route req with
    | GET_vapid_public_key => get_vapid_public_key env
    | POST_subscribe => post_subscribe env (req_body req)
    | DELETE_subscribe => delete_subscribe env (req_body req)
    | GET_subscriptions => get_subscriptions
    | POST_notify => post_notify env (req_body req)
    | GET_messages => get_messages
    | POST_respond => post_respond env (req_body req)
    | POST_purge => post_purge env
    | POST_webhooks => post_webhooks env (req_body req)
    | DELETE_webhooks => delete_webhooks env (req_body req)
    | GET_webhooks => get_webhooks
    end.

(** One input of the server: an HTTP request under /api, a new WebSocket
    connection, or a frame on an authorised WebSocket connection. *)
Inductive Input :=
| Http (req : HttpRequest)
| WsConnect (ws : nat) (key : option string)
| WsFrame (raw : option JSON).

Definition handle (env : Env) (i : Input) : M (option Reply) :=
  match i with
  | Http req => r <- http env req ;; ret (Some r)
  | WsConnect ws key => ws_connection env ws key ;; ret None
  | WsFrame raw => ws_message env raw ;; ret None
  end.

(** The store after an input, whether the handler replied or raised. *)
Definition step (d : DB) (ei : Env * Input) : DB :=
  db (snd (run (handle (fst ei) (snd ei)) d)).

(** The stores the server can be in: those a sequence of inputs leads to
    from the empty database. *)
Inductive reachable : DB -> Prop :=
| reach_init : reachable empty_db
| reach_step d env i : reachable d -> reachable (step d (env, i)).

(** ** Start-up: the VAPID keys *)

(** The three variables loadVapidKeys reads from process.env; [None] when
    a variable is not set. *)
Record ProcessEnv := mkProcessEnv {
  VAPID_PUBLIC_KEY : option string;
  VAPID_PRIVATE_KEY : option string;
  VAPID_SUBJECT : option string
}.

(** data/vapid.json: [None] when the file does not exist, otherwise what
    JSON.parse makes of its text, [Some None] when it throws. *)
Definition VapidFile := option (option JSON).

(** The object loadVapidKeys returns, as the three properties the caller
    reads from it. *)
Record Vapid := mkVapid {
  vapid_subject : Value;
  vapid_public : Value;
  vapid_private : Value
}.

Inductive StartupError :=
| SyntaxError          (* JSON.parse on the text of the file *)
| NullVapid.           (* a property of null is set or read *)

Inductive Started :=
| Loaded (v : Vapid)
| Failed (e : StartupError).

(** Truthiness of an environment variable: set and not empty. *)
Definition env_set (v : option string) : bool :=
  match v with
  | Some s => nonempty s
  | None => false
  end.

Definition env_full (penv : ProcessEnv) : bool :=
  env_set (VAPID_PUBLIC_KEY penv) && env_set (VAPID_PRIVATE_KEY penv)
  && env_set (VAPID_SUBJECT penv).

(** [if (envSubject) stored.subject = envSubject; return stored], seen
    through the reads of subject, publicKey and privateKey that follow. A
    property set on a number, a string or a boolean is dropped; an array
    keeps it. *)
Definition stored_vapid (stored : JSON) (envSubject : option string) : Started :=
  match stored with
  | JNull => Failed NullVapid
  | JObj fs =>
      Loaded (mkVapid (if env_set envSubject then option_map JStr envSubject
                       else assoc "subject" fs)
                      (assoc "publicKey" fs) (assoc "privateKey" fs))
  | JArr _ =>
      Loaded (mkVapid (if env_set envSubject then option_map JStr envSubject
                       else None)
                      None None)
  | _ => Loaded (mkVapid None None None)
  end.

(** loadVapidKeys(), with vapid.json as the state; [generated] is what
    webpush.generateVAPIDKeys() would return (public key, private key). *)
Definition loadVapidKeys (penv : ProcessEnv) (generated : string * string)
    (file : VapidFile) : Started * VapidFile :=
  if env_full penv
  then (Loaded (mkVapid (option_map JStr (VAPID_SUBJECT penv))
                        (option_map JStr (VAPID_PUBLIC_KEY penv))
                        (option_map JStr (VAPID_PRIVATE_KEY penv))),
        file)
  else
    match file with
    | Some None => (Failed SyntaxError, file)
    | Some (Some stored) => (stored_vapid stored (VAPID_SUBJECT penv), file)
    | None =>
        let subject :=
          match VAPID_SUBJECT penv with
          | Some s => if nonempty s then s else "mailto:oncall@localhost"
          | None => "mailto:oncall@localhost"
          end in
        let vapid := obj [("publicKey", Some (JStr (fst generated)));
                          ("privateKey", Some (JStr (snd generated)));
                          ("subject", Some (JStr subject))] in
        (Loaded (mkVapid (Some (JStr subject)) (Some (JStr (fst generated)))
                         (Some (JStr (snd generated)))),
         Some (Some vapid))
    end.

(** vapid.json after a sequence of starts of the server. *)
Definition restarts (file : VapidFile)
    (starts : list (ProcessEnv * (string * string))) : VapidFile :=
  fold_left (fun f s => snd (loadVapidKeys (fst s) (snd s) f)) starts file.

(** ** The service worker (public/sw.js) *)

(** [v || d] *)
Definition or_default (v : Value) (d : JSON) : JSON :=
  match v with
  | Some j => if truthy v then j else d
  | None => d
  end.







(** ** Start-up: the schema *)

(** The tables of oncall.db with their columns in declaration order;
    [None] for a table that does not exist. *)
Record Catalog := mkCatalog {
  t_subscriptions : option (list string);
  t_messages : option (list string);
  t_webhooks : option (list string)
}.

Inductive DdlError :=
| DuplicateColumn
| NoSuchTable.

(** CREATE TABLE IF NOT EXISTS *)
Definition create_if_not_exists (t : option (list string)) (cols : list string)
    : option (list string) :=
  match t with
  | Some have => Some have
  | None => Some cols
  end.

(** ALTER TABLE ... ADD COLUMN *)
Definition add_column (t : option (list string)) (c : string)
    : option (list string) + DdlError :=
  match t with
  | None => inr NoSuchTable
  | Some cols => if includes c cols then inr DuplicateColumn
                 else inl (Some (cols ++ [c]))
  end.

(** [try { db.exec("ALTER TABLE ... ADD COLUMN c") } catch {}] *)
Definition try_add_column (t : option (list string)) (c : string)
    : option (list string) :=
  match add_column t c with
  | inl t' => t'
  | inr _ => t
  end.

Definition subscriptions_columns : list string :=
  ["id"; "endpoint"; "keys_p256dh"; "keys_auth"; "createdAt"].
Definition messages_columns : list string :=
  ["id"; "title"; "body"; "sentAt"; "type"; "parentId"; "ui"; "data"].
Definition webhooks_columns : list string :=
  ["id"; "url"; "events"; "createdAt"].

(** The db.exec calls of the start-up: the three CREATE TABLE IF NOT EXISTS
    and the two guarded ALTER TABLE. *)
Definition open_schema (c : Catalog) : Catalog :=
  let subs := create_if_not_exists (t_subscriptions c) subscriptions_columns in
  let msgs := create_if_not_exists (t_messages c) messages_columns in
  let hooks := create_if_not_exists (t_webhooks c) webhooks_columns in
  mkCatalog subs (try_add_column (try_add_column msgs "ui") "data") hooks.

(** The columns a statement names must exist for db.prepare to accept it. *)
Definition has_columns (t : option (list string)) (named : list string) : bool :=
  match t with
  | Some cols => forallb (fun c => includes c cols) named
  | None => false
  end.

(** db.prepare accepts the nine statements of [stmts]. *)
Definition prepares (c : Catalog) : bool :=
  has_columns (t_subscriptions c)
              ["endpoint"; "keys_p256dh"; "keys_auth"; "createdAt"]
  && has_columns (t_messages c)
                 ["id"; "title"; "body"; "sentAt"; "type"; "parentId"; "ui"; "data"]
  && has_columns (t_webhooks c) ["url"; "events"].

(** * Vocabulary of the statements *)

(** The frames broadcastWs sends. *)
Definition ws_sends (env : Env) (data : JSON) : list Event :=
  map (fun c : nat * nat => EvWsSend (fst c) (Stringify data))
      (filter (fun c : nat * nat => Nat.eqb (snd c) 1) (clients env)).

(** The requests fireWebhooks issues. *)
Definition hook_calls (event : string) (payload : JSON) (d : DB) : list Event :=
  map (fun h => EvFetch (url h) (Stringify payload))
      (filter (hook_matches event) (webhooks d)).

(** The store [d] with [subs] as its subscriptions table. *)
Definition with_subs (d : DB) (subs : list Subscription) : DB :=
  mkDB subs (sub_seq d) (messages d) (webhooks d) (hook_seq d).

(** The rows left once the endpoints [es] have been deleted. *)
Definition prune (es : list string) (subs : list Subscription) : list Subscription :=
  filter (fun s => negb (includes (endpoint s) es)) subs.

(** How the attempt for one subscription ends, as sendToAll and the purge
    route classify it. *)
Section Attempts.
Variable env : Env.
Variable payload : JsonText.
Variable ttl : option nat.

Definition attempt_ok (sub : Subscription) : bool :=
  match sendNotification env (pushSub sub) payload ttl with
  | PushOk => true
  | PushErr _ _ => false
  end.

Definition attempt_gone (sub : Subscription) : bool :=
  match sendNotification env (pushSub sub) payload ttl with
  | PushOk => false
  | PushErr st _ => is_gone st
  end.

Definition attempt_error (sub : Subscription) : list ErrEntry :=
  match sendNotification env (pushSub sub) payload ttl with
  | PushOk => []
  | PushErr st b => [mkErr st b (slice0 60 (endpoint sub) ++ "...")%string]
  end.

(** The number of subscriptions of [l] that satisfy [f]. *)
Definition count (f : Subscription -> bool) (l : list Subscription) : nat :=
  List.length (filter f l).

(** The endpoints deleted while the attempts for [l] settle. *)
Definition gone_endpoints (l : list Subscription) : list string :=
  map endpoint (filter attempt_gone l).

End Attempts.

(** The store [d] with [msgs] as its messages table. *)
Definition with_msgs (d : DB) (msgs : list Message) : DB :=
  mkDB (subscriptions d) (sub_seq d) msgs (webhooks d) (hook_seq d).

(** The JavaScript value handed to the [parentId] parameter. *)
Definition parent_value (p : option string) : Value :=
  Some (match p with Some i => JStr i | None => JNull end).

(** The effects C1 orders: writing a message row, starting a push. *)
Definition is_insert_or_push (e : Event) : bool :=
  match e with
  | EvInsertMessage _ | EvPush _ _ _ => true
  | _ => false
  end.

Section TableInvariant.
Variable A : Type.
Variable rowid : A -> Z.
Variable ukey : A -> string.          (* the UNIQUE column *)

(** A table with an AUTOINCREMENT rowid and a UNIQUE column: the rows are
    in rowid order, no rowid exceeds the counter, no key occurs twice. *)
Definition table_ok (seq : Z) (rows : list A) : Prop :=
  NoDup (map ukey rows)
  /\ StronglySorted Z.lt (map rowid rows)
  /\ Forall (fun r => (0 < rowid r <= seq)%Z) rows
  /\ (0 <= seq)%Z.

End TableInvariant.

(** The constraints of the schema: the two AUTOINCREMENT tables with their
    UNIQUE column, and the primary key of messages. *)
Definition db_ok (d : DB) : Prop :=
  table_ok sub_id endpoint (sub_seq d) (subscriptions d)
  /\ table_ok hook_id url (hook_seq d) (webhooks d)
  /\ NoDup (map msg_id (messages d)).

(** [m] keeps the property [P] of the store, whether it returns or raises. *)
Definition keeps (P : DB -> Prop) A (m : M A) : Prop :=
  forall w, P (db w) -> P (db (snd (m w))).

(** A notification carries no response data; a response carries the fixed
    title. *)
Definition kind_ok (m : Message) : Prop :=
  match type m with
  | notification => data m = None
  | response => title m = "Response"
  end.

Definition msg_inv (d : DB) : Prop := Forall kind_ok (messages d).

(** A message whose title is not the fixed label is a notification without
    response data. *)
Definition title_ok (m : Message) : Prop :=
  title m = "Response" \/ (type m = notification /\ data m = None).

Definition title_inv (d : DB) : Prop := Forall title_ok (messages d).

(** The text of a respond request: absent, or a string. *)
Definition is_text (v : Value) : bool :=
  match v with
  | None | Some (JStr _) => true
  | _ => false
  end.

(** Any effect but a webhook request. *)
Definition not_fetch (e : Event) : Prop :=
  match e with EvFetch _ _ => False | _ => True end.

Section Listing.
Variable A : Type.
Variable key : A -> Time.

(** A listing in which no row is followed by a more recent one. *)
Definition newest_first : list A -> Prop :=
  StronglySorted (fun a b => key b <= key a).

(** Rows at least as recent as [x], and rows strictly older. *)
Definition not_older (x : A) (l : list A) : list A :=
  filter (fun y => Nat.leb (key x) (key y)) l.
Definition older (x : A) (l : list A) : list A :=
  filter (fun y => Nat.ltb (key y) (key x)) l.

End Listing.

(** The store after INSERT OR REPLACE of the row [row]. *)
Definition upserted (d : DB) (row : Subscription) : DB :=
  mkDB (filter (fun s => negb (has_endpoint (endpoint row) s)) (subscriptions d)
        ++ [row])
       (sub_seq d + 1) (messages d) (webhooks d) (hook_seq d).

(** A subscribe request with an endpoint and both keys, all of them
    non-empty strings. *)
Definition subscribe_request (req : JSON) (e p a : string) : Prop :=
  prop req "endpoint" = Some (JStr e) /\ nonempty e = true
  /\ oprop (prop req "keys") "p256dh" = Some (JStr p) /\ nonempty p = true
  /\ oprop (prop req "keys") "auth" = Some (JStr a) /\ nonempty a = true.

(** The newest-first listing of the subscriptions other than [e]. *)
Definition other_subs (e : string) (d : DB) : list Subscription :=
  order_by_desc sub_createdAt
                (filter (fun s => negb (has_endpoint e s)) (subscriptions d)).

(** The parentId of [m], when it has one, is the id of a message of [msgs]. *)
Definition parent_ok (msgs : list Message) (m : Message) : Prop :=
  match parentId m with
  | Some p => In p (map msg_id msgs)
  | None => True
  end.

(** The foreign key of the messages table. *)
Definition fk_inv (d : DB) : Prop := Forall (parent_ok (messages d)) (messages d).

(** The effects that write to the subscriptions or webhooks table, or start
    a push. *)
Definition is_registry_effect (e : Event) : bool :=
  match e with
  | EvInsertSub _ | EvDeleteSub _ | EvInsertWebhook _ | EvDeleteWebhook _
  | EvPush _ _ _ => true
  | _ => false
  end.

(** The payload post_notify hands to sendToAll for the request [req] and the
    message id [id]. *)
Definition notify_payload (req : JSON) (id : string) : JsonText :=
  Stringify (obj [("title", prop req "title"); ("body", prop req "body");
                  ("url", prop req "url"); ("tag", prop req "tag");
                  ("messageId", Some (JStr id))]).

(** The payload the WebSocket notify path hands to sendToAll. *)
Definition ws_payload (msg : JSON) (id : string) : JsonText :=
  Stringify (obj [("title", prop msg "title"); ("body", prop msg "body");
                  ("messageId", Some (JStr id))]).

(** The store once a dispatch of [payload] to all subscriptions of [d] has
    settled, the row [row] having been written to the log before. *)
Definition dispatched (env : Env) (payload : JsonText) (d : DB) (row : Message) : DB :=
  with_subs (with_msgs d (messages d ++ [row]))
            (prune (gone_endpoints env payload None (settle env (getAllSubs_all d)))
                   (subscriptions d)).

(** The push attempts and the deletions of such a dispatch, in order. *)
Definition dispatch_trace (env : Env) (payload : JsonText) (d : DB) : list Event :=
  map (fun s => EvPush (pushSub s) payload None) (getAllSubs_all d)
  ++ map EvDeleteSub
         (gone_endpoints env payload None (settle env (getAllSubs_all d))).

(** A webhook request. *)
Definition is_fetch (e : Event) : bool :=
  match e with EvFetch _ _ => true | _ => false end.

(** A write to the message log. *)
Definition is_message_insert (e : Event) : bool :=
  match e with EvInsertMessage _ => true | _ => false end.

(** The log of [d'] extends the log [msgs]. *)
Definition extends_log (msgs : list Message) (d' : DB) : Prop :=
  exists more, messages d' = msgs ++ more.

(** Against the store [d]: the AUTOINCREMENT counters of [d'] have not
    gone back, and each row of its subscriptions and webhooks tables is a
    row of [d] or carries a rowid above the counter of [d]. *)
Definition rows_kept_or_new (d d' : DB) : Prop :=
  (sub_seq d <= sub_seq d')%Z
  /\ (hook_seq d <= hook_seq d')%Z
  /\ Forall (fun s => In s (subscriptions d) \/ (sub_seq d < sub_id s)%Z)
            (subscriptions d')
  /\ Forall (fun h => In h (webhooks d) \/ (hook_seq d < hook_id h)%Z)
            (webhooks d').

(** The store after INSERT OR REPLACE of the webhook row [row]. *)
Definition hook_upserted (d : DB) (row : Webhook) : DB :=
  mkDB (subscriptions d) (sub_seq d) (messages d)
       (filter (fun h => negb (has_url (url row) h)) (webhooks d) ++ [row])
       (hook_seq d + 1).

(** The store after DELETE of the webhook with URL [u]. *)
Definition hook_deleted (d : DB) (u : string) : DB :=
  mkDB (subscriptions d) (sub_seq d) (messages d)
       (filter (fun h => negb (has_url u h)) (webhooks d)) (hook_seq d).

(** A frame sent to a WebSocket client. *)
Definition is_ws_send (e : Event) : bool :=
  match e with EvWsSend _ _ => true | _ => false end.

(** A deletion from the subscription registry. *)
Definition is_delete_sub (e : Event) : bool :=
  match e with EvDeleteSub _ => true | _ => false end.

(** The object the subscribe, unsubscribe and purge routes broadcast. *)
Definition count_frame (n : nat) : JSON :=
  obj [("type", Some (JStr "subscription")); ("count", Some (jnat n))].

(** The routes that write the subscription registry and announce its size. *)
Definition registry_route (r : Route) : bool :=
  match r with
  | POST_subscribe | DELETE_subscribe | POST_purge => true
  | _ => false
  end.

(** The handler answered with status 200. *)
Definition succeeded (out : Res Reply) : bool :=
  match out with
  | Ret (Replied status _) => Nat.eqb status 200
  | Raise _ => false
  end.

(** [m] sends no frame to a WebSocket client, whether it returns or raises. *)
Definition sends_no_frame A (m : M A) : Prop :=
  forall w, filter is_ws_send (trace (snd (m w))) = filter is_ws_send (trace w).

(** The reply of the purge route. *)
Definition purge_reply (removed remaining : nat) : Reply :=
  Replied 200 (obj [("ok", Some (JBool true));
                    ("removed", Some (jnat removed));
                    ("remaining", Some (jnat remaining))]).



(** The subject a start under [penv] reports when vapid.json holds
    [stored]. *)
Definition subject_or (penv : ProcessEnv) (stored : string) : string :=
  match VAPID_SUBJECT penv with
  | Some s => if nonempty s then s else stored
  | None => stored
  end.

(** The variables of [penv] with the two keys unset. *)
Definition without_keys (penv : ProcessEnv) : ProcessEnv :=
  mkProcessEnv None None (VAPID_SUBJECT penv).



(** The table [t], where it exists, has the columns [named]. *)
Definition at_least (named : list string) (t : option (list string)) : Prop :=
  match t with
  | Some cols => incl named cols
  | None => True
  end.

(** The table [t'] is [t] with columns added at the end, or is new. *)
Definition columns_kept (t t' : option (list string)) : Prop :=
  match t with
  | Some cols => exists more, t' = Some (cols ++ more)
  | None => True
  end.

(** Two readings of "the latest notification" of a log. Both ask for a
    notification whose sentAt no other notification exceeds; among the
    notifications of that sentAt, [most_recent_notification] is the one
    inserted last, [earliest_of_latest] the one inserted first. *)
Definition most_recent_notification (msgs : list Message) (n : Message) : Prop :=
  exists before after,
    msgs = before ++ n :: after
    /\ type n = notification
    /\ (forall m, In m before -> type m = notification -> sentAt m <= sentAt n)
    /\ (forall m, In m after -> type m = notification -> sentAt m < sentAt n).

Definition earliest_of_latest (msgs : list Message) (n : Message) : Prop :=
  exists before after,
    msgs = before ++ n :: after
    /\ type n = notification
    /\ (forall m, In m before -> type m = notification -> sentAt m < sentAt n)
    /\ (forall m, In m after -> type m = notification -> sentAt m <= sentAt n).

(** The filter of a webhook as the specification words it: a
    comma-delimited set of event kinds. [comma_join] writes a list of items
    with a comma between neighbours; an item itself holds no comma. *)
Fixpoint comma_free (s : string) : bool :=
  match s with
  | EmptyString => true
  | String c s' => negb (Ascii.eqb c ",") && comma_free s'
  end.

Fixpoint comma_join (items : list string) : string :=
  match items with
  | [] => ""
  | x :: rest =>
      match rest with
      | [] => x
      | _ :: _ => x ++ String "," (comma_join rest)
      end
  end.

(** [k] is an item of the comma-delimited set that the text [s] writes. *)
Definition in_event_set (k s : string) : Prop :=
  exists before after,
    s = comma_join (before ++ k :: after)
    /\ Forall (fun x => comma_free x = true) (before ++ k :: after).

(** ** Sample stores, environments and requests *)

Definition env0 : Env :=
  mkEnv "secret" 100 "id-1" (fun _ _ _ => PushOk) (fun l => l) [(1, 1); (2, 3)]
        (fun _ => "0.0") "BPk".

Definition sub_a : Subscription := mkSub 1 "https://push/a" "pa" "aa" 10.
Definition sub_b : Subscription := mkSub 2 "https://push/b" "pb" "ab" 50.
Definition db_ab : DB := mkDB [sub_a; sub_b] 2 [] [] 0.

Definition deploy : JSON := JObj [("title", JStr "Deploy"); ("body", JStr "Ready")].

Definition bearer : option string := Some "Bearer secret".

Definition approve : JSON :=
  JObj [("text", JStr "approved"); ("data", JObj [("env", JStr "prod")])].

Definition db_after_notify : DB :=
  step empty_db (env0, Http (mkReq POST_notify bearer None deploy)).

Definition db_thread : DB :=
  mkDB [] 0
       [mkMsg "n1" "Disk" "90% full" 5 notification None None None;
        mkMsg "n2" "Deploy" "Ready" 7 notification None None None;
        mkMsg "n3" "Build" "Green" 7 notification None None None;
        mkMsg "r1" "Response" "ack" 8 response (Some "n1") None None]
       [] 0.

(** A transport on which endpoint a is gone (410), endpoint c fails with a
    server error and every other endpoint accepts the push; the attempts
    settle in the reverse of the order they were started in. *)
Definition flaky (sub : PushSub) (_ : JsonText) (_ : option nat) : PushResult :=
  if String.eqb (ps_endpoint sub) "https://push/a" then PushErr (Some 410%Z) (Some "gone")
  else if String.eqb (ps_endpoint sub) "https://push/c" then PushErr (Some 500%Z) None
  else PushOk.

Definition env1 : Env :=
  mkEnv "secret" 200 "id-9" flaky (@rev Subscription) [(1, 1)] (fun _ => "0.0") "BPk".

Definition sub_c : Subscription := mkSub 3 "https://push/c" "pc" "ac" 50.
Definition db_abc : DB := mkDB [sub_a; sub_b; sub_c] 3 [] [] 0.

Definition hook_n : Webhook := mkHook 1 "https://hooks/n" "notification" 20.
Definition hook_all : Webhook := mkHook 2 "https://hooks/all" "*" 21.
Definition hook_rn : Webhook := mkHook 3 "https://hooks/rn" "response,notification" 22.
Definition db_hooks : DB := mkDB [] 0 [] [hook_n; hook_all; hook_rn] 3.

Definition resubscribe_a : JSON :=
  JObj [("endpoint", JStr "https://push/a");
        ("keys", JObj [("p256dh", JStr "pa2"); ("auth", JStr "aa2")])].

Definition env50 : Env :=
  mkEnv "secret" 50 "id-3" (fun _ _ _ => PushOk) (fun l => l) [] (fun _ => "0.0") "BPk".

Definition env2 : Env :=
  mkEnv "secret" 101 "id-2" (fun _ _ _ => PushOk) (fun l => l) [(7, 1)]
        (fun _ => "0.0") "BPk".

Definition db_after_respond : DB :=
  step db_after_notify (env2, Http (mkReq POST_respond bearer None approve)).

Definition reply_to (i : string) : JSON :=
  JObj [("messageId", JStr i); ("text", JStr "on it")].

Definition ws_alert : JSON :=
  JObj [("type", JStr "notify"); ("title", JStr "Alert");
        ("body", JStr "something happened"); ("ui", JArr [JStr "ignored"])].

Definition register_plain : JSON := JObj [("url", JStr "https://hooks/new")].
Definition register_n_as_response : JSON :=
  JObj [("url", JStr "https://hooks/n"); ("events", JStr "response")].
Definition unregister_all : JSON := JObj [("url", JStr "https://hooks/all")].

Definition long_endpoint : string :=
  "https://push.example.org/wpush/v2/gAAAAABl0123456789abcdefghijklmnopqrstuvwxyzABCDEFGH".

Definition sub_long : Subscription := mkSub 4 long_endpoint "pl" "al" 60.

Definition env_down : Env :=
  mkEnv "secret" 300 "id-7" (fun _ _ _ => PushErr (Some 503%Z) (Some "busy"))
        (fun l => l) [] (fun _ => "0.0") "BPk".

Definition purge_request : HttpRequest := mkReq POST_purge bearer None JNull.


Definition no_vars : ProcessEnv := mkProcessEnv None None None.
Definition keys_without_subject : ProcessEnv :=
  mkProcessEnv (Some "BEnvPublic") (Some "env-private") None.
Definition subject_only : ProcessEnv :=
  mkProcessEnv None None (Some "mailto:ops@example.org").
Definition all_vars : ProcessEnv :=
  mkProcessEnv (Some "BEnvPublic") (Some "env-private") (Some "mailto:ops@example.org").





Definition no_tables : Catalog := mkCatalog None None None.

(** The tables as the previous revision of the server created them. *)
Definition older_tables : Catalog :=
  mkCatalog (Some subscriptions_columns)
            (Some ["id"; "title"; "body"; "sentAt"; "type"; "parentId"])
            None.

(** A respond request whose text and messageId are arrays. *)
Definition shifted_respond : JSON :=
  JObj [("text", JArr []);
        ("messageId", JArr [JStr "notification"; JNull]);
        ("data", JObj [("x", JNum 1)])].

Definition shifted_row : Message :=
  mkMsg "id-1" "Response" "response" 100 notification None None
        (Some (Stringify (JObj [("x", JNum 1)]))).

(** * Verification *)

(** ** Running computations *)

Lemma bind_Ret A B (m : M A) (k : A -> M B) w a w' :
  m w = (Ret a, w') -> bind m k w = k a w'.
Proof. unfold bind; intros ->; reflexivity. Qed.

Lemma bind_Raise A B (m : M A) (k : A -> M B) w e w' :
  m w = (Raise e, w') -> bind m k w = (Raise e, w').
Proof. unfold bind; intros ->; reflexivity. Qed.

Lemma world_eta w : mkWorld (db w) (trace w) = w.
Proof. destruct w; reflexivity. Qed.

Lemma forEach_emit A (f : A -> Event) l w :
  forEach (fun x => emit (f x)) l w
  = (Ret tt, mkWorld (db w) (trace w ++ map f l)).
Proof.
  revert w; induction l as [|x l IH]; intros w; simpl.
  - rewrite app_nil_r, world_eta; reflexivity.
  - unfold bind, emit at 1. rewrite IH; simpl.
    rewrite <- app_assoc; reflexivity.
Qed.

Lemma broadcastWs_run env data w :
  broadcastWs env data w = (Ret tt, mkWorld (db w) (trace w ++ ws_sends env data)).
Proof.
  unfold broadcastWs, ws_sends.
  generalize (clients env) as cs. intros cs; revert w.
  induction cs as [|c cs IH]; intros w; simpl.
  - rewrite app_nil_r, world_eta; reflexivity.
  - unfold bind. destruct (Nat.eqb (snd c) 1); simpl.
    + unfold emit at 1. rewrite IH; simpl. rewrite <- app_assoc; reflexivity.
    + unfold ret at 1. apply IH.
Qed.

Lemma fireWebhooks_run event payload w :
  fireWebhooks event payload w
  = (Ret tt, mkWorld (db w) (trace w ++ hook_calls event payload (db w))).
Proof.
  unfold fireWebhooks, getAllWebhooks, getAllWebhooks_all, get_db, bind, ret.
  simpl. apply forEach_emit.
Qed.

(** ** The dispatcher, attempt by attempt *)

Lemma gone_not_ok env payload ttl sub :
  attempt_gone env payload ttl sub = true -> attempt_ok env payload ttl sub = false.
Proof.
  unfold attempt_gone, attempt_ok.
  destruct (sendNotification env (pushSub sub) payload ttl); congruence.
Qed.

Lemma prune_nil subs : prune [] subs = subs.
Proof.
  unfold prune; induction subs as [|s subs IH]; simpl in *; [reflexivity|].
  now f_equal.
Qed.

Lemma prune_cons e es subs :
  prune es (filter (fun s => negb (has_endpoint e s)) subs) = prune (e :: es) subs.
Proof.
  unfold prune, includes, has_endpoint.
  induction subs as [|s subs IH]; simpl; [reflexivity|].
  destruct (String.eqb (endpoint s) e); simpl; [exact IH|].
  destruct (existsb (String.eqb (endpoint s)) es); simpl; [exact IH|].
  now rewrite IH.
Qed.

Lemma prune_step e es subs : prune es (prune [e] subs) = prune (e :: es) subs.
Proof.
  unfold prune, includes.
  induction subs as [|s subs IH]; simpl; [reflexivity|].
  destruct (String.eqb (endpoint s) e); simpl; [exact IH|].
  destruct (existsb (String.eqb (endpoint s)) es); simpl; [exact IH|].
  now f_equal.
Qed.

Lemma deleteSub_run_str env e w :
  deleteSub_run env (Some (JStr e)) w
  = (Ret tt, mkWorld (with_subs (db w) (prune [e] (subscriptions (db w))))
                     (trace w ++ [EvDeleteSub e])).
Proof.
  unfold deleteSub_run, bind, lift, ret, get_db, put_db, emit; simpl.
  rewrite <- prune_cons, prune_nil. reflexivity.
Qed.

Lemma with_subs_same d : with_subs d (subscriptions d) = d.
Proof. destruct d; reflexivity. Qed.

(** Case analysis on the outcome of the attempt for [sub], with the three
    classifiers rewritten to their values. *)
Ltac case_attempt env payload ttl sub :=
  let E := fresh "E" in
  let st := fresh "st" in
  let b := fresh "b" in
  let Hok := fresh "Hok" in
  let Hgone := fresh "Hgone" in
  let Herr := fresh "Herr" in
  pose proof (eq_refl (attempt_ok env payload ttl sub)) as Hok;
  pose proof (eq_refl (attempt_gone env payload ttl sub)) as Hgone;
  pose proof (eq_refl (attempt_error env payload ttl sub)) as Herr;
  unfold attempt_ok in Hok at 2;
  unfold attempt_gone in Hgone at 2;
  unfold attempt_error in Herr at 2;
  destruct (sendNotification env (pushSub sub) payload ttl) as [|st b] eqn:E;
  rewrite ?Hok, ?Hgone, ?Herr.

Ltac same_run :=
  cbn [List.length];
  apply f_equal2;
  [ apply f_equal; first [ reflexivity | lia | f_equal; first [reflexivity | lia] ]
  | reflexivity ].

Lemma settle_all_run env payload order : forall results w,
  settle_all env payload order results w
  = (Ret (mkResults
            (sent results + count (attempt_ok env payload None) order)
            (failed results
             + count (fun s => negb (attempt_ok env payload None s)) order)
            (removed results + count (attempt_gone env payload None) order)
            (errors results ++ flat_map (attempt_error env payload None) order)),
     mkWorld (with_subs (db w)
                (prune (gone_endpoints env payload None order)
                       (subscriptions (db w))))
             (trace w ++ map EvDeleteSub (gone_endpoints env payload None order))).
Proof.
  unfold count, gone_endpoints.
  induction order as [|sub rest IH]; intros results w.
  - simpl. rewrite prune_nil, with_subs_same, !app_nil_r, !Nat.add_0_r, world_eta.
    destruct results; reflexivity.
  - cbn [settle_all filter flat_map]. unfold bind, settled.
    case_attempt env payload (@None nat) sub; cbn [negb].
    + cbn [ret]. rewrite IH; cbn [sent failed removed errors db trace List.length app].
      same_run.
    + destruct (is_gone st) eqn:G.
      * unfold bind. rewrite deleteSub_run_str. cbn [ret].
        rewrite IH; cbn [sent failed removed errors db trace List.length app map
                         with_subs subscriptions sub_seq messages webhooks hook_seq].
        rewrite prune_step, <- !app_assoc; cbn [app].
        same_run.
      * cbn [ret]. rewrite IH; cbn [sent failed removed errors db trace List.length app].
        rewrite <- !app_assoc; cbn [app].
        same_run.
Qed.

Lemma sendToAll_run env subs payload w :
  sendToAll env subs payload w
  = (Ret (mkResults
            (count (attempt_ok env payload None) (settle env subs))
            (count (fun s => negb (attempt_ok env payload None s)) (settle env subs))
            (count (attempt_gone env payload None) (settle env subs))
            (flat_map (attempt_error env payload None) (settle env subs))),
     mkWorld (with_subs (db w)
                (prune (gone_endpoints env payload None (settle env subs))
                       (subscriptions (db w))))
             (trace w
              ++ map (fun s => EvPush (pushSub s) payload None) subs
              ++ map EvDeleteSub
                     (gone_endpoints env payload None (settle env subs)))).
Proof.
  unfold sendToAll.
  erewrite bind_Ret by apply forEach_emit.
  rewrite settle_all_run; simpl. rewrite <- app_assoc. reflexivity.
Qed.

Lemma probe_all_run env order : forall removed w,
  probe_all env order removed w
  = (Ret (removed + count (attempt_gone env probe (Some 0)) order),
     mkWorld (with_subs (db w)
                (prune (gone_endpoints env probe (Some 0) order)
                       (subscriptions (db w))))
             (trace w ++ map EvDeleteSub (gone_endpoints env probe (Some 0) order))).
Proof.
  unfold count, gone_endpoints.
  induction order as [|sub rest IH]; intros removed w.
  - simpl. rewrite prune_nil, with_subs_same, app_nil_r, Nat.add_0_r, world_eta.
    reflexivity.
  - cbn [probe_all filter]. unfold bind, probe_settled.
    case_attempt env probe (Some 0) sub.
    + cbn [ret]. apply IH.
    + destruct (is_gone st) eqn:G.
      * unfold bind. rewrite deleteSub_run_str. cbn [ret].
        rewrite IH; cbn [db trace List.length app map
                         with_subs subscriptions sub_seq messages webhooks hook_seq].
        rewrite prune_step, <- !app_assoc; cbn [app].
        same_run.
      * cbn [ret]. apply IH.
Qed.

(** ** The message log *)

Lemma existsb_has_id_app i l1 l2 :
  existsb (has_id i) (l1 ++ l2) = existsb (has_id i) l1 || existsb (has_id i) l2.
Proof. apply existsb_app. Qed.

Lemma check_type_text ty w : check_type (type_text ty) w = (Ret ty, w).
Proof. destruct ty; reflexivity. Qed.

Lemma insertMessage_run_ok env id t b ty p u dt w :
  existsb (has_id id) (messages (db w)) = false ->
  match p with
  | Some i => existsb (has_id i) (messages (db w)) = true
  | None => True
  end ->
  let row := mkMsg id t b (now env) ty p u dt in
  insertMessage_run env id (Some (JStr t)) (Some (JStr b)) ty (parent_value p) u dt w
  = (Ret tt, mkWorld (with_msgs (db w) (messages (db w) ++ [row]))
                     (trace w ++ [EvInsertMessage row])).
Proof.
  intros Hfresh Hfk row.
  unfold insertMessage_run, parent_value, bind, lift, not_null, ret,
    get_db, put_db, emit.
  destruct p as [i|]; cbn -[existsb check_type type_text];
    rewrite check_type_text; cbn -[existsb]; rewrite Hfresh.
  - rewrite existsb_has_id_app, Hfk. reflexivity.
  - reflexivity.
Qed.

Lemma insertMessage_run_dup env id t b ty p u dt w :
  existsb (has_id id) (messages (db w)) = true ->
  insertMessage_run env id (Some (JStr t)) (Some (JStr b)) ty (parent_value p) u dt w
  = (Raise (SqliteError "SQLITE_CONSTRAINT_PRIMARYKEY"), w).
Proof.
  intros Hdup.
  unfold insertMessage_run, parent_value, bind, lift, not_null, ret, get_db.
  destruct p as [i|]; cbn -[existsb check_type type_text];
    rewrite check_type_text; cbn -[existsb]; rewrite Hdup; reflexivity.
Qed.

(** ** The binding of parameters *)

Lemma bind_next_inv env n bound v out :
  bind_next env n bound v = Ret out ->
  exists x, bind_value env v = Ret x /\ out = bound ++ [x]
            /\ List.length bound < n.
Proof.
  unfold bind_next. destruct (bind_value env v) as [x|e]; [|discriminate].
  destruct (Nat.leb_spec n (List.length bound)); [discriminate|].
  intros [= <-]. exists x. auto.
Qed.

Lemma bind_array_prefix env n items : forall bound out,
  bind_array env n items bound = Ret out -> exists more, out = bound ++ more.
Proof.
  induction items as [|x items IH]; intros bound out; cbn [bind_array].
  - intros [= <-]. exists []. symmetry. apply app_nil_r.
  - destruct (bind_next env n bound (Some x)) as [bound'|e] eqn:E; [|discriminate].
    apply bind_next_inv in E. destruct E as (y & _ & -> & _).
    intros H. apply IH in H. destruct H as [more ->].
    exists (y :: more). rewrite <- app_assoc. reflexivity.
Qed.

Lemma bind_args_prefix env n args : forall named bound out,
  bind_args env n args named bound = Ret out -> exists more, out = bound ++ more.
Proof.
  induction args as [|v args IH]; intros named bound out.
  - intros [= <-]. exists []. symmetry. apply app_nil_r.
  - assert (Hnext : (match bind_next env n bound v with
                     | Ret bound' => bind_args env n args named bound'
                     | Raise e => Raise e
                     end) = Ret out -> exists more, out = bound ++ more).
    { destruct (bind_next env n bound v) as [bound'|e] eqn:E; [|discriminate].
      apply bind_next_inv in E. destruct E as (y & _ & -> & _).
      intros H. apply IH in H. destruct H as [more ->].
      exists (y :: more). rewrite <- app_assoc. reflexivity. }
    destruct v as [[| b | k | t | items | fs]|]; cbn [bind_args]; try exact Hnext.
    + destruct (bind_array env n items bound) as [bound'|e] eqn:E; [|discriminate].
      apply bind_array_prefix in E. destruct E as [more1 ->].
      intros H. apply IH in H. destruct H as [more ->].
      exists (more1 ++ more). rewrite <- app_assoc. reflexivity.
    + destruct named; [discriminate|]. apply IH.
Qed.

Lemma bind_args_snoc env n v args :
  scalar v = true ->
  forall named bound,
    bind_args env n (args ++ [v]) named bound
    = match bind_args env n args named bound with
      | Ret mid => bind_next env n mid v
      | Raise e => Raise e
      end.
Proof.
  intros Hv. induction args as [|a args IH]; intros named bound.
  - destruct v as [[| b | k | t | items | fs]|]; try discriminate;
      cbn [app bind_args];
      match goal with |- context [bind_next ?e ?m ?l ?x] =>
        destruct (bind_next e m l x) end; reflexivity.
  - destruct a as [[| b | k | t | items | fs]|]; cbn [app bind_args];
      try (match goal with |- context [bind_next ?e ?m ?l ?x] =>
             destruct (bind_next e m l x) end; [apply IH|reflexivity]).
    + destruct (bind_array env n items bound); [apply IH|reflexivity].
    + destruct named; [reflexivity|apply IH].
Qed.

Lemma bind_first_inv env n k args out :
  bind_first env n k args = Ret out ->
  bind_args env n args false [] = Ret out /\ List.length out = k.
Proof.
  unfold bind_first. destruct (bind_args env n args false []) as [bound|e];
    [|discriminate].
  destruct (Nat.ltb_spec k (List.length bound)); [discriminate|].
  destruct (Nat.ltb_spec (List.length bound) k); [discriminate|].
  intros [= <-]. split; [reflexivity|lia].
Qed.

(** The five values of a message insert: the id comes first. *)
Lemma message_binding env id rest out :
  bind_first env 7 5 (Some (JStr id) :: rest) = Ret out ->
  exists x1 x2 x3 x4, out = [Some id; x1; x2; x3; x4].
Proof.
  intros H. apply bind_first_inv in H. destruct H as [H Hlen].
  cbn in H. apply bind_args_prefix in H. destruct H as [more ->].
  destruct more as [|x1 [|x2 [|x3 [|x4 [|x5 more]]]]]; try discriminate.
  exists x1, x2, x3, x4. reflexivity.
Qed.

(** When the call ends with the literal type and a scalar parent, title and
    body between them account for two values: the type and the parent of
    the row are the ones of the call. *)
Lemma notification_binding env id t b s out :
  bind_first env 7 5 [Some (JStr id); t; b; Some (JStr s); Some JNull] = Ret out ->
  exists t' b', out = [Some id; t'; b'; Some s; None].
Proof.
  intros H. destruct (@message_binding _ _ _ _ H) as (x1 & x2 & x3 & x4 & ->).
  apply bind_first_inv in H. destruct H as [H _].
  change [Some (JStr id); t; b; Some (JStr s); Some JNull]
    with (([Some (JStr id); t; b] ++ [Some (JStr s)]) ++ [Some JNull]) in H.
  rewrite !bind_args_snoc in H by reflexivity.
  destruct (bind_args env 7 [Some (JStr id); t; b] false []) as [mid|e];
    [|discriminate].
  destruct (bind_next env 7 mid (Some (JStr s))) as [mid'|e] eqn:E1;
    [|discriminate].
  apply bind_next_inv in E1. destruct E1 as (y1 & Hy1 & -> & _).
  apply bind_next_inv in H. destruct H as (y2 & Hy2 & H & _).
  injection Hy1 as <-. injection Hy2 as <-.
  rewrite <- app_assoc in H. cbn [app] in H.
  destruct mid as [|m0 [|m1 [|m2 [|m3 mid]]]]; cbn [app] in H;
    try discriminate.
  - inversion H; subst. eexists; eexists; reflexivity.
  - apply (f_equal (@List.length _)) in H. cbn [List.length] in H.
    rewrite length_app in H. cbn [List.length] in H. lia.
Qed.

(** The title of the call, when it is a string, is the title of the row. *)
Lemma response_binding env id tt rest out :
  bind_first env 7 5 (Some (JStr id) :: Some (JStr tt) :: rest) = Ret out ->
  exists x2 x3 x4, out = [Some id; Some tt; x2; x3; x4].
Proof.
  intros H. apply bind_first_inv in H. destruct H as [H Hlen].
  cbn in H. apply bind_args_prefix in H. destruct H as [more ->].
  destruct more as [|x2 [|x3 [|x4 [|x5 more]]]]; try discriminate.
  exists x2, x3, x4. reflexivity.
Qed.

(** With a title and a text that are not spread, the type of the row is
    the one of the call. *)
Lemma typed_binding env id tt tv s rest out :
  scalar tv = true ->
  bind_first env 7 5 (Some (JStr id) :: Some (JStr tt) :: tv :: Some (JStr s) :: rest)
  = Ret out ->
  exists x2 x4, out = [Some id; Some tt; x2; Some s; x4].
Proof.
  intros Htv H. apply bind_first_inv in H. destruct H as [H Hlen].
  cbn [bind_args bind_next bind_value List.length Nat.leb app] in H.
  assert (Hstep : exists x2,
             bind_args env 7 rest false [Some id; Some tt; x2; Some s] = Ret out).
  { destruct tv as [[| b | k | t | items | fs]|]; try discriminate;
      cbn [bind_args bind_next bind_value List.length Nat.leb app] in H;
      try discriminate; eexists; exact H. }
  destruct Hstep as [x2 Hstep].
  apply bind_args_prefix in Hstep. destruct Hstep as [more ->].
  destruct more as [|x4 [|x5 more]]; try discriminate.
  exists x2, x4. reflexivity.
Qed.

Lemma check_type_inv s w r w' :
  check_type s w = (r, w') ->
  w' = w /\ ((exists e, r = Raise e) \/ (exists ty, r = Ret ty /\ s = type_text ty)).
Proof.
  unfold check_type.
  destruct (String.eqb_spec s "notification") as [->|_].
  { intros [= <- <-]. split; [reflexivity|]. right. exists notification. auto. }
  destruct (String.eqb_spec s "response") as [->|_].
  { intros [= <- <-]. split; [reflexivity|]. right. exists response. auto. }
  intros [= <- <-]. split; [reflexivity|]. left. eexists. reflexivity.
Qed.

(** ** What a message insert does *)

Lemma insertMessage_run_inv env id t b ty p u dt w r w' :
  insertMessage_run env id t b ty p u dt w = (r, w') ->
  (exists e, r = Raise e /\ w' = w)
  \/ (exists t'' b'' ty'' p',
        let row := mkMsg id t'' b'' (now env) ty'' p' u dt in
        r = Ret tt
        /\ w' = mkWorld (with_msgs (db w) (messages (db w) ++ [row]))
                        (trace w ++ [EvInsertMessage row])
        /\ bind_first env 7 5
             [Some (JStr id); t; b; Some (JStr (type_text ty)); p]
           = Ret [Some id; Some t''; Some b''; Some (type_text ty''); p']
        /\ existsb (has_id id) (messages (db w)) = false
        /\ match p' with
           | Some q => existsb (has_id q) (messages (db w) ++ [row]) = true
           | None => True
           end).
Proof.
  unfold insertMessage_run, bind, lift.
  destruct (bind_first env 7 5 _) as [out|e] eqn:Hb;
    [|intros [= <- <-]; left; eexists; split; reflexivity].
  destruct (@message_binding _ _ _ _ Hb) as (x1 & x2 & x3 & x4 & ->).
  cbn [param nth not_null ret].
  destruct x1 as [t''|]; cbn [not_null raise ret];
    [|intros [= <- <-]; left; eexists; split; reflexivity].
  destruct x2 as [b''|]; cbn [not_null raise ret];
    [|intros [= <- <-]; left; eexists; split; reflexivity].
  destruct x3 as [tys|]; cbn [not_null raise ret];
    [|intros [= <- <-]; left; eexists; split; reflexivity].
  destruct (check_type tys w) as [rt wt] eqn:Hty.
  apply check_type_inv in Hty. destruct Hty as [-> [[e ->]|[ty'' [-> ->]]]];
    [intros [= <- <-]; left; eexists; split; reflexivity|].
  unfold get_db, put_db, emit, raise, ret. cbn -[existsb].
  destruct (existsb (has_id id) (messages (db w))) eqn:Hpk;
    [intros [= <- <-]; left; eexists; split; reflexivity|].
  match goal with
  | |- context [if ?c then _ else _] => destruct c eqn:Hfk
  end; [|intros [= <- <-]; left; eexists; split; reflexivity].
  intros [= <- <-]. right. exists t'', b'', ty'', x4. cbn zeta.
  repeat (split; [reflexivity|]).
  destruct x4; [exact Hfk|exact I].
Qed.

(** ** C5: validation failures *)

(** C5. A notify request whose title or body is missing (absent or falsy), a
    respond request with neither text nor data, and a subscribe request
    whose endpoint or one of whose key fields is missing are answered with
    status 400 and leave the world as it was: no row is written and no
    effect is issued. *)
Theorem validation_aborts_before_persistence env b w :
  (truthy (prop b "title") = false \/ truthy (prop b "body") = false ->
   post_notify env b w
   = (Ret (Replied 400 (error_json "title and body required")), w))
  /\ (truthy (prop b "text") = false /\ truthy (prop b "data") = false ->
      post_respond env b w
      = (Ret (Replied 400 (error_json "text or data required")), w))
  /\ (truthy (prop b "endpoint") = false
      \/ truthy (oprop (prop b "keys") "p256dh") = false
      \/ truthy (oprop (prop b "keys") "auth") = false ->
      post_subscribe env b w
      = (Ret (Replied 400 (error_json "Invalid subscription")), w)).
Proof.
  split; [|split].
  - intros H. unfold post_notify.
    destruct H as [-> | ->]; rewrite ?orb_true_r; reflexivity.
  - intros [Ht Hd]. unfold post_respond. rewrite Ht, Hd. reflexivity.
  - intros H. unfold post_subscribe.
    destruct H as [-> | [-> | ->]]; rewrite ?orb_true_r; reflexivity.
Qed.

Lemma validation_aborts_before_persistence_witness :
  post_notify env0 (JObj [("title", JStr "")]) (mkWorld empty_db [])
  = (Ret (Replied 400 (error_json "title and body required")), mkWorld empty_db [])
  /\ post_respond env0 (JObj [("messageId", JStr "m")]) (mkWorld empty_db [])
     = (Ret (Replied 400 (error_json "text or data required")), mkWorld empty_db [])
  /\ post_subscribe env0 (JObj [("endpoint", JStr "https://push/1")])
                    (mkWorld empty_db [])
     = (Ret (Replied 400 (error_json "Invalid subscription")), mkWorld empty_db []).
Proof.
  pose proof (validation_aborts_before_persistence env0
                (JObj [("title", JStr "")]) (mkWorld empty_db [])) as [H1 _].
  pose proof (validation_aborts_before_persistence env0
                (JObj [("messageId", JStr "m")]) (mkWorld empty_db [])) as [_ [H2 _]].
  pose proof (validation_aborts_before_persistence env0
                (JObj [("endpoint", JStr "https://push/1")])
                (mkWorld empty_db [])) as [_ [_ H3]].
  split; [|split].
  - apply H1. left. reflexivity.
  - apply H2. split; reflexivity.
  - apply H3. right. left. reflexivity.
Defined.

(** ** C1: notify persists, then dispatches *)

(** C1. A notify request whose title and body are non-empty strings, served
    with an identifier no message carries yet, appends exactly one row to
    the message log, of kind notification and without parent; the insert is
    the first effect of the request, every push attempt comes after it, and
    the reply is 200 with the id of that row as messageId. *)
Theorem notify_persists_then_dispatches env req d t b :
  prop req "title" = Some (JStr t) -> nonempty t = true ->
  prop req "body" = Some (JStr b) -> nonempty b = true ->
  existsb (has_id (uuidv4 env)) (messages d) = false ->
  exists row results payload rest w',
    run (post_notify env req) d
    = (Ret (Replied 200 (obj [("messageId", Some (JStr (msg_id row)));
                              ("results", Some (results_json results))])), w')
    /\ msg_id row = uuidv4 env
    /\ type row = notification
    /\ parentId row = None
    /\ title row = t /\ body row = b
    /\ messages (db w') = messages d ++ [row]
    /\ trace w'
       = EvInsertMessage row
         :: map (fun s => EvPush (pushSub s) payload None) (getAllSubs_all d)
         ++ rest
    /\ forallb (fun e => negb (is_insert_or_push e)) rest = true.
Proof.
  intros Ht Hnt Hb Hnb Hfresh.
  unfold run, post_notify. rewrite Ht, Hb. cbn [truthy]. rewrite Hnt, Hnb.
  cbn [negb orb].
  erewrite bind_Ret
    by (apply (@insertMessage_run_ok env (uuidv4 env) t b notification None);
        [exact Hfresh | exact I]).
  unfold getAllSubs at 1, get_db, ret at 1. unfold bind at 1 2. cbn [db].
  unfold bind at 1. rewrite sendToAll_run.
  unfold bind at 1. rewrite broadcastWs_run.
  unfold bind at 1. rewrite fireWebhooks_run.
  unfold ret. cbn [db trace with_subs with_msgs subscriptions messages app].
  exists (mkMsg (uuidv4 env) t b (now env) notification None
            (if truthy (prop req "ui")
             then option_map Stringify (prop req "ui") else None) None).
  do 4 eexists. split; [reflexivity|].
  cbn [msg_id type parentId title body].
  repeat (split; [reflexivity|]).
  split.
  - rewrite <- !app_assoc. cbn [app]. reflexivity.
  - unfold ws_sends, hook_calls. rewrite !forallb_app, !andb_true_iff.
    repeat split; apply forallb_forall; intros e He; apply in_map_iff in He;
      destruct He as [x [<- _]]; reflexivity.
Qed.

Lemma notify_persists_then_dispatches_witness :
  exists row results payload rest w',
    run (post_notify env0 deploy) db_ab
    = (Ret (Replied 200 (obj [("messageId", Some (JStr (msg_id row)));
                              ("results", Some (results_json results))])), w')
    /\ msg_id row = "id-1"
    /\ type row = notification
    /\ parentId row = None
    /\ title row = "Deploy" /\ body row = "Ready"
    /\ messages (db w') = [row]
    /\ trace w'
       = EvInsertMessage row
         :: map (fun s => EvPush (pushSub s) payload None) [sub_b; sub_a]
         ++ rest
    /\ forallb (fun e => negb (is_insert_or_push e)) rest = true.
Proof.
  apply (@notify_persists_then_dispatches env0 deploy db_ab "Deploy" "Ready");
    reflexivity.
Defined.

(** ** Schema invariants *)

Section Table.
Variable A : Type.
Variable rowid : A -> Z.
Variable ukey : A -> string.          (* the UNIQUE column *)

Lemma NoDup_map_filter (p : A -> bool) rows :
  NoDup (map ukey rows) -> NoDup (map ukey (filter p rows)).
Proof.
  induction rows as [|r rows IH]; simpl; intros H; [exact H|].
  inversion H as [|? ? Hnin Hnd]; subst.
  destruct (p r); simpl; [|auto].
  constructor; [|auto].
  intros Hin; apply Hnin.
  apply in_map_iff in Hin; destruct Hin as [x [Hx Hin]].
  apply filter_In in Hin. apply in_map_iff; exists x; tauto.
Qed.

Lemma sorted_map_filter (p : A -> bool) rows :
  StronglySorted Z.lt (map rowid rows) ->
  StronglySorted Z.lt (map rowid (filter p rows)).
Proof.
  induction rows as [|r rows IH]; simpl; intros H; [exact H|].
  apply StronglySorted_inv in H; destruct H as [Hs Hall].
  destruct (p r); simpl; [|auto].
  constructor; [auto|].
  rewrite Forall_forall in *; intros x Hin; apply Hall.
  apply in_map_iff in Hin; destruct Hin as [y [Hy Hin]].
  apply filter_In in Hin. apply in_map_iff; exists y; tauto.
Qed.

Lemma Forall_filter (P : A -> Prop) (p : A -> bool) rows :
  Forall P rows -> Forall P (filter p rows).
Proof.
  rewrite !Forall_forall; intros H x Hin; apply filter_In in Hin; apply H; tauto.
Qed.

Lemma table_ok_delete seq rows (p : A -> bool) :
  table_ok rowid ukey seq rows -> table_ok rowid ukey seq (filter p rows).
Proof.
  intros (Hu & Hs & Hb & H0); repeat split;
    auto using NoDup_map_filter, sorted_map_filter, Forall_filter.
Qed.

Lemma sorted_snoc l x :
  StronglySorted Z.lt l -> Forall (fun y => (y < x)%Z) l ->
  StronglySorted Z.lt (l ++ [x]).
Proof.
  induction l as [|a l IH]; simpl; intros Hs Hlt.
  - repeat constructor.
  - apply StronglySorted_inv in Hs; destruct Hs as [Hs Hall].
    inversion Hlt; subst. constructor; [auto|].
    apply Forall_app; split; [exact Hall|]. repeat constructor; assumption.
Qed.

(** INSERT OR REPLACE of a row that takes the next rowid. *)
Lemma table_ok_replace seq rows r :
  table_ok rowid ukey seq rows -> rowid r = (seq + 1)%Z ->
  table_ok rowid ukey (seq + 1)
           (filter (fun x => negb (String.eqb (ukey x) (ukey r))) rows ++ [r]).
Proof.
  intros (Hu & Hs & Hb & H0) Hid.
  set (kept := filter _ rows).
  assert (Hk : table_ok rowid ukey seq kept) by (apply table_ok_delete; repeat split; auto).
  destruct Hk as (Hku & Hks & Hkb & _).
  repeat split.
  - rewrite map_app; simpl. apply NoDup_app; [exact Hku| |].
    { repeat constructor; simpl; tauto. }
    intros k Hin [<-|[]].
    apply in_map_iff in Hin; destruct Hin as [x [Hx Hin]].
    apply filter_In in Hin; destruct Hin as [_ Hne].
    rewrite Hx, String.eqb_refl in Hne; discriminate.
  - rewrite map_app; simpl. apply sorted_snoc; [exact Hks|].
    rewrite Forall_forall in *; intros y Hin.
    apply in_map_iff in Hin; destruct Hin as [x [<- Hin]].
    specialize (Hkb x Hin); lia.
  - apply Forall_app; split.
    + rewrite Forall_forall in *; intros x Hin; specialize (Hkb x Hin); lia.
    + repeat constructor; lia.
  - lia.
Qed.

End Table.

Section Keeps.
Variable P : DB -> Prop.

Lemma keeps_ret A (a : A) : keeps P (ret a).
Proof. intros w H; exact H. Qed.

Lemma keeps_raise A e : keeps P (@raise A e).
Proof. intros w H; exact H. Qed.

Lemma keeps_get_db : keeps P get_db.
Proof. intros w H; exact H. Qed.

Lemma keeps_emit e : keeps P (emit e).
Proof. intros w H; exact H. Qed.

Lemma keeps_bind A B (m : M A) (k : A -> M B) :
  keeps P m -> (forall a, keeps P (k a)) -> keeps P (bind m k).
Proof.
  intros Hm Hk w H. unfold bind. specialize (Hm w H).
  destruct (m w) as [[a|e] w']; simpl in *; [apply Hk; exact Hm|exact Hm].
Qed.

Lemma keeps_forEach A (f : A -> M unit) l :
  (forall x, keeps P (f x)) -> keeps P (forEach f l).
Proof.
  intros Hf; induction l as [|x l IH]; simpl.
  - apply keeps_ret.
  - apply keeps_bind; [apply Hf|intros _; exact IH].
Qed.

Lemma keeps_lift A (r : Res A) : keeps P (lift r).
Proof. intros w H; exact H. Qed.

Lemma keeps_check_type s : keeps P (check_type s).
Proof.
  unfold check_type.
  repeat match goal with |- context [if ?c then _ else _] => destruct c end;
    first [apply keeps_ret | apply keeps_raise].
Qed.

Lemma keeps_not_null c : keeps P (not_null c).
Proof. destruct c; [apply keeps_ret | apply keeps_raise]. Qed.

Lemma keeps_broadcastWs env data : keeps P (broadcastWs env data).
Proof. intros w H. rewrite broadcastWs_run. exact H. Qed.

Lemma keeps_fireWebhooks ev payload : keeps P (fireWebhooks ev payload).
Proof. intros w H. rewrite fireWebhooks_run. exact H. Qed.

End Keeps.

Ltac keeps_step :=
  match goal with
  | |- keeps _ (bind _ _) => apply keeps_bind; [|intros ?]
  | |- keeps _ (ret _) => apply keeps_ret
  | |- keeps _ (raise _) => apply keeps_raise
  | |- keeps _ get_db => apply keeps_get_db
  | |- keeps _ getAllSubs => unfold getAllSubs
  | |- keeps _ getSubCount => unfold getSubCount
  | |- keeps _ getAllWebhooks => unfold getAllWebhooks
  | |- keeps _ (emit _) => apply keeps_emit
  | |- keeps _ (forEach _ _) => apply keeps_forEach; intros ?
  | |- keeps _ (broadcastWs _ _) => apply keeps_broadcastWs
  | |- keeps _ (fireWebhooks _ _) => apply keeps_fireWebhooks
  | |- keeps _ (lift _) => apply keeps_lift
  | |- keeps _ (check_type _) => apply keeps_check_type
  | |- keeps _ (not_null _) => apply keeps_not_null
  | |- keeps _ (if ?c then _ else _) => destruct c
  | |- keeps _ (match ?x with _ => _ end) => destruct x
  end.

(** The binding of the parameters and the NOT NULL and CHECK constraints
    of a statement, up to the point where it reads the store. *)
Ltac keeps_binding :=
  repeat (apply keeps_bind;
          [first [apply keeps_lift | apply keeps_not_null | apply keeps_check_type]
          |intros ?]).

(** Every handler keeps a property of the store that the five writing
    statements keep, the message insert being used for a notification
    without data or for a response titled "Response". *)

Section HandlersKeep.
Variable P : DB -> Prop.
Hypothesis insertSub_keeps : forall env e p a, keeps P (insertSub_run env e p a).
Hypothesis deleteSub_keeps : forall env e, keeps P (deleteSub_run env e).
Hypothesis insertWebhook_keeps : forall env u ev, keeps P (insertWebhook_run env u ev).
Hypothesis deleteWebhook_keeps : forall env u, keeps P (deleteWebhook_run env u).
Hypothesis insertNotification_keeps : forall env id t b u,
  keeps P (insertMessage_run env id t b notification (Some JNull) u None).
Hypothesis insertResponse_keeps : forall env id b p u dt,
  keeps P (insertMessage_run env id (Some (JStr "Response")) b response p u dt).

Lemma settle_all_keeps env payload order :
  forall results, keeps P (settle_all env payload order results).
Proof.
  induction order as [|sub rest IH]; intros results; simpl.
  - apply keeps_ret.
  - apply keeps_bind; [|intros r; apply IH].
    unfold settled. repeat (keeps_step || apply deleteSub_keeps).
Qed.

Lemma probe_all_keeps env order :
  forall removed, keeps P (probe_all env order removed).
Proof.
  induction order as [|sub rest IH]; intros removed; simpl.
  - apply keeps_ret.
  - apply keeps_bind; [|intros r; apply IH].
    unfold probe_settled. repeat (keeps_step || apply deleteSub_keeps).
Qed.

Lemma sendToAll_keeps env subs payload : keeps P (sendToAll env subs payload).
Proof.
  unfold sendToAll. repeat (keeps_step || apply settle_all_keeps).
Qed.

Lemma http_keeps env req : keeps P (http env req).
Proof.
  unfold http.
  destruct (negb (checkAuth env req)); [apply keeps_ret|].
  destruct (route req);
    unfold get_vapid_public_key, post_subscribe, delete_subscribe,
      get_subscriptions, post_notify, get_messages, post_respond, post_purge, post_webhooks, delete_webhooks,
      get_webhooks;
    repeat first
      [ apply insertSub_keeps | apply deleteSub_keeps
      | apply insertWebhook_keeps | apply deleteWebhook_keeps
      | apply insertNotification_keeps | apply insertResponse_keeps
      | apply sendToAll_keeps | apply probe_all_keeps
      | keeps_step ].
Qed.

Lemma ws_message_keeps env raw : keeps P (ws_message env raw).
Proof.
  unfold ws_message.
  destruct raw as [msg|]; [|apply keeps_ret].
  destruct msg;
    repeat first
      [ apply insertNotification_keeps | apply sendToAll_keeps | keeps_step ].
Qed.

Lemma handle_keeps env i : keeps P (handle env i).
Proof.
  destruct i; simpl; unfold ws_connection;
    repeat first [ apply http_keeps | apply ws_message_keeps | keeps_step ].
Qed.

Lemma step_keeps d ei : P d -> P (step d ei).
Proof. intros H. unfold step, run. apply (handle_keeps (fst ei) (snd ei)). exact H. Qed.

Lemma reachable_keeps d : P empty_db -> reachable d -> P d.
Proof.
  intros H0 Hr; induction Hr as [|d env i Hr IH]; [exact H0|].
  apply step_keeps; exact IH.
Qed.

End HandlersKeep.

Lemma existsb_has_id_false i msgs :
  existsb (has_id i) msgs = false -> ~ In i (map msg_id msgs).
Proof.
  intros H Hin. apply in_map_iff in Hin; destruct Hin as [m [Hm Hin]].
  assert (existsb (has_id i) msgs = true); [|congruence].
  apply existsb_exists; exists m; split; [exact Hin|].
  unfold has_id; rewrite Hm; apply String.eqb_refl.
Qed.

Lemma insertSub_keeps_ok env e p a : keeps db_ok (insertSub_run env e p a).
Proof.
  unfold insertSub_run. keeps_binding.
  intros w Hok; pose proof Hok as (Hs & Hh & Hm). unfold bind, get_db.
  destruct (MAX_ROWID <=? sub_seq (db w))%Z; simpl; [exact Hok|].
  split; [|split]; try assumption.
  match goal with
  | |- context [mkSub ?i ?e ?p ?a ?c] =>
      apply (@table_ok_replace _ sub_id endpoint _ _ (mkSub i e p a c) Hs)
  end.
  reflexivity.
Qed.

Lemma deleteSub_keeps_ok env e : keeps db_ok (deleteSub_run env e).
Proof.
  unfold deleteSub_run. keeps_binding.
  intros w Hok; pose proof Hok as (Hs & Hh & Hm). unfold bind, get_db.
  match goal with |- context [match ?x with _ => _ end] => destruct x end;
    simpl; [|exact Hok].
  split; [|split]; try assumption.
  apply table_ok_delete; exact Hs.
Qed.

Lemma insertWebhook_keeps_ok env u ev : keeps db_ok (insertWebhook_run env u ev).
Proof.
  unfold insertWebhook_run. keeps_binding.
  intros w Hok; pose proof Hok as (Hs & Hh & Hm). unfold bind, get_db.
  destruct (MAX_ROWID <=? hook_seq (db w))%Z; simpl; [exact Hok|].
  split; [|split]; try assumption.
  match goal with
  | |- context [mkHook ?i ?u ?e ?c] =>
      apply (@table_ok_replace _ hook_id url _ _ (mkHook i u e c) Hh)
  end.
  reflexivity.
Qed.

Lemma deleteWebhook_keeps_ok env u : keeps db_ok (deleteWebhook_run env u).
Proof.
  unfold deleteWebhook_run. keeps_binding.
  intros w Hok; pose proof Hok as (Hs & Hh & Hm). unfold bind, get_db.
  match goal with |- context [match ?x with _ => _ end] => destruct x end;
    simpl; [|exact Hok].
  split; [|split]; try assumption.
  apply table_ok_delete; exact Hh.
Qed.

Lemma insertMessage_keeps_ok env id t b ty p u dt :
  keeps db_ok (insertMessage_run env id t b ty p u dt).
Proof.
  unfold insertMessage_run. keeps_binding.
  intros w Hok; pose proof Hok as (Hs & Hh & Hm). unfold bind, get_db.
  match goal with
  | |- context [existsb (has_id ?i) (messages (db w))] =>
      destruct (existsb (has_id i) (messages (db w))) eqn:E
  end; [exact Hok|].
  match goal with |- context [if ?c then _ else _] => destruct c end;
    simpl; [|exact Hok].
  split; [|split]; try assumption.
  cbn [messages]. rewrite map_app; simpl. apply NoDup_app; [exact Hm| |].
  - repeat constructor; simpl; tauto.
  - intros k Hin [<-|[]]. revert Hin. apply existsb_has_id_false, E.
Qed.

Lemma empty_db_ok : db_ok empty_db.
Proof.
  unfold db_ok, table_ok, empty_db; simpl.
  repeat split; first [constructor | lia].
Qed.

(** Every store the server can reach satisfies the schema invariants. *)
Lemma reachable_db_ok d : reachable d -> db_ok d.
Proof.
  apply reachable_keeps; intros;
    auto using insertSub_keeps_ok, deleteSub_keeps_ok, insertWebhook_keeps_ok,
      deleteWebhook_keeps_ok, insertMessage_keeps_ok, empty_db_ok.
Qed.

(** ** C9: the message-kind invariant *)

Lemma type_text_inj a b : type_text a = type_text b -> a = b.
Proof. destruct a, b; intros H; try reflexivity; discriminate. Qed.

Lemma insertNotification_keeps_titles env id t b u :
  keeps title_inv (insertMessage_run env id t b notification (Some JNull) u None).
Proof.
  intros w Hinv.
  destruct (insertMessage_run env id t b notification (Some JNull) u None w)
    as [r w'] eqn:Hrun.
  apply insertMessage_run_inv in Hrun.
  destruct Hrun as [[e [-> ->]]|(t'' & b'' & ty'' & p' & -> & -> & Hb & _)];
    cbn [snd]; [exact Hinv|].
  apply notification_binding in Hb. destruct Hb as (t' & b' & Hb).
  injection Hb as _ _ Hty _. apply (@type_text_inj ty'' notification) in Hty.
  subst ty''.
  unfold title_inv. cbn [db with_msgs messages].
  apply Forall_app; split; [exact Hinv|].
  constructor; [|constructor]. right. split; reflexivity.
Qed.

Lemma insertResponse_keeps_titles env id b p u dt :
  keeps title_inv
        (insertMessage_run env id (Some (JStr "Response")) b response p u dt).
Proof.
  intros w Hinv.
  destruct (insertMessage_run env id (Some (JStr "Response")) b response p u dt w)
    as [r w'] eqn:Hrun.
  apply insertMessage_run_inv in Hrun.
  destruct Hrun as [[e [-> ->]]|(t'' & b'' & ty'' & p' & -> & -> & Hb & _)];
    cbn [snd]; [exact Hinv|].
  apply response_binding in Hb. destruct Hb as (x2 & x3 & x4 & Hb).
  injection Hb as Ht _ _ _. subst t''.
  unfold title_inv. cbn [db with_msgs messages].
  apply Forall_app; split; [exact Hinv|].
  constructor; [|constructor]. left. reflexivity.
Qed.

Section TitlesFrame.

Lemma frame_keeps_titles A (m : M A) :
  (forall w, messages (db (snd (m w))) = messages (db w)) -> keeps title_inv m.
Proof. intros H w Hinv. unfold title_inv. rewrite H. exact Hinv. Qed.

Lemma insertSub_keeps_titles env e p a : keeps title_inv (insertSub_run env e p a).
Proof.
  unfold insertSub_run. keeps_binding.
  apply frame_keeps_titles. intros w. unfold bind, get_db.
  destruct (MAX_ROWID <=? sub_seq (db w))%Z; reflexivity.
Qed.

Lemma deleteSub_keeps_titles env e : keeps title_inv (deleteSub_run env e).
Proof.
  unfold deleteSub_run. keeps_binding.
  apply frame_keeps_titles. intros w. unfold bind, get_db.
  match goal with |- context [match ?x with _ => _ end] => destruct x end;
    reflexivity.
Qed.

Lemma insertWebhook_keeps_titles env u ev :
  keeps title_inv (insertWebhook_run env u ev).
Proof.
  unfold insertWebhook_run. keeps_binding.
  apply frame_keeps_titles. intros w. unfold bind, get_db.
  destruct (MAX_ROWID <=? hook_seq (db w))%Z; reflexivity.
Qed.

Lemma deleteWebhook_keeps_titles env u : keeps title_inv (deleteWebhook_run env u).
Proof.
  unfold deleteWebhook_run. keeps_binding.
  apply frame_keeps_titles. intros w. unfold bind, get_db.
  match goal with |- context [match ?x with _ => _ end] => destruct x end;
    reflexivity.
Qed.

End TitlesFrame.

Lemma reachable_title_inv d : reachable d -> title_inv d.
Proof.
  apply reachable_keeps; intros;
    auto using insertSub_keeps_titles, deleteSub_keeps_titles,
      insertWebhook_keeps_titles, deleteWebhook_keeps_titles,
      insertNotification_keeps_titles, insertResponse_keeps_titles.
  constructor.
Qed.

(** C9. The respond route does not keep the message-kind invariant. The
    arguments of the insert are handed to the statement as they come from
    the request, and an array among them is spread over the parameters: for
    a request with text [] and messageId ["notification", null] the literal
    "response" lands in the body column and "notification" in the type
    column. The request is answered 200 and the store, reached from the
    empty database by this one request, holds a message of kind
    notification that carries response data. *)
Theorem respond_stores_notification_with_data :
  exists w',
    run (http env0 (mkReq POST_respond bearer None shifted_respond)) empty_db
    = (Ret (Replied 200 (obj [("ok", Some (JBool true));
                              ("responseId", Some (JStr "id-1"))])), w')
    /\ db w' = step empty_db (env0, Http (mkReq POST_respond bearer None
                                                shifted_respond))
    /\ reachable (db w')
    /\ messages (db w') = [shifted_row]
    /\ type shifted_row = notification
    /\ data shifted_row = Some (Stringify (JObj [("x", JNum 1)]))
    /\ ~ msg_inv (db w').
Proof.
  eexists. split; [vm_compute; reflexivity|].
  split; [reflexivity|].
  split; [apply (reach_step env0 (Http (mkReq POST_respond bearer None
                                               shifted_respond)) reach_init)|].
  split; [reflexivity|]. split; [reflexivity|]. split; [reflexivity|].
  intros Hinv. unfold msg_inv in Hinv. cbn [db messages] in Hinv.
  apply Forall_inv in Hinv. discriminate Hinv.
Qed.

(** ** ORDER BY ... DESC *)

Section OrderByFacts.
Variable A : Type.
Variable key : A -> Time.

Lemma place_perm x l : Permutation (place key x l) (x :: l).
Proof.
  induction l as [|y l IH]; simpl; [reflexivity|].
  destruct (Nat.ltb (key x) (key y)); [|reflexivity].
  rewrite IH. apply perm_swap.
Qed.

Lemma order_by_desc_perm l : Permutation (order_by_desc key l) l.
Proof.
  induction l as [|x l IH]; simpl; [reflexivity|].
  rewrite place_perm. now constructor.
Qed.

(** The first row of the ordered result: the earliest row of the scan
    among those with the greatest key. *)
Lemma order_by_desc_hd l :
  match hd_error (order_by_desc key l) with
  | None => l = []
  | Some n =>
      exists l1 l2, l = l1 ++ n :: l2
                    /\ Forall (fun x => key x < key n) l1
                    /\ Forall (fun x => key x <= key n) l2
  end.
Proof.
  induction l as [|x l IH]; simpl; [reflexivity|].
  destruct (order_by_desc key l) as [|y ys] eqn:E; simpl in *.
  - subst l. exists [], []. repeat split; constructor.
  - destruct IH as (l1 & l2 & -> & H1 & H2).
    destruct (Nat.ltb (key x) (key y)) eqn:C; simpl.
    + apply Nat.ltb_lt in C.
      exists (x :: l1), l2. repeat split; [constructor; assumption|assumption].
    + apply Nat.ltb_ge in C.
      exists [], (l1 ++ y :: l2). repeat split; [constructor|].
      apply Forall_app; split; [|constructor].
      * eapply Forall_impl; [|exact H1]. simpl; intros; lia.
      * exact C.
      * eapply Forall_impl; [|exact H2]. simpl; intros; lia.
Qed.

End OrderByFacts.

Section FilterFacts.
Variable A : Type.

Lemma filter_split (f : A -> bool) l : forall f1 x f2,
  filter f l = f1 ++ x :: f2 ->
  exists l1 l2, l = l1 ++ x :: l2 /\ filter f l1 = f1 /\ filter f l2 = f2
                /\ f x = true.
Proof.
  induction l as [|a l IH]; simpl; intros f1 x f2 H.
  - destruct f1; discriminate.
  - destruct (f a) eqn:Fa.
    + destruct f1 as [|b f1]; simpl in H; injection H as -> H.
      * exists [], l. subst f2. repeat split; assumption.
      * destruct (IH _ _ _ H) as (l1 & l2 & -> & <- & <- & Fx).
        exists (b :: l1), l2. simpl. rewrite Fa. repeat split; assumption.
    + destruct (IH _ _ _ H) as (l1 & l2 & -> & <- & <- & Fx).
      exists (a :: l1), l2. simpl. rewrite Fa. repeat split; assumption.
Qed.

Lemma Forall_of_filter (f : A -> bool) (P : A -> Prop) l :
  Forall P (filter f l) -> Forall (fun x => f x = true -> P x) l.
Proof.
  rewrite !Forall_forall; intros H x Hin Fx. apply H, filter_In; tauto.
Qed.

End FilterFacts.

Lemma is_notification_type m : is_notification m = true <-> type m = notification.
Proof. unfold is_notification. destruct (type m); split; congruence. Qed.

(** What the query for the latest notification returns. *)
Lemma latest_notification_spec d :
  match latest_notification d with
  | None => forall m, In m (messages d) -> type m <> notification
  | Some n => earliest_of_latest (messages d) n
  end.
Proof.
  unfold latest_notification.
  pose proof (order_by_desc_hd sentAt (filter is_notification (messages d))) as H.
  destruct (hd_error _) as [n|].
  - destruct H as (f1 & f2 & Hf & H1 & H2).
    destruct (filter_split _ _ _ _ _ Hf) as (l1 & l2 & Hl & <- & <- & Hn).
    exists l1, l2. split; [exact Hl|]. split; [apply is_notification_type, Hn|].
    split; intros m Hin Hty; apply is_notification_type in Hty.
    + apply Forall_of_filter in H1. rewrite Forall_forall in H1. auto.
    + apply Forall_of_filter in H2. rewrite Forall_forall in H2. auto.
  - intros m Hin Hty. apply is_notification_type in Hty.
    assert (Hm : In m (filter is_notification (messages d)))
      by (apply filter_In; tauto).
    rewrite H in Hm. destruct Hm.
Qed.

(** ** C4: a response without messageId *)

Lemma text_or_empty v :
  is_text v = true ->
  exists b, (if truthy v then v else Some (JStr "")) = Some (JStr b).
Proof.
  destruct v as [[| | |s| |]|]; try discriminate; intros _; simpl.
  - destruct (nonempty s); eauto.
  - eauto.
Qed.

Lemma existsb_has_id_In n msgs :
  In n msgs -> existsb (has_id (msg_id n)) msgs = true.
Proof.
  intros Hin. apply existsb_exists. exists n. split; [exact Hin|].
  apply String.eqb_refl.
Qed.

(** C4, as amended. A respond request without messageId (absent or falsy),
    carrying a text or data, served with an identifier no message carries
    yet, is answered 200 with ok:true and that identifier as responseId,
    and appends one response row with that id. If the log holds no
    notification the row has no parent. Otherwise its parent is the
    notification [n] with the latest sentAt and, when several notifications
    share that sentAt, the one among them that was inserted first: every
    notification inserted before [n] has a strictly earlier sentAt, every
    notification inserted after [n] has an earlier or equal sentAt. *)
Theorem respond_links_latest_notification env req d :
  truthy (prop req "messageId") = false ->
  truthy (prop req "text") || truthy (prop req "data") = true ->
  is_text (prop req "text") = true ->
  existsb (has_id (uuidv4 env)) (messages d) = false ->
  exists row w',
    run (post_respond env req) d
    = (Ret (Replied 200 (obj [("ok", Some (JBool true));
                              ("responseId", Some (JStr (uuidv4 env)))])), w')
    /\ messages (db w') = messages d ++ [row]
    /\ msg_id row = uuidv4 env
    /\ type row = response
    /\ (((forall m, In m (messages d) -> type m <> notification)
         /\ parentId row = None)
        \/ exists n,
             earliest_of_latest (messages d) n
             /\ parentId row = Some (msg_id n)).
Proof.
  intros Hmid Hval Htext Hfresh.
  unfold run, post_respond. rewrite Hmid.
  replace (negb (truthy (prop req "text")) && negb (truthy (prop req "data")))
    with false
    by (destruct (truthy (prop req "text")), (truthy (prop req "data"));
        simpl in *; congruence).
  destruct (text_or_empty _ Htext) as [b ->].
  cbn [negb]. unfold bind at 1. unfold bind at 1. unfold get_db at 1. cbn [db].
  pose proof (latest_notification_spec d) as Hlatest.
  destruct (latest_notification d) as [n|].
  - assert (Hin : In n (messages d)).
    { destruct Hlatest as (l1 & l2 & Hl & _). rewrite Hl. apply in_elt. }
    unfold ret at 1.
    erewrite bind_Ret
      by (apply (@insertMessage_run_ok env (uuidv4 env) "Response" b response
                   (Some (msg_id n)));
          [exact Hfresh | apply existsb_has_id_In, Hin]).
    unfold bind at 1. rewrite broadcastWs_run.
    unfold bind at 1. rewrite fireWebhooks_run.
    unfold ret. eexists; eexists. split; [reflexivity|].
    cbn [db with_msgs messages msg_id type parentId].
    repeat (split; [reflexivity|]).
    right. exists n. split; [exact Hlatest|reflexivity].
  - unfold ret at 1.
    erewrite bind_Ret
      by (apply (@insertMessage_run_ok env (uuidv4 env) "Response" b response None);
          [exact Hfresh | exact I]).
    unfold bind at 1. rewrite broadcastWs_run.
    unfold bind at 1. rewrite fireWebhooks_run.
    unfold ret. eexists; eexists. split; [reflexivity|].
    cbn [db with_msgs messages msg_id type parentId].
    repeat (split; [reflexivity|]).
    left. split; [exact Hlatest|reflexivity].
Qed.

(** In the log of [db_thread] the notifications n2 and n3 carry the latest
    sentAt, n2 was inserted first: the response is linked to n2. *)
Lemma respond_links_latest_notification_witness :
  exists row w',
    run (post_respond env0 approve) db_thread
    = (Ret (Replied 200 (obj [("ok", Some (JBool true));
                              ("responseId", Some (JStr "id-1"))])), w')
    /\ messages (db w') = messages db_thread ++ [row]
    /\ msg_id row = "id-1"
    /\ type row = response
    /\ parentId row = Some "n2"
    /\ (((forall m, In m (messages db_thread) -> type m <> notification)
         /\ parentId row = None)
        \/ exists n,
             earliest_of_latest (messages db_thread) n
             /\ parentId row = Some (msg_id n)).
Proof.
  destruct (@respond_links_latest_notification env0 approve db_thread
              eq_refl eq_refl eq_refl eq_refl)
    as (row & w' & Hrun & Hmsgs & Hid & Hty & Hparent).
  exists row, w'. repeat (split; [assumption|]). split; [|exact Hparent].
  vm_compute in Hrun. injection Hrun as <-. cbn [db messages] in Hmsgs.
  unfold db_thread in Hmsgs. cbn [messages app] in Hmsgs.
  injection Hmsgs as <-. reflexivity.
Defined.

(** The claim read as "the most recently recorded notification" fails on
    the same log: n3 is the notification of the latest sentAt that was
    inserted last, and the response is linked to n2. *)
Lemma respond_same_second_links_the_earlier :
  exists row w',
    run (post_respond env0 approve) db_thread
    = (Ret (Replied 200 (obj [("ok", Some (JBool true));
                              ("responseId", Some (JStr "id-1"))])), w')
    /\ messages (db w') = messages db_thread ++ [row]
    /\ parentId row = Some "n2"
    /\ most_recent_notification (messages db_thread)
         (mkMsg "n3" "Build" "Green" 7 notification None None None)
    /\ ~ (exists n, most_recent_notification (messages db_thread) n
                    /\ parentId row = Some (msg_id n)).
Proof.
  eexists; eexists. split; [vm_compute; reflexivity|].
  split; [reflexivity|]. split; [reflexivity|]. split.
  - exists [mkMsg "n1" "Disk" "90% full" 5 notification None None None;
            mkMsg "n2" "Deploy" "Ready" 7 notification None None None],
           [mkMsg "r1" "Response" "ack" 8 response (Some "n1") None None].
    split; [reflexivity|]. split; [reflexivity|]. split.
    + intros m [<-|[<-|[]]] _; cbn; lia.
    + intros m [<-|[]] Hty. discriminate Hty.
  - intros (n & (before & after & Hl & _ & _ & Hafter) & Hp).
    cbn [parentId] in Hp. injection Hp as Hp.
    unfold db_thread in Hl. cbn [messages] in Hl.
    destruct before as [|b0 [|b1 [|b2 [|b3 [|b4 before]]]]];
      cbn [app] in Hl; inversion Hl; subst; try discriminate Hp.
    specialize (Hafter (mkMsg "n3" "Build" "Green" 7 notification None None None)).
    cbn in Hafter. specialize (Hafter (or_introl eq_refl) eq_refl). lia.
Qed.

(** Two notifications of the same second: the response is linked to the
    one inserted first. *)
Example respond_same_second :
  map parentId (messages (db (snd (run (post_respond env0 approve) db_thread))))
  = [None; None; None; Some "n1"; Some "n2"].
Proof. reflexivity. Qed.

(** No notification at all: the response is stored without parent. *)
Example respond_without_notification :
  run (post_respond env0 (JObj [("text", JStr "approved")])) empty_db
  = (Ret (Replied 200 (obj [("ok", Some (JBool true));
                            ("responseId", Some (JStr "id-1"))])),
     mkWorld (with_msgs empty_db
                [mkMsg "id-1" "Response" "approved" 100 response None None None])
             [EvInsertMessage
                (mkMsg "id-1" "Response" "approved" 100 response None None None);
              EvWsSend 1 (Stringify
                (obj [("type", Some (JStr "response"));
                      ("responseId", Some (JStr "id-1"));
                      ("messageId", Some JNull);
                      ("text", Some (JStr "approved"))]))]).
Proof. reflexivity. Qed.

(** ** Lists of rows *)

Section RowLists.
Variable A : Type.

Lemma Permutation_filter (f : A -> bool) l l' :
  Permutation l l' -> Permutation (filter f l) (filter f l').
Proof.
  induction 1 as [|x l l' _ IH|x y l|l l' l'' _ IH1 _ IH2]; simpl.
  - constructor.
  - destruct (f x); [constructor|]; exact IH.
  - destruct (f x), (f y); try reflexivity. apply perm_swap.
  - etransitivity; eassumption.
Qed.

Lemma filter_length_perm (f : A -> bool) l l' :
  Permutation l l' -> List.length (filter f l) = List.length (filter f l').
Proof. intros H. apply Permutation_length, Permutation_filter, H. Qed.

Lemma NoDup_map_inj B (f : A -> B) l x y :
  NoDup (map f l) -> In x l -> In y l -> f x = f y -> x = y.
Proof.
  induction l as [|a l IH]; simpl; intros Hnd Hx Hy Hf; [destruct Hx|].
  inversion Hnd as [|? ? Hnin Hnd']; subst.
  destruct Hx as [->|Hx], Hy as [->|Hy]; auto.
  - exfalso; apply Hnin. rewrite Hf. apply in_map, Hy.
  - exfalso; apply Hnin. rewrite <- Hf. apply in_map, Hx.
Qed.

End RowLists.

Lemma includes_In x l : includes x l = true <-> In x l.
Proof.
  unfold includes. rewrite existsb_exists. split.
  - intros [y [Hin Heq]]. apply String.eqb_eq in Heq. subst; exact Hin.
  - intros Hin. exists x. split; [exact Hin|apply String.eqb_refl].
Qed.

(** Among the rows of a table with unique endpoints, the rows that the
    deletion of the gone endpoints of [order] removes are the rows of
    [order] whose attempt was gone. *)
Lemma pruned_iff (g : Subscription -> bool) rows order s :
  NoDup (map endpoint rows) -> incl order rows -> In s rows ->
  includes (endpoint s) (map endpoint (filter g order)) = true
  <-> In s order /\ g s = true.
Proof.
  intros Hu Hincl Hs. rewrite includes_In, in_map_iff. split.
  - intros [s' [He Hin]]. apply filter_In in Hin. destruct Hin as [Hin Hg].
    assert (s' = s) by (eapply NoDup_map_inj; eauto). subst s'. tauto.
  - intros [Hin Hg]. exists s. split; [reflexivity|]. apply filter_In. tauto.
Qed.

Lemma pruned_length (g : Subscription -> bool) rows order :
  NoDup (map endpoint rows) -> NoDup order -> incl order rows ->
  List.length (prune (map endpoint (filter g order)) rows)
  + List.length (filter g order)
  = List.length rows.
Proof.
  intros Hu Hnd Hincl.
  rewrite <- (filter_length
                (fun s => includes (endpoint s) (map endpoint (filter g order)))
                rows).
  unfold prune. rewrite Nat.add_comm. f_equal.
  apply Permutation_length, NoDup_Permutation.
  - apply NoDup_filter, Hnd.
  - apply NoDup_filter. eapply NoDup_map_inv, Hu.
  - intros s. rewrite !filter_In. split.
    + intros [Hin Hg]. split; [apply Hincl, Hin|].
      apply (@pruned_iff g rows order s); auto.
    + intros [Hin Hp]. apply (@pruned_iff g rows order s) in Hp; auto.
Qed.

Lemma prune_all (g : Subscription -> bool) rows order :
  NoDup (map endpoint rows) -> Permutation order rows ->
  prune (map endpoint (filter g order)) rows = filter (fun s => negb (g s)) rows.
Proof.
  intros Hu Hp. unfold prune. apply filter_ext_in. intros s Hs. f_equal.
  assert (Hincl : incl order rows)
    by (intros x Hx; eapply Permutation_in; eassumption).
  pose proof (@pruned_iff g rows order s Hu Hincl Hs) as H.
  assert (Hin : In s order)
    by (eapply Permutation_in; [symmetry; eassumption|exact Hs]).
  destruct (g s), (includes (endpoint s) (map endpoint (filter g order)));
    try reflexivity.
  - destruct H as [_ H]. specialize (H (conj Hin eq_refl)). discriminate.
  - destruct H as [H _]. specialize (H eq_refl). destruct H; discriminate.
Qed.

(** ** C2: the delivery summary *)

Lemma count_le (f g : Subscription -> bool) l :
  (forall x, f x = true -> g x = true) -> count f l <= count g l.
Proof.
  intros H. unfold count. induction l as [|x l IH]; simpl; [lia|].
  destruct (f x) eqn:Fx.
  - rewrite (H x Fx). simpl. lia.
  - destruct (g x); simpl; lia.
Qed.

Lemma count_perm (f : Subscription -> bool) l l' :
  Permutation l l' -> count f l = count f l'.
Proof. apply filter_length_perm. Qed.

Lemma count_split (f : Subscription -> bool) l :
  count f l + count (fun s => negb (f s)) l = List.length l.
Proof. apply filter_length. Qed.

(** C2. Dispatching a payload to the [N] subscriptions [subs], of which
    [K] attempts fail with status 404 or 410, returns a summary with
    removed = K, failed >= K and sent = N - failed. When [subs] are distinct
    rows of the registry, exactly [K] rows leave the registry: the rows of
    [subs] whose attempt was gone. With no subscription the summary is
    sent 0, failed 0, removed 0, errors []. *)
Theorem dispatch_summary env subs payload d :
  Permutation subs (settle env subs) ->
  exists r w',
    run (sendToAll env subs payload) d = (Ret r, w')
    /\ removed r = count (attempt_gone env payload None) subs
    /\ count (attempt_gone env payload None) subs <= failed r
    /\ sent r = List.length subs - failed r
    /\ sent r + failed r = List.length subs
    /\ (db_ok d -> NoDup subs -> incl subs (subscriptions d) ->
        List.length (subscriptions (db w'))
        + count (attempt_gone env payload None) subs
        = List.length (subscriptions d)
        /\ forall s, In s (subscriptions (db w'))
                     <-> In s (subscriptions d)
                         /\ ~ (In s subs /\ attempt_gone env payload None s = true))
    /\ (subs = [] -> r = mkResults 0 0 0 []).
Proof.
  intros Hperm. unfold run. rewrite sendToAll_run.
  do 2 eexists. split; [reflexivity|].
  cbn [sent failed removed errors db with_subs subscriptions].
  rewrite <- !(count_perm _ Hperm).
  pose proof (count_split (attempt_ok env payload None) subs) as Hsplit.
  assert (Hle : count (attempt_gone env payload None) subs
                <= count (fun s => negb (attempt_ok env payload None s)) subs).
  { apply count_le. intros x Hx. now rewrite (gone_not_ok _ _ _ _ Hx). }
  repeat (split; [first [reflexivity | lia]|]).
  split.
  - intros (Hs & _) Hnd Hincl. destruct Hs as (Hu & _).
    assert (Hnd' : NoDup (settle env subs))
      by (eapply Permutation_NoDup; eassumption).
    assert (Hincl' : incl (settle env subs) (subscriptions d)).
    { intros x Hx. apply Hincl. eapply Permutation_in; [symmetry|]; eassumption. }
    split.
    + unfold gone_endpoints.
      rewrite (count_perm (attempt_gone env payload None) Hperm). unfold count.
      apply pruned_length; assumption.
    + intros s. unfold prune, gone_endpoints. rewrite filter_In. split.
      * intros [Hin Hneg]. split; [exact Hin|]. intros [Hsub Hg].
        assert (Hp : includes (endpoint s)
                       (map endpoint
                          (filter (attempt_gone env payload None)
                                  (settle env subs))) = true).
        { apply (@pruned_iff _ (subscriptions d) (settle env subs) s); auto.
          split; [eapply Permutation_in; eassumption|exact Hg]. }
        rewrite Hp in Hneg. discriminate.
      * intros [Hin Hnot]. split; [exact Hin|].
        destruct (includes _ _) eqn:Hp; [|reflexivity].
        apply (@pruned_iff _ (subscriptions d) (settle env subs) s) in Hp; auto.
        exfalso. apply Hnot. destruct Hp as [Hs' Hg].
        split; [eapply Permutation_in; [symmetry|]; eassumption|exact Hg].
  - intros ->. apply Permutation_nil in Hperm. rewrite Hperm. reflexivity.
Qed.

Ltac solve_concrete :=
  repeat first
    [ lia
    | match goal with
      | |- ~ In _ _ => simpl; intuition discriminate
      | |- In _ _ => simpl; tauto
      | |- incl _ _ => intros ? ?
      | |- (_ <= _)%Z => discriminate
      end
    | constructor ].

Lemma db_abc_ok : db_ok db_abc.
Proof. unfold db_ok, table_ok; simpl. solve_concrete. Qed.

Lemma dispatch_summary_witness :
  exists r w',
    run (sendToAll env1 [sub_b; sub_c; sub_a] (Stringify (JStr "hello"))) db_abc
    = (Ret r, w')
    /\ removed r = 1
    /\ 1 <= failed r
    /\ sent r = 3 - failed r
    /\ sent r + failed r = 3
    /\ (List.length (subscriptions (db w')) + 1 = 3
        /\ forall s, In s (subscriptions (db w'))
                     <-> In s (subscriptions db_abc)
                         /\ ~ (In s [sub_b; sub_c; sub_a]
                               /\ attempt_gone env1 (Stringify (JStr "hello")) None s
                                  = true)).
Proof.
  destruct (@dispatch_summary env1 [sub_b; sub_c; sub_a] (Stringify (JStr "hello"))
              db_abc (Permutation_rev _))
    as (r & w' & Hrun & Hrem & Hle & Hsent & Hsum & Hreg & _).
  exists r, w'. repeat (split; [assumption|]).
  apply Hreg.
  - exact db_abc_ok.
  - solve_concrete.
  - intros s Hs. simpl in *. tauto.
Defined.

(** Zero subscriptions *)
Example notify_without_subscriptions :
  fst (run (post_notify env0 deploy) empty_db)
  = Ret (Replied 200
           (obj [("messageId", Some (JStr "id-1"));
                 ("results",
                  Some (obj [("sent", Some (JNum 0)); ("failed", Some (JNum 0));
                             ("removed", Some (JNum 0));
                             ("errors", Some (JArr []))]))]))
  /\ map msg_id (getMessages_all (db (snd (run (post_notify env0 deploy) empty_db))))
     = ["id-1"].
Proof. split; reflexivity. Qed.

(** ** C3: failures stay local *)

Lemma insertMessage_run_cases env id t b ty p u dt w :
  (exists e, insertMessage_run env id t b ty p u dt w = (Raise e, w))
  \/ (exists row,
        insertMessage_run env id t b ty p u dt w
        = (Ret tt, mkWorld (with_msgs (db w) (messages (db w) ++ [row]))
                           (trace w ++ [EvInsertMessage row]))
        /\ msg_id row = id).
Proof.
  destruct (insertMessage_run env id t b ty p u dt w) as [r w'] eqn:Hrun.
  apply insertMessage_run_inv in Hrun.
  destruct Hrun as [[e [-> ->]]|(t'' & b'' & ty'' & p' & -> & -> & _)].
  - left. eexists. reflexivity.
  - right. eexists. split; reflexivity.
Qed.

Lemma snoc_neq A (l : list A) x : l ++ [x] <> l.
Proof.
  intros H. apply (f_equal (@List.length A)) in H.
  rewrite length_app in H. simpl in H. lia.
Qed.

(** C3. The dispatcher always returns a summary, whatever the transport
    answers: every subscription gets its attempt, in the order given, and
    sent counts exactly the subscriptions whose own attempt succeeded. And a
    notify request that wrote its message row is answered 200 with the
    messageId and the summary, whatever the outcome of the pushes. *)
Theorem dispatch_failures_stay_local :
  (forall env subs payload w,
      Permutation subs (settle env subs) ->
      exists r w' deleted,
        sendToAll env subs payload w = (Ret r, w')
        /\ trace w' = trace w
                      ++ map (fun s => EvPush (pushSub s) payload None) subs
                      ++ map EvDeleteSub deleted
        /\ sent r = count (attempt_ok env payload None) subs)
  /\ (forall env req d r w',
         run (post_notify env req) d = (r, w') ->
         messages (db w') <> messages d ->
         exists results,
           r = Ret (Replied 200
                      (obj [("messageId", Some (JStr (uuidv4 env)));
                            ("results", Some (results_json results))]))).
Proof.
  split.
  - intros env subs payload w Hperm. rewrite sendToAll_run.
    do 3 eexists. split; [reflexivity|]. split; [reflexivity|].
    cbn [sent]. symmetry. apply count_perm, Hperm.
  - intros env req d r w'. unfold run, post_notify.
    destruct (negb (truthy (prop req "title")) || negb (truthy (prop req "body"))).
    { unfold ret. intros [= <- <-] H. now elim H. }
    match goal with
    | |- context [insertMessage_run ?e ?i ?t ?b ?ty ?p ?u ?dt] =>
        destruct (insertMessage_run_cases e i t b ty p u dt (mkWorld d []))
          as [[ex Hrun] | [row [Hrun _]]]
    end.
    + erewrite bind_Raise by exact Hrun. intros [= <- <-] H. now elim H.
    + erewrite bind_Ret by exact Hrun.
      unfold getAllSubs at 1, get_db, ret at 1. unfold bind at 1 2. cbn [db].
      unfold bind at 1. rewrite sendToAll_run.
      unfold bind at 1. rewrite broadcastWs_run.
      unfold bind at 1. rewrite fireWebhooks_run.
      unfold ret. intros [= <- <-] _. eexists. reflexivity.
Qed.

Lemma dispatch_failures_stay_local_witness :
  (exists r w' deleted,
      sendToAll env1 [sub_b; sub_c; sub_a] (Stringify (JStr "hello"))
                (mkWorld db_abc [])
      = (Ret r, w')
      /\ trace w' = map (fun s => EvPush (pushSub s) (Stringify (JStr "hello")) None)
                        [sub_b; sub_c; sub_a]
                    ++ map EvDeleteSub deleted
      /\ sent r = 1)
  /\ (exists results,
         fst (run (post_notify env1 deploy) db_abc)
         = Ret (Replied 200
                  (obj [("messageId", Some (JStr "id-9"));
                        ("results", Some (results_json results))]))).
Proof.
  destruct dispatch_failures_stay_local as [Hdisp Hnotify].
  split.
  - apply (Hdisp env1 [sub_b; sub_c; sub_a] (Stringify (JStr "hello"))
                 (mkWorld db_abc [])).
    apply Permutation_rev.
  - apply (Hnotify env1 deploy db_abc _
                   (snd (run (post_notify env1 deploy) db_abc))).
    + apply surjective_pairing.
    + vm_compute. discriminate.
Defined.

(** ** C8: purge *)

Lemma attempt_gone_inv env payload ttl s :
  attempt_gone env payload ttl s = true ->
  exists c b, sendNotification env (pushSub s) payload ttl = PushErr (Some c) b
              /\ (c = 404 \/ c = 410)%Z.
Proof.
  unfold attempt_gone, is_gone.
  destruct (sendNotification env (pushSub s) payload ttl) as [|[c|] b];
    try discriminate.
  intros H. exists c, b. split; [reflexivity|].
  apply orb_true_iff in H. rewrite !Z.eqb_eq in H. exact H.
Qed.

(** C8. The purge route probes every subscription with a push of
    time-to-live 0 and removes exactly the subscriptions whose probe fails
    with status 404 or 410: a subscription whose probe succeeds (or fails
    with another status) stays. The reply carries the number of removed
    subscriptions as removed and the number of those left as remaining. *)
Theorem purge_removes_only_gone env d :
  db_ok d ->
  Permutation (getAllSubs_all d) (settle env (getAllSubs_all d)) ->
  exists w' rest,
    run (post_purge env) d
    = (Ret (Replied 200
              (obj [("ok", Some (JBool true));
                    ("removed",
                     Some (jnat (count (attempt_gone env probe (Some 0))
                                       (subscriptions d))));
                    ("remaining",
                     Some (jnat (List.length (subscriptions (db w')))))])), w')
    /\ trace w' = map (fun s => EvPush (pushSub s) probe (Some 0)) (getAllSubs_all d)
                  ++ rest
    /\ subscriptions (db w')
       = filter (fun s => negb (attempt_gone env probe (Some 0) s)) (subscriptions d)
    /\ (forall s, In s (subscriptions d) ->
                  attempt_ok env probe (Some 0) s = true ->
                  In s (subscriptions (db w')))
    /\ (forall s, In s (subscriptions d) -> ~ In s (subscriptions (db w')) ->
                  exists c b,
                    sendNotification env (pushSub s) probe (Some 0)
                    = PushErr (Some c) b
                    /\ (c = 404 \/ c = 410)%Z)
    /\ List.length (subscriptions (db w'))
       + count (attempt_gone env probe (Some 0)) (subscriptions d)
       = List.length (subscriptions d).
Proof.
  intros ((Hu & _) & _) Hperm.
  assert (Hrows : Permutation (settle env (getAllSubs_all d)) (subscriptions d)).
  { rewrite <- Hperm. apply order_by_desc_perm. }
  unfold run, post_purge.
  unfold getAllSubs at 1, get_db, ret at 1. unfold bind at 1 2. cbn [db].
  erewrite bind_Ret by apply forEach_emit.
  unfold bind at 1. rewrite probe_all_run.
  unfold getSubCount, get_db, ret at 1 2. unfold bind at 1 2.
  unfold bind at 1. rewrite broadcastWs_run.
  unfold bind, ret.
  cbn [db trace with_subs subscriptions getSubCount_get app].
  unfold gone_endpoints. rewrite (prune_all _ Hu Hrows).
  rewrite (count_perm (attempt_gone env probe (Some 0)) Hrows).
  assert (Hlen : List.length
                   (filter (fun s => negb (attempt_gone env probe (Some 0) s))
                           (subscriptions d))
                 + count (attempt_gone env probe (Some 0)) (subscriptions d)
                 = List.length (subscriptions d)).
  { rewrite Nat.add_comm. apply count_split. }
  rewrite Nat.add_0_l.
  match goal with |- exists w' rest, (_, ?W) = _ /\ _ => exists W end.
  eexists. split; [reflexivity|].
  cbn [db trace subscriptions].
  split; [rewrite <- app_assoc; reflexivity|]. split; [reflexivity|].
  split; [|split; [|exact Hlen]].
  - intros s Hin Hok. apply filter_In. split; [exact Hin|].
    destruct (attempt_gone env probe (Some 0) s) eqn:G; [|reflexivity].
    rewrite (gone_not_ok _ _ _ _ G) in Hok. discriminate.
  - intros s Hin Hnot. apply attempt_gone_inv.
    destruct (attempt_gone env probe (Some 0) s) eqn:G; [reflexivity|].
    exfalso. apply Hnot, filter_In. rewrite G. tauto.
Qed.

Lemma purge_removes_only_gone_witness :
  exists w' rest,
    run (post_purge env1) db_abc
    = (Ret (Replied 200
              (obj [("ok", Some (JBool true));
                    ("removed", Some (jnat 1));
                    ("remaining",
                     Some (jnat (List.length (subscriptions (db w')))))])), w')
    /\ trace w' = map (fun s => EvPush (pushSub s) probe (Some 0))
                      [sub_b; sub_c; sub_a]
                  ++ rest
    /\ subscriptions (db w') = [sub_b; sub_c]
    /\ (forall s, In s (subscriptions db_abc) ->
                  attempt_ok env1 probe (Some 0) s = true ->
                  In s (subscriptions (db w')))
    /\ (forall s, In s (subscriptions db_abc) -> ~ In s (subscriptions (db w')) ->
                  exists c b,
                    sendNotification env1 (pushSub s) probe (Some 0)
                    = PushErr (Some c) b
                    /\ (c = 404 \/ c = 410)%Z)
    /\ List.length (subscriptions (db w')) + 1 = 3.
Proof.
  apply (@purge_removes_only_gone env1 db_abc db_abc_ok).
  apply Permutation_rev.
Defined.

(** ** C6: webhook filtering *)

Lemma split_free x : comma_free x = true -> split "," x = [x].
Proof.
  induction x as [|c x IH]; [reflexivity|]. cbn [comma_free split].
  intros H. apply andb_true_iff in H. destruct H as [Hc Hx].
  apply negb_true_iff in Hc. rewrite Hc, (IH Hx). reflexivity.
Qed.

Lemma split_free_app x y :
  comma_free x = true -> split "," (x ++ String "," y) = x :: split "," y.
Proof.
  induction x as [|c x IH]; [reflexivity|]. cbn [comma_free append split].
  intros H. apply andb_true_iff in H. destruct H as [Hc Hx].
  apply negb_true_iff in Hc. rewrite Hc, (IH Hx). reflexivity.
Qed.

Lemma split_join items :
  items <> [] -> Forall (fun x => comma_free x = true) items ->
  split "," (comma_join items) = items.
Proof.
  induction items as [|x rest IH]; [intros H; elim H; reflexivity|].
  intros _ Hfree. inversion Hfree as [|? ? Hx Hrest]; subst.
  destruct rest as [|y rest]; cbn [comma_join].
  - apply split_free, Hx.
  - rewrite (@split_free_app x _ Hx). f_equal. apply IH; [discriminate|exact Hrest].
Qed.

Lemma split_not_nil s : split "," s <> [].
Proof.
  destruct s as [|c s]; cbn [split]; [discriminate|].
  destruct (Ascii.eqb c ","); [discriminate|].
  destruct (split "," s); discriminate.
Qed.

Lemma join_split s : comma_join (split "," s) = s.
Proof.
  induction s as [|c s IH]; [reflexivity|]. cbn [split].
  pose proof (split_not_nil s) as Hne.
  destruct (Ascii.eqb_spec c ",") as [->|_].
  - destruct (split "," s) as [|w ws]; [elim Hne; reflexivity|].
    cbn [comma_join append] in *. rewrite IH. reflexivity.
  - destruct (split "," s) as [|w ws]; [elim Hne; reflexivity|].
    destruct ws as [|w2 ws]; cbn [comma_join append] in *; rewrite IH;
      reflexivity.
Qed.

Lemma split_items_free s : Forall (fun x => comma_free x = true) (split "," s).
Proof.
  induction s as [|c s IH]; [repeat constructor|]. cbn [split].
  destruct (Ascii.eqb c ",") eqn:Hc; [constructor; [reflexivity|exact IH]|].
  destruct (split "," s) as [|w ws]; [repeat constructor; cbn; rewrite Hc; reflexivity|].
  inversion IH; subst. constructor; [|assumption].
  cbn [comma_free]. rewrite Hc. assumption.
Qed.

(** The items [split] yields are the items the text writes. *)
Lemma split_members k s : In k (split "," s) <-> in_event_set k s.
Proof.
  split.
  - intros Hin. apply in_split in Hin. destruct Hin as (before & after & Hs).
    exists before, after. rewrite <- Hs. split.
    + symmetry. apply join_split.
    + apply split_items_free.
  - intros (before & after & -> & Hfree).
    rewrite split_join; [|destruct before; discriminate|exact Hfree].
    apply in_or_app. right. left. reflexivity.
Qed.

Lemma hook_matches_iff k h :
  hook_matches k h = true <-> events h = "*" \/ in_event_set k (events h).
Proof.
  unfold hook_matches.
  rewrite orb_true_iff, String.eqb_eq, includes_In, split_members. tauto.
Qed.

Ltac no_fetch :=
  repeat (apply Forall_app; split);
  try (apply Forall_forall; intros ? He; apply in_map_iff in He;
       destruct He as [? [<- _]]; exact I);
  repeat constructor.

(** A respond request either leaves no trace at all (it was refused, or the
    insert raised), or is answered 200 after the insert, the broadcast and
    the webhooks for "response". *)
Lemma post_respond_cases env req d r w' :
  run (post_respond env req) d = (r, w') ->
  (trace w' = [] /\ forall j, r <> Ret (Replied 200 j))
  \/ (exists tr payload j,
         r = Ret (Replied 200 j)
         /\ trace w' = tr ++ hook_calls "response" payload d
         /\ Forall not_fetch tr).
Proof.
  unfold run, post_respond.
  destruct (negb (truthy (prop req "text")) && negb (truthy (prop req "data"))).
  { unfold ret. intros [= <- <-]. left. split; [reflexivity|]. discriminate. }
  match goal with
  | |- bind ?m _ _ = _ -> _ =>
      assert (Hres : exists v, m (mkWorld d []) = (Ret v, mkWorld d []))
  end.
  { destruct (negb (truthy (prop req "messageId"))); [|eexists; reflexivity].
    unfold bind, get_db. cbn [db].
    destruct (latest_notification d); eexists; reflexivity. }
  destruct Hres as [v Hres]. erewrite bind_Ret by exact Hres.
  match goal with
  | |- context [insertMessage_run ?e ?i ?t ?b ?ty ?p ?u ?dt] =>
      destruct (insertMessage_run_cases e i t b ty p u dt (mkWorld d []))
        as [[ex Hrun] | [row [Hrun _]]]
  end.
  - erewrite bind_Raise by exact Hrun. intros [= <- <-].
    left. split; [reflexivity|]. discriminate.
  - erewrite bind_Ret by exact Hrun.
    unfold bind at 1. rewrite broadcastWs_run.
    unfold bind at 1. rewrite fireWebhooks_run.
    unfold ret. intros [= <- <-]. right. cbn [trace db].
    match goal with
    | |- exists tr _ _, _ /\ (?e :: ?ws ++ _) = _ /\ _ => exists (e :: ws)
    end.
    do 2 eexists. split; [reflexivity|]. split; [reflexivity|].
    unfold ws_sends. constructor; [exact I|]. no_fetch.
Qed.

Lemma post_notify_cases env req d r w' :
  run (post_notify env req) d = (r, w') ->
  (trace w' = [] /\ forall j, r <> Ret (Replied 200 j))
  \/ (exists tr payload j,
         r = Ret (Replied 200 j)
         /\ trace w' = tr ++ hook_calls "notification" payload d
         /\ Forall not_fetch tr).
Proof.
  unfold run, post_notify.
  destruct (negb (truthy (prop req "title")) || negb (truthy (prop req "body"))).
  { unfold ret. intros [= <- <-]. left. split; [reflexivity|]. discriminate. }
  match goal with
  | |- context [insertMessage_run ?e ?i ?t ?b ?ty ?p ?u ?dt] =>
      destruct (insertMessage_run_cases e i t b ty p u dt (mkWorld d []))
        as [[ex Hrun] | [row [Hrun _]]]
  end.
  - erewrite bind_Raise by exact Hrun. intros [= <- <-].
    left. split; [reflexivity|]. discriminate.
  - erewrite bind_Ret by exact Hrun.
    unfold getAllSubs at 1, get_db, ret at 1. unfold bind at 1 2. cbn [db].
    unfold bind at 1. rewrite sendToAll_run.
    unfold bind at 1. rewrite broadcastWs_run.
    unfold bind at 1. rewrite fireWebhooks_run.
    unfold ret. intros [= <- <-]. right. cbn [trace db].
    match goal with
    | |- exists tr _ _, _ /\ (?e :: ?pre ++ _) = _ /\ _ => exists (e :: pre)
    end.
    do 2 eexists. split; [reflexivity|]. split; [reflexivity|].
    unfold ws_sends. constructor; [exact I|]. no_fetch.
Qed.

Lemma in_hook_calls k payload d u p :
  In (EvFetch u p) (hook_calls k payload d) <->
  p = Stringify payload
  /\ exists h, In h (webhooks d) /\ url h = u /\ hook_matches k h = true.
Proof.
  unfold hook_calls. rewrite in_map_iff. split.
  - intros [h [[= <- <-] Hin]]. apply filter_In in Hin.
    split; [reflexivity|]. exists h. tauto.
  - intros [-> [h [Hin [<- Hm]]]]. exists h. split; [reflexivity|].
    apply filter_In. tauto.
Qed.

Lemma db_ok_urls d : db_ok d -> NoDup (map url (webhooks d)).
Proof. intros (_ & (Hu & _) & _). exact Hu. Qed.

Lemma db_ok_endpoints d : db_ok d -> NoDup (map endpoint (subscriptions d)).
Proof. intros ((Hu & _) & _). exact Hu. Qed.

(** C6. For a registered webhook [h] and an event of kind [k], fireWebhooks
    issues a request to the URL of [h] exactly when the events field of [h]
    is "*" or [k] is an item of the comma-delimited set that field writes
    (the items written with a comma between neighbours, [k] one of them). A
    webhook whose events field is "notification" gets no request from a
    respond operation; one whose events field is "*" gets a request from
    every notify and every respond operation that is answered 200.
    Registering through POST /api/webhooks stores the events field as
    given. *)
Theorem webhook_filter_correct :
  (forall k payload d h,
      db_ok d -> In h (webhooks d) ->
      (In (EvFetch (url h) (Stringify payload))
          (trace (snd (run (fireWebhooks k payload) d)))
       <-> events h = "*" \/ in_event_set k (events h)))
  /\ (forall env req d h p,
         db_ok d -> In h (webhooks d) -> events h = "notification" ->
         ~ In (EvFetch (url h) p) (trace (snd (run (post_respond env req) d))))
  /\ (forall env req d h j w',
         In h (webhooks d) -> events h = "*" ->
         (run (post_respond env req) d = (Ret (Replied 200 j), w') ->
          exists p, In (EvFetch (url h) p) (trace w'))
         /\ (run (post_notify env req) d = (Ret (Replied 200 j), w') ->
             exists p, In (EvFetch (url h) p) (trace w')))
  /\ (forall env req d u e,
         prop req "url" = Some (JStr u) -> nonempty u = true ->
         prop req "events" = Some (JStr e) -> nonempty e = true ->
         (hook_seq d < MAX_ROWID)%Z ->
         exists w' h,
           run (post_webhooks env req) d = (Ret (Replied 200 ok_json), w')
           /\ In h (webhooks (db w')) /\ url h = u /\ events h = e).
Proof.
  split; [|split; [|split]].
  - intros k payload d h Hok Hin. unfold run. rewrite fireWebhooks_run.
    cbn [snd trace db app]. rewrite in_hook_calls, <- hook_matches_iff. split.
    + intros [_ [h' [Hin' [Hu Hm]]]].
      assert (h' = h)
        by (eapply NoDup_map_inj; eauto using db_ok_urls). subst h'. exact Hm.
    + intros Hm. split; [reflexivity|]. exists h. tauto.
  - intros env req d h p Hok Hin Hev Hfetch.
    destruct (run (post_respond env req) d) as [r w'] eqn:Hrun.
    apply post_respond_cases in Hrun. cbn [snd] in Hfetch.
    destruct Hrun as [[Htr _] | (tr & payload & j & _ & Htr & Hnf)];
      rewrite Htr in Hfetch; [destruct Hfetch|].
    apply in_app_or in Hfetch. destruct Hfetch as [Hfetch|Hfetch].
    + rewrite Forall_forall in Hnf. apply (Hnf _ Hfetch).
    + apply in_hook_calls in Hfetch. destruct Hfetch as [_ [h' [Hin' [Hu Hm]]]].
      assert (h' = h)
        by (eapply NoDup_map_inj; eauto using db_ok_urls). subst h'.
      unfold hook_matches in Hm. rewrite Hev in Hm. discriminate.
  - intros env req d h j w' Hin Hev.
    assert (Hm : forall k, hook_matches k h = true)
      by (intros k; unfold hook_matches; rewrite Hev; reflexivity).
    split; intros Hrun.
    + apply post_respond_cases in Hrun.
      destruct Hrun as [[_ Hno] | (tr & payload & j' & _ & Htr & _)];
        [elim (Hno j); reflexivity|].
      exists (Stringify payload). rewrite Htr. apply in_or_app. right.
      apply in_hook_calls. split; [reflexivity|]. exists h. auto.
    + apply post_notify_cases in Hrun.
      destruct Hrun as [[_ Hno] | (tr & payload & j' & _ & Htr & _)];
        [elim (Hno j); reflexivity|].
      exists (Stringify payload). rewrite Htr. apply in_or_app. right.
      apply in_hook_calls. split; [reflexivity|]. exists h. auto.
  - intros env req d u e Hu Hnu He Hne Hseq.
    unfold run, post_webhooks. rewrite Hu, He. cbn [truthy]. rewrite Hnu, Hne.
    cbn [negb]. unfold insertWebhook_run, bind, lift, not_null, ret,
      get_db, put_db, emit. cbn -[Z.leb MAX_ROWID Z.add filter].
    apply Z.leb_gt in Hseq. rewrite Hseq.
    do 2 eexists. split; [reflexivity|]. cbn [db webhooks].
    split; [apply in_or_app; right; left; reflexivity|]. split; reflexivity.
Qed.

Lemma db_hooks_ok : db_ok db_hooks.
Proof. unfold db_ok, table_ok; simpl. solve_concrete. Qed.

Lemma webhook_filter_correct_witness :
  In (EvFetch "https://hooks/rn" (Stringify JNull))
     (trace (snd (run (fireWebhooks "response" JNull) db_hooks)))
  /\ In (EvFetch "https://hooks/rn" (Stringify JNull))
        (trace (snd (run (fireWebhooks "notification" JNull) db_hooks)))
  /\ ~ In (EvFetch "https://hooks/n" (Stringify JNull))
          (trace (snd (run (fireWebhooks "response" JNull) db_hooks)))
  /\ ~ In (EvFetch "https://hooks/n" (Stringify JNull))
          (trace (snd (run (post_respond env0 approve) db_hooks)))
  /\ ((exists p, In (EvFetch "https://hooks/all" p)
                    (trace (snd (run (post_respond env0 approve) db_hooks))))
      /\ (exists p, In (EvFetch "https://hooks/all" p)
                       (trace (snd (run (post_notify env0 deploy) db_hooks)))))
  /\ (exists w' h,
         run (post_webhooks env0 (JObj [("url", JStr "https://hooks/new");
                                        ("events", JStr "notification")]))
             db_hooks
         = (Ret (Replied 200 ok_json), w')
         /\ In h (webhooks (db w')) /\ url h = "https://hooks/new"
         /\ events h = "notification").
Proof.
  destruct webhook_filter_correct as (Hfire & Hnone & Hall & Hreg).
  split; [|split; [|split; [|split; [|split]]]].
  - apply (Hfire "response" JNull db_hooks hook_rn db_hooks_ok);
      [simpl; tauto|].
    right. exists [], ["notification"]. split; [reflexivity|].
    repeat constructor.
  - apply (Hfire "notification" JNull db_hooks hook_rn db_hooks_ok);
      [simpl; tauto|].
    right. exists ["response"], []. split; [reflexivity|].
    repeat constructor.
  - intros Hin.
    apply (Hfire "response" JNull db_hooks hook_n db_hooks_ok) in Hin;
      [|simpl; tauto].
    destruct Hin as [Hstar|Hset]; [discriminate Hstar|].
    apply split_members in Hset. destruct Hset as [Hk|[]]. discriminate Hk.
  - apply (Hnone env0 approve db_hooks hook_n (Stringify JNull) db_hooks_ok);
      [simpl; tauto | reflexivity].
  - split.
    + refine (proj1 (Hall env0 approve db_hooks hook_all _
                          (snd (run (post_respond env0 approve) db_hooks))
                          _ eq_refl) eq_refl).
      simpl; tauto.
    + refine (proj2 (Hall env0 deploy db_hooks hook_all _
                          (snd (run (post_notify env0 deploy) db_hooks))
                          _ eq_refl) eq_refl).
      simpl; tauto.
  - apply (Hreg env0 _ db_hooks "https://hooks/new" "notification");
      reflexivity.
Defined.

(** ** Where a new row lands in a listing *)

Section Landing.
Variable A : Type.
Variable key : A -> Time.

Lemma place_In x l y : In y (place key x l) <-> y = x \/ In y l.
Proof.
  split; intros H.
  - apply (Permutation_in _ (place_perm key x l)) in H. simpl in H.
    destruct H; auto.
  - apply (Permutation_in _ (Permutation_sym (place_perm key x l))).
    simpl. destruct H; auto.
Qed.

Lemma place_cons x y l :
  place key x (y :: l)
  = if Nat.ltb (key x) (key y) then y :: place key x l else x :: y :: l.
Proof. reflexivity. Qed.

Lemma place_sorted x l : newest_first key l -> newest_first key (place key x l).
Proof.
  unfold newest_first.
  induction l as [|y l IH]; simpl; intros H.
  - repeat constructor.
  - apply StronglySorted_inv in H. destruct H as [Hs Hall].
    destruct (Nat.ltb (key x) (key y)) eqn:C.
    + apply Nat.ltb_lt in C. constructor; [auto|].
      rewrite Forall_forall in *. intros z Hz. apply place_In in Hz.
      destruct Hz as [->|Hz]; [lia|auto].
    + apply Nat.ltb_ge in C. constructor; [constructor; assumption|].
      constructor; [exact C|].
      rewrite Forall_forall in *. intros z Hz. specialize (Hall z Hz). lia.
Qed.

Lemma order_by_desc_sorted l : newest_first key (order_by_desc key l).
Proof.
  induction l as [|x l IH]; simpl; [constructor|].
  apply place_sorted, IH.
Qed.

Lemma not_older_cons x y l :
  not_older key x (y :: l)
  = if Nat.leb (key x) (key y) then y :: not_older key x l else not_older key x l.
Proof. reflexivity. Qed.

Lemma older_cons x y l :
  older key x (y :: l)
  = if Nat.ltb (key y) (key x) then y :: older key x l else older key x l.
Proof. reflexivity. Qed.

Lemma all_older x l :
  Forall (fun y => key y < key x) l -> not_older key x l = [] /\ older key x l = l.
Proof.
  unfold not_older, older.
  induction l as [|y l IH]; simpl; intros H; [auto|].
  inversion H as [|? ? Hy Hl]; subst. destruct (IH Hl) as [-> ->].
  destruct (Nat.leb_spec (key x) (key y)); [lia|].
  destruct (Nat.ltb_spec (key y) (key x)); [auto|lia].
Qed.

(** [x] was met last by the scan: it lands behind the rows that are not
    older key and in front of the older key ones. *)
Lemma place_behind a x l :
  newest_first key l ->
  place key a (not_older key x l ++ x :: older key x l)
  = not_older key x (place key a l) ++ x :: older key x (place key a l).
Proof.
  unfold newest_first.
  induction l as [|y l IH]; intros Hs.
  - unfold not_older, older. simpl.
    destruct (Nat.ltb_spec (key a) (key x));
      destruct (Nat.leb_spec (key x) (key a)); try lia; reflexivity.
  - apply StronglySorted_inv in Hs. destruct Hs as [Hs Hall].
    destruct (Nat.leb_spec (key x) (key y)) as [Hxy|Hxy].
    + assert (E1 : not_older key x (y :: l) = y :: not_older key x l).
      { unfold not_older. simpl.
        destruct (Nat.leb_spec (key x) (key y)); [reflexivity|lia]. }
      assert (E2 : older key x (y :: l) = older key x l).
      { unfold older. simpl.
        destruct (Nat.ltb_spec (key y) (key x)); [lia|reflexivity]. }
      rewrite E1, E2. cbn [app place].
      destruct (Nat.ltb_spec (key a) (key y)) as [Hay|Hay].
      * rewrite (IH Hs). unfold not_older, older. simpl.
        destruct (Nat.leb_spec (key x) (key y)); [|lia].
        destruct (Nat.ltb_spec (key y) (key x)); [lia|]. reflexivity.
      * unfold not_older, older. simpl.
        destruct (Nat.leb_spec (key x) (key a)); [|lia].
        destruct (Nat.ltb_spec (key a) (key x)); [lia|].
        destruct (Nat.leb_spec (key x) (key y)); [|lia].
        destruct (Nat.ltb_spec (key y) (key x)); [lia|]. reflexivity.
    + assert (Hold : Forall (fun z => key z < key x) (y :: l)).
      { constructor; [exact Hxy|].
        rewrite Forall_forall in *. intros z Hz. specialize (Hall z Hz). lia. }
      destruct (all_older Hold) as [-> ->]. cbn [app].
      rewrite (place_cons a x (y :: l)).
      destruct (Nat.ltb_spec (key a) (key x)) as [Hax|Hax].
      * assert (Hold' : Forall (fun z => key z < key x) (place key a (y :: l))).
        { rewrite Forall_forall in *. intros z Hz. apply place_In in Hz.
          destruct Hz as [->|Hz]; [exact Hax|auto]. }
        destruct (all_older Hold') as [-> ->]. reflexivity.
      * rewrite (place_cons a y l).
        destruct (Nat.ltb_spec (key a) (key y)); [lia|].
        rewrite (not_older_cons x a (y :: l)), (older_cons x a (y :: l)).
        destruct (Nat.leb_spec (key x) (key a)); [|lia].
        destruct (Nat.ltb_spec (key a) (key x)); [lia|].
        destruct (all_older Hold) as [-> ->]. reflexivity.
Qed.

Lemma order_by_desc_snoc l x :
  order_by_desc key (l ++ [x])
  = not_older key x (order_by_desc key l) ++ x :: older key x (order_by_desc key l).
Proof.
  induction l as [|a l IH]; simpl; [reflexivity|].
  rewrite IH. apply place_behind, order_by_desc_sorted.
Qed.

End Landing.

(** ** C7 and C10: the subscription registry *)

Lemma insertSub_run_ok env e p a w :
  (sub_seq (db w) < MAX_ROWID)%Z ->
  let row := mkSub (sub_seq (db w) + 1) e p a (now env) in
  insertSub_run env (Some (JStr e)) (Some (JStr p)) (Some (JStr a)) w
  = (Ret tt, mkWorld (upserted (db w) row) (trace w ++ [EvInsertSub row])).
Proof.
  intros Hseq row. apply Z.leb_gt in Hseq.
  unfold insertSub_run, bind, lift, not_null, ret, get_db, put_db, emit.
  cbn -[Z.leb MAX_ROWID Z.add filter]. rewrite Hseq. reflexivity.
Qed.

Lemma post_subscribe_run env req d e p a :
  subscribe_request req e p a ->
  (sub_seq d < MAX_ROWID)%Z ->
  let row := mkSub (sub_seq d + 1) e p a (now env) in
  run (post_subscribe env req) d
  = (Ret (Replied 200 ok_json),
     mkWorld (upserted d row)
             (EvInsertSub row
              :: ws_sends env
                   (obj [("type", Some (JStr "subscription"));
                         ("count",
                          Some (jnat (getSubCount_get (upserted d row))))]))).
Proof.
  intros (He & Hne & Hp & Hnp & Ha & Hna) Hseq row.
  unfold run, post_subscribe. rewrite He, Hp, Ha. cbn [truthy].
  rewrite Hne, Hnp, Hna. cbn [negb orb].
  erewrite bind_Ret by (apply insertSub_run_ok; exact Hseq).
  unfold getSubCount, get_db, ret at 1. unfold bind at 1 2. cbn [db].
  unfold bind at 1. rewrite broadcastWs_run. reflexivity.
Qed.

Lemma filter_none A (f : A -> bool) l :
  (forall x, In x l -> f x = false) -> filter f l = [].
Proof.
  induction l as [|a l IH]; simpl; intros H; [reflexivity|].
  rewrite (H a) by auto. apply IH. auto.
Qed.

Lemma filter_absent e subs :
  ~ In e (map endpoint subs) ->
  filter (fun s => negb (has_endpoint e s)) subs = subs.
Proof.
  intros H. apply forallb_filter_id, forallb_forall. intros s Hs.
  unfold has_endpoint. cbn beta. destruct (String.eqb_spec (endpoint s) e); [|reflexivity].
  exfalso. apply H. subst e. apply in_map, Hs.
Qed.

Lemma filter_present e subs :
  NoDup (map endpoint subs) -> In e (map endpoint subs) ->
  List.length (filter (has_endpoint e) subs) = 1.
Proof.
  unfold has_endpoint.
  induction subs as [|s subs IH]; simpl; intros Hnd Hin; [destruct Hin|].
  inversion Hnd as [|? ? Hnin Hnd']; subst.
  destruct (String.eqb_spec (endpoint s) e) as [Heq|Hne]; simpl.
  - f_equal. rewrite filter_none; [reflexivity|].
    intros x Hx. destruct (String.eqb_spec (endpoint x) e) as [Hxe|]; [|reflexivity].
    exfalso. apply Hnin. rewrite Heq, <- Hxe. apply in_map, Hx.
  - apply IH; [exact Hnd'|]. destruct Hin; [contradiction|assumption].
Qed.

Lemma upserted_rows d row s :
  In s (subscriptions (upserted d row))
  <-> (In s (subscriptions d) /\ endpoint s <> endpoint row) \/ s = row.
Proof.
  unfold upserted; cbn [subscriptions]. rewrite in_app_iff, filter_In.
  unfold has_endpoint. simpl.
  destruct (String.eqb_spec (endpoint s) (endpoint row)); simpl; intuition congruence.
Qed.

Lemma upserted_one d row :
  filter (has_endpoint (endpoint row)) (subscriptions (upserted d row)) = [row].
Proof.
  unfold upserted; cbn [subscriptions]. rewrite filter_app. simpl.
  unfold has_endpoint at 3. rewrite String.eqb_refl.
  rewrite filter_none; [reflexivity|].
  intros x Hx. apply filter_In in Hx. destruct Hx as [_ Hx].
  destruct (has_endpoint (endpoint row) x); [discriminate|reflexivity].
Qed.

Lemma prune_absent e subs :
  ~ In e (map endpoint subs) -> prune [e] subs = subs.
Proof.
  intros H. rewrite <- prune_cons, prune_nil. apply filter_absent, H.
Qed.

Lemma upserted_ok d row :
  db_ok d -> sub_id row = (sub_seq d + 1)%Z -> db_ok (upserted d row).
Proof.
  intros (Hs & Hh & Hm) Hid. split; [|split; assumption].
  apply (@table_ok_replace _ sub_id endpoint _ _ row Hs Hid).
Qed.

Lemma upserted_count d row :
  db_ok d -> In (endpoint row) (map endpoint (subscriptions d)) ->
  getSubCount_get (upserted d row) = getSubCount_get d.
Proof.
  intros Hok Hin. unfold getSubCount_get, upserted; cbn [subscriptions].
  rewrite length_app; simpl.
  rewrite <- (filter_length (has_endpoint (endpoint row)) (subscriptions d)).
  rewrite filter_present; [lia | apply db_ok_endpoints, Hok | exact Hin].
Qed.

(** C7. Unregistering an endpoint that is not registered is answered 200
    ok:true and leaves the store, hence the subscriber count, as it was.
    Subscribing an endpoint that is already registered, with new keys, is
    answered 200 ok:true; afterwards the registry holds one row for that
    endpoint, carrying the new keys, every endpoint occurs once, the other
    rows are untouched and the subscriber count is unchanged. *)
Theorem unsubscribe_idempotent_subscribe_upserts :
  (forall env req d e,
      prop req "endpoint" = Some (JStr e) -> nonempty e = true ->
      ~ In e (map endpoint (subscriptions d)) ->
      exists w',
        run (delete_subscribe env req) d = (Ret (Replied 200 ok_json), w')
        /\ db w' = d
        /\ getSubCount_get (db w') = getSubCount_get d)
  /\ (forall env req d e p a,
         db_ok d -> subscribe_request req e p a -> (sub_seq d < MAX_ROWID)%Z ->
         In e (map endpoint (subscriptions d)) ->
         exists w' row,
           run (post_subscribe env req) d = (Ret (Replied 200 ok_json), w')
           /\ filter (has_endpoint e) (subscriptions (db w')) = [row]
           /\ keys_p256dh row = p /\ keys_auth row = a
           /\ NoDup (map endpoint (subscriptions (db w')))
           /\ getSubCount_get (db w') = getSubCount_get d
           /\ (forall s, endpoint s <> e ->
                         (In s (subscriptions (db w')) <-> In s (subscriptions d)))).
Proof.
  split.
  - intros env req d e He Hne Habs.
    unfold run, delete_subscribe. rewrite He. cbn [truthy]. rewrite Hne.
    cbn [negb]. unfold bind at 1. rewrite deleteSub_run_str. cbn [db].
    rewrite (prune_absent _ _ Habs), with_subs_same.
    unfold getSubCount, get_db, ret at 1. unfold bind at 1 2. cbn [db].
    unfold bind at 1. rewrite broadcastWs_run.
    eexists. split; [reflexivity|]. split; reflexivity.
  - intros env req d e p a Hok Hreq Hseq Hin.
    rewrite (@post_subscribe_run env req d e p a Hreq Hseq).
    set (row := mkSub (sub_seq d + 1) e p a (now env)).
    do 2 eexists. split; [reflexivity|]. cbn [db].
    split; [exact (upserted_one d row)|].
    split; [reflexivity|]. split; [reflexivity|].
    split; [apply db_ok_endpoints, upserted_ok; [exact Hok|reflexivity]|].
    split; [apply upserted_count; assumption|].
    intros s Hs. rewrite upserted_rows. cbn [endpoint]. split.
    + intros [[H _]|H]; [exact H|]. subst s. elim Hs. reflexivity.
    + intros H. left. split; assumption.
Qed.

Lemma db_ab_ok : db_ok db_ab.
Proof. unfold db_ok, table_ok; simpl. solve_concrete. Qed.

Lemma unsubscribe_idempotent_subscribe_upserts_witness :
  (exists w',
      run (delete_subscribe env0 (JObj [("endpoint", JStr "https://push/zz")])) db_ab
      = (Ret (Replied 200 ok_json), w')
      /\ db w' = db_ab
      /\ getSubCount_get (db w') = 2)
  /\ (exists w' row,
         run (post_subscribe env0 resubscribe_a) db_ab
         = (Ret (Replied 200 ok_json), w')
         /\ filter (has_endpoint "https://push/a") (subscriptions (db w')) = [row]
         /\ keys_p256dh row = "pa2" /\ keys_auth row = "aa2"
         /\ NoDup (map endpoint (subscriptions (db w')))
         /\ getSubCount_get (db w') = 2
         /\ (forall s, endpoint s <> "https://push/a" ->
                       (In s (subscriptions (db w')) <-> In s (subscriptions db_ab)))).
Proof.
  destruct unsubscribe_idempotent_subscribe_upserts as [Hdel Hsub].
  split.
  - apply (Hdel env0 _ db_ab "https://push/zz"); [reflexivity|reflexivity|].
    simpl; intuition discriminate.
  - apply (Hsub env0 resubscribe_a db_ab "https://push/a" "pa2" "aa2" db_ab_ok).
    + repeat split; reflexivity.
    + reflexivity.
    + simpl; tauto.
Defined.

Lemma other_subs_In e d s :
  In s (other_subs e d) <-> In s (subscriptions d) /\ endpoint s <> e.
Proof.
  unfold other_subs. split.
  - intros H. apply (Permutation_in _ (order_by_desc_perm _ _)) in H.
    apply filter_In in H. destruct H as [H Hne]. split; [exact H|].
    unfold has_endpoint in Hne.
    destruct (String.eqb_spec (endpoint s) e); [discriminate|assumption].
  - intros [H Hne].
    apply (Permutation_in _ (Permutation_sym (order_by_desc_perm _ _))).
    apply filter_In. split; [exact H|]. unfold has_endpoint.
    destruct (String.eqb_spec (endpoint s) e); [contradiction|reflexivity].
Qed.

Lemma upserted_listing d row :
  getAllSubs_all (upserted d row)
  = not_older sub_createdAt row (other_subs (endpoint row) d)
    ++ row :: older sub_createdAt row (other_subs (endpoint row) d).
Proof.
  unfold getAllSubs_all, upserted, other_subs; cbn [subscriptions].
  apply order_by_desc_snoc.
Qed.

(** C10, as amended. Re-subscribing a registered endpoint deletes its row
    and inserts a new one: the new row has a greater numeric id and the
    current time as createdAt. In the newest-first listing the new row
    comes after the other subscriptions whose createdAt is the current
    time or later, and before those with an earlier createdAt; it is at
    the front exactly when every other subscription has a strictly earlier
    createdAt. *)
Theorem resubscribe_replaces_row env req d e p a old :
  db_ok d -> subscribe_request req e p a -> (sub_seq d < MAX_ROWID)%Z ->
  In old (subscriptions d) -> endpoint old = e ->
  exists w' new,
    run (post_subscribe env req) d = (Ret (Replied 200 ok_json), w')
    /\ In new (subscriptions (db w')) /\ endpoint new = e
    /\ ~ In old (subscriptions (db w'))
    /\ (sub_id old < sub_id new)%Z
    /\ sub_createdAt new = now env
    /\ getAllSubs_all (db w')
       = not_older sub_createdAt new (other_subs e d)
         ++ new :: older sub_createdAt new (other_subs e d)
    /\ (hd_error (getAllSubs_all (db w')) = Some new
        <-> Forall (fun s => endpoint s <> e -> sub_createdAt s < now env)
                   (subscriptions d)).
Proof.
  intros Hok Hreq Hseq Hold He.
  rewrite (@post_subscribe_run env req d e p a Hreq Hseq).
  set (new := mkSub (sub_seq d + 1) e p a (now env)).
  assert (Hid : (sub_id old < sub_id new)%Z).
  { destruct Hok as ((_ & _ & Hb & _) & _). rewrite Forall_forall in Hb.
    specialize (Hb old Hold). simpl. lia. }
  exists (mkWorld (upserted d new)
            (EvInsertSub new
             :: ws_sends env
                  (obj [("type", Some (JStr "subscription"));
                        ("count", Some (jnat (getSubCount_get (upserted d new))))]))),
         new.
  split; [reflexivity|]. cbn [db].
  split; [apply upserted_rows; right; reflexivity|].
  split; [reflexivity|].
  split.
  { intros H. apply upserted_rows in H. destruct H as [[_ H]|H].
    - apply H. exact He.
    - subst old. lia. }
  split; [exact Hid|]. split; [reflexivity|].
  pose proof (upserted_listing d new) as Hlist.
  change (endpoint new) with e in Hlist.
  split; [exact Hlist|].
  rewrite Hlist. split.
  - intros Hhd. apply Forall_forall. intros s Hs Hne.
    destruct (Nat.ltb_spec (sub_createdAt s) (now env)) as [|Hge]; [assumption|].
    exfalso.
    assert (Hin : In s (not_older sub_createdAt new (other_subs e d))).
    { unfold not_older. apply filter_In. split.
      - apply other_subs_In. tauto.
      - apply Nat.leb_le. exact Hge. }
    destruct (not_older sub_createdAt new (other_subs e d)) as [|s' rest] eqn:E;
      [destruct Hin|].
    simpl in Hhd. injection Hhd as ->.
    assert (Hin' : In new (not_older sub_createdAt new (other_subs e d)))
      by (rewrite E; left; reflexivity).
    unfold not_older in Hin'. apply filter_In in Hin'. destruct Hin' as [Hin' _].
    apply other_subs_In in Hin'. destruct Hin' as [_ Hin']. apply Hin'. reflexivity.
  - intros Hall.
    assert (Hall' : Forall (fun y => sub_createdAt y < sub_createdAt new)
                           (other_subs e d)).
    { rewrite Forall_forall in *. intros s Hs. apply other_subs_In in Hs.
      destruct Hs as [Hs Hne]. exact (Hall s Hs Hne). }
    destruct (@all_older _ sub_createdAt new _ Hall') as [-> _]. reflexivity.
Qed.

(** C10 as stated fails: endpoint a is re-subscribed in the second in which
    endpoint b was created; the request succeeds, the row of a is new,
    and b stays at the front of the listing. *)
Lemma resubscribe_same_second_not_in_front :
  In "https://push/a" (map endpoint (subscriptions db_ab))
  /\ fst (run (post_subscribe env50 resubscribe_a) db_ab)
     = Ret (Replied 200 ok_json)
  /\ getAllSubs_all (db (snd (run (post_subscribe env50 resubscribe_a) db_ab)))
     = [sub_b; mkSub 3 "https://push/a" "pa2" "aa2" 50]
  /\ ~ (exists s,
           hd_error (getAllSubs_all
                       (db (snd (run (post_subscribe env50 resubscribe_a) db_ab))))
           = Some s
           /\ endpoint s = "https://push/a").
Proof.
  split; [simpl; tauto|]. split; [reflexivity|]. split; [reflexivity|].
  intros [s [Hhd He]]. vm_compute in Hhd. injection Hhd as <-. discriminate.
Qed.

Lemma resubscribe_replaces_row_witness :
  exists w' new,
    run (post_subscribe env0 resubscribe_a) db_ab = (Ret (Replied 200 ok_json), w')
    /\ In new (subscriptions (db w')) /\ endpoint new = "https://push/a"
    /\ ~ In sub_a (subscriptions (db w'))
    /\ (sub_id sub_a < sub_id new)%Z
    /\ sub_createdAt new = 100
    /\ getAllSubs_all (db w')
       = not_older sub_createdAt new (other_subs "https://push/a" db_ab)
         ++ new :: older sub_createdAt new (other_subs "https://push/a" db_ab)
    /\ (hd_error (getAllSubs_all (db w')) = Some new
        <-> Forall (fun s => endpoint s <> "https://push/a" -> sub_createdAt s < 100)
                   (subscriptions db_ab)).
Proof.
  apply (@resubscribe_replaces_row env0 resubscribe_a db_ab "https://push/a"
           "pa2" "aa2" sub_a db_ab_ok).
  - repeat split; reflexivity.
  - reflexivity.
  - simpl; tauto.
  - reflexivity.
Defined.

(** * Further properties of the handlers *)

(** ** Statements that leave the message log alone *)

Section MessagesFrame.
Variable Q : list Message -> Prop.

Lemma keeps_messages_frame A (m : M A) :
  (forall w, messages (db (snd (m w))) = messages (db w)) ->
  keeps (fun d => Q (messages d)) m.
Proof. intros H w Hq. rewrite H. exact Hq. Qed.

Lemma insertSub_keeps_messages env e p a :
  keeps (fun d => Q (messages d)) (insertSub_run env e p a).
Proof.
  unfold insertSub_run. keeps_binding.
  apply keeps_messages_frame. intros w. unfold bind, get_db.
  destruct (MAX_ROWID <=? sub_seq (db w))%Z; reflexivity.
Qed.

Lemma deleteSub_keeps_messages env e :
  keeps (fun d => Q (messages d)) (deleteSub_run env e).
Proof.
  unfold deleteSub_run. keeps_binding.
  apply keeps_messages_frame. intros w. unfold bind, get_db.
  match goal with |- context [match ?x with _ => _ end] => destruct x end;
    reflexivity.
Qed.

Lemma insertWebhook_keeps_messages env u ev :
  keeps (fun d => Q (messages d)) (insertWebhook_run env u ev).
Proof.
  unfold insertWebhook_run. keeps_binding.
  apply keeps_messages_frame. intros w. unfold bind, get_db.
  destruct (MAX_ROWID <=? hook_seq (db w))%Z; reflexivity.
Qed.

Lemma deleteWebhook_keeps_messages env u :
  keeps (fun d => Q (messages d)) (deleteWebhook_run env u).
Proof.
  unfold deleteWebhook_run. keeps_binding.
  apply keeps_messages_frame. intros w. unfold bind, get_db.
  match goal with |- context [match ?x with _ => _ end] => destruct x end;
    reflexivity.
Qed.

End MessagesFrame.

(** ** Referential integrity of the message log *)

Lemma parent_ok_app msgs more m : parent_ok msgs m -> parent_ok (msgs ++ more) m.
Proof.
  unfold parent_ok. destruct (parentId m); [|trivial].
  rewrite map_app, in_app_iff. tauto.
Qed.

Lemma existsb_has_id_true i msgs :
  existsb (has_id i) msgs = true -> In i (map msg_id msgs).
Proof.
  intros H. apply existsb_exists in H. destruct H as [m [Hin Hm]].
  unfold has_id in Hm. apply String.eqb_eq in Hm. subst i. apply in_map, Hin.
Qed.

Lemma insertMessage_keeps_fk env id t b ty p u dt :
  keeps fk_inv (insertMessage_run env id t b ty p u dt).
Proof.
  intros w Hinv.
  destruct (insertMessage_run env id t b ty p u dt w) as [r w'] eqn:Hrun.
  apply insertMessage_run_inv in Hrun.
  destruct Hrun as [[e [_ ->]] | (t'' & b'' & ty'' & p' & _ & -> & _ & _ & Hfk)];
    [exact Hinv|].
  unfold fk_inv in *; cbn [snd db with_msgs messages].
  apply Forall_app. split.
  - eapply Forall_impl; [|exact Hinv]. intros m. apply parent_ok_app.
  - constructor; [|constructor]. unfold parent_ok; cbn [parentId].
    destruct p' as [q|]; [|exact I]. apply existsb_has_id_true, Hfk.
Qed.

Lemma reachable_fk_inv d : reachable d -> fk_inv d.
Proof.
  apply reachable_keeps; intros;
    auto using insertMessage_keeps_fk;
    try apply (insertSub_keeps_messages (fun ms => Forall (parent_ok ms) ms));
    try apply (deleteSub_keeps_messages (fun ms => Forall (parent_ok ms) ms));
    try apply (insertWebhook_keeps_messages (fun ms => Forall (parent_ok ms) ms));
    try apply (deleteWebhook_keeps_messages (fun ms => Forall (parent_ok ms) ms)).
  constructor.
Qed.

(** X1. In every store the server can reach, the parentId of a message,
    when it is not NULL, is the id of a message of the log: no input, on
    any route, leaves a response pointing at a message that does not
    exist. *)
Theorem parent_references_resolve d :
  reachable d ->
  forall m p, In m (messages d) -> parentId m = Some p ->
              exists m', In m' (messages d) /\ msg_id m' = p.
Proof.
  intros Hr m p Hin Hp.
  pose proof (reachable_fk_inv Hr) as Hinv. unfold fk_inv in Hinv.
  rewrite Forall_forall in Hinv. specialize (Hinv m Hin).
  unfold parent_ok in Hinv. rewrite Hp in Hinv.
  apply in_map_iff in Hinv. destruct Hinv as [m' [Hid Hin']].
  exists m'. split; assumption.
Qed.

Lemma parent_references_resolve_witness :
  exists m', In m' (messages db_after_respond) /\ msg_id m' = "id-1".
Proof.
  apply (@parent_references_resolve db_after_respond)
    with (m := mkMsg "id-2" "Response" "approved" 101 response (Some "id-1") None
                     (Some (Stringify (JObj [("env", JStr "prod")])))).
  - unfold db_after_respond, db_after_notify.
    apply reach_step, reach_step, reach_init.
  - vm_compute. right. left. reflexivity.
  - reflexivity.
Defined.

(** ** Respond *)

Lemma insertMessage_run_orphan env id t b ty q u dt w :
  existsb (has_id id) (messages (db w)) = false ->
  existsb (has_id q) (messages (db w)) = false ->
  String.eqb id q = false ->
  insertMessage_run env id (Some (JStr t)) (Some (JStr b)) ty (Some (JStr q)) u dt w
  = (Raise (SqliteError "SQLITE_CONSTRAINT_FOREIGNKEY"), w).
Proof.
  intros Hfresh Hq Hne.
  unfold insertMessage_run, bind, lift, not_null, ret, get_db.
  cbn -[existsb check_type type_text]. rewrite check_type_text.
  cbn -[existsb]. rewrite Hfresh, existsb_has_id_app, Hq.
  cbn. unfold has_id; cbn. rewrite Hne. reflexivity.
Qed.

(** X2. A respond request that names its parent: when the messageId is the
    id of a stored message (a notification or a response alike) the
    response is stored with that parent and the reply is 200; when no stored
    message has that id the insert fails on the foreign key, the handler
    raises, and nothing is stored, broadcast or sent to a webhook. *)
Theorem respond_to_named_message env req d i :
  prop req "messageId" = Some (JStr i) -> nonempty i = true ->
  truthy (prop req "text") || truthy (prop req "data") = true ->
  is_text (prop req "text") = true ->
  existsb (has_id (uuidv4 env)) (messages d) = false ->
  String.eqb (uuidv4 env) i = false ->
  (existsb (has_id i) (messages d) = true ->
   exists row w',
     run (post_respond env req) d
     = (Ret (Replied 200 (obj [("ok", Some (JBool true));
                               ("responseId", Some (JStr (uuidv4 env)))])), w')
     /\ messages (db w') = messages d ++ [row]
     /\ msg_id row = uuidv4 env /\ type row = response
     /\ parentId row = Some i)
  /\ (existsb (has_id i) (messages d) = false ->
      run (post_respond env req) d
      = (Raise (SqliteError "SQLITE_CONSTRAINT_FOREIGNKEY"), mkWorld d [])).
Proof.
  intros Hmid Hni Hval Htext Hfresh Hne.
  unfold run, post_respond. rewrite Hmid. cbn [truthy]. rewrite Hni.
  replace (negb (truthy (prop req "text")) && negb (truthy (prop req "data")))
    with false
    by (destruct (truthy (prop req "text")), (truthy (prop req "data"));
        simpl in *; congruence).
  destruct (text_or_empty _ Htext) as [b ->].
  cbn [negb].
  split; intros Hi; unfold bind at 1; unfold ret at 1.
  - erewrite bind_Ret
      by (apply (@insertMessage_run_ok env (uuidv4 env) "Response" b response
                   (Some i)); [exact Hfresh | exact Hi]).
    unfold bind at 1. rewrite broadcastWs_run.
    unfold bind at 1. rewrite fireWebhooks_run.
    unfold ret. do 2 eexists. split; [reflexivity|].
    cbn [db with_msgs messages msg_id type parentId].
    repeat split; reflexivity.
  - erewrite bind_Raise
      by (apply insertMessage_run_orphan; [exact Hfresh | exact Hi | exact Hne]).
    reflexivity.
Qed.

Lemma respond_to_named_message_witness :
  (exists row w',
      run (post_respond env2 (reply_to "id-1")) db_after_notify
      = (Ret (Replied 200 (obj [("ok", Some (JBool true));
                                ("responseId", Some (JStr "id-2"))])), w')
      /\ messages (db w') = messages db_after_notify ++ [row]
      /\ msg_id row = "id-2" /\ type row = response
      /\ parentId row = Some "id-1")
  /\ run (post_respond env2 (reply_to "id-404")) db_after_notify
     = (Raise (SqliteError "SQLITE_CONSTRAINT_FOREIGNKEY"),
        mkWorld db_after_notify []).
Proof.
  split.
  - apply (@respond_to_named_message env2 (reply_to "id-1") db_after_notify "id-1");
      reflexivity.
  - apply (@respond_to_named_message env2 (reply_to "id-404") db_after_notify
             "id-404"); reflexivity.
Defined.

(** What a respond request does, case by case. *)
Lemma post_respond_shape env req d r w' :
  run (post_respond env req) d = (r, w') ->
  (w' = mkWorld d [] /\ forall j, r <> Ret (Replied 200 j))
  \/ (exists row frame payload,
         r = Ret (Replied 200 (obj [("ok", Some (JBool true));
                                    ("responseId", Some (JStr (uuidv4 env)))]))
         /\ msg_id row = uuidv4 env
         /\ (scalar (prop req "text") = true -> type row = response)
         /\ title row = "Response" /\ ui row = None /\ sentAt row = now env
         /\ w' = mkWorld (with_msgs d (messages d ++ [row]))
                         (EvInsertMessage row
                          :: ws_sends env frame
                          ++ hook_calls "response" payload d)).
Proof.
  unfold run, post_respond.
  destruct (negb (truthy (prop req "text")) && negb (truthy (prop req "data"))).
  { unfold ret. intros [= <- <-]. left. split; [reflexivity|]. discriminate. }
  match goal with
  | |- bind ?m _ _ = _ -> _ =>
      assert (Hres : exists v, m (mkWorld d []) = (Ret v, mkWorld d []))
  end.
  { destruct (negb (truthy (prop req "messageId"))); [|eexists; reflexivity].
    unfold bind, get_db. cbn [db].
    destruct (latest_notification d); eexists; reflexivity. }
  destruct Hres as [v Hres]. erewrite bind_Ret by exact Hres.
  match goal with
  | |- context [insertMessage_run ?e ?i ?t ?b ?ty ?p ?u ?dt] =>
      destruct (insertMessage_run e i t b ty p u dt (mkWorld d [])) as [r0 w0]
        eqn:Hrun;
      pose proof (insertMessage_run_inv _ _ _ _ _ _ _ _ _ Hrun) as Hinv
  end.
  destruct Hinv as [[e [-> ->]]
                   | (t'' & b'' & ty'' & p' & -> & -> & Hbind & _ & _)].
  - erewrite bind_Raise by exact Hrun. intros [= <- <-].
    left. split; [reflexivity|]. discriminate.
  - erewrite bind_Ret by exact Hrun.
    unfold bind at 1. rewrite broadcastWs_run.
    unfold bind at 1. rewrite fireWebhooks_run.
    unfold ret. intros [= <- <-]. right. cbn [trace db app].
    assert (Hti : t'' = "Response").
    { apply response_binding in Hbind. destruct Hbind as (x2 & x3 & x4 & E).
      injection E as E _ _ _. exact E. }
    assert (Hty : scalar (prop req "text") = true -> ty'' = response).
    { intros Hs. apply typed_binding in Hbind.
      - destruct Hbind as (x2 & x4 & E). injection E as _ _ E _.
        apply (@type_text_inj ty'' response). exact E.
      - destruct (truthy (prop req "text")); [exact Hs|reflexivity]. }
    subst t''.
    match goal with |- context [EvInsertMessage ?row] => exists row end.
    do 2 eexists. split; [reflexivity|].
    cbn [msg_id type title ui sentAt]. split; [reflexivity|].
    split; [exact Hty|]. repeat (split; [reflexivity|]).
    reflexivity.
Qed.

(** X3. A respond request never starts a push and never writes to the
    subscriptions or webhooks tables, whatever it carries: it either leaves
    the log as it was or appends one row, titled "Response" and without
    ui. The row is of kind response whenever the text of the request is not
    an array or an object (such a text is spread over the parameters of the
    insert and can move another value into the type column). *)
Theorem respond_touches_only_the_log env req d :
  subscriptions (db (snd (run (post_respond env req) d))) = subscriptions d
  /\ sub_seq (db (snd (run (post_respond env req) d))) = sub_seq d
  /\ webhooks (db (snd (run (post_respond env req) d))) = webhooks d
  /\ hook_seq (db (snd (run (post_respond env req) d))) = hook_seq d
  /\ forallb (fun e => negb (is_registry_effect e))
             (trace (snd (run (post_respond env req) d))) = true
  /\ (messages (db (snd (run (post_respond env req) d))) = messages d
      \/ exists row,
           messages (db (snd (run (post_respond env req) d))) = messages d ++ [row]
           /\ title row = "Response" /\ ui row = None
           /\ (scalar (prop req "text") = true -> type row = response)).
Proof.
  destruct (run (post_respond env req) d) as [r w'] eqn:Hrun.
  apply post_respond_shape in Hrun. cbn [snd].
  destruct Hrun as [[-> _] | (row & frame & payload & _ & _ & Hty & Hti & Hui & _ & ->)].
  - cbn. repeat (split; [reflexivity|]). left. reflexivity.
  - cbn [db trace with_msgs subscriptions sub_seq webhooks hook_seq messages].
    repeat (split; [reflexivity|]). split.
    + cbn [forallb is_registry_effect negb andb].
      unfold ws_sends, hook_calls. rewrite forallb_app, andb_true_iff.
      split; apply forallb_forall; intros e He; apply in_map_iff in He;
        destruct He as [x [<- _]]; reflexivity.
    + right. exists row. repeat split; assumption.
Qed.

(** ** Notify, on both channels *)

Lemma post_notify_shape env req d r w' :
  run (post_notify env req) d = (r, w') ->
  (w' = mkWorld d [] /\ forall j, r <> Ret (Replied 200 j))
  \/ (exists row results frame hp,
         r = Ret (Replied 200 (obj [("messageId", Some (JStr (uuidv4 env)));
                                    ("results", Some (results_json results))]))
         /\ msg_id row = uuidv4 env /\ type row = notification
         /\ parentId row = None /\ data row = None /\ sentAt row = now env
         /\ existsb (has_id (uuidv4 env)) (messages d) = false
         /\ w' = mkWorld (dispatched env (notify_payload req (uuidv4 env)) d row)
                         (EvInsertMessage row
                          :: dispatch_trace env (notify_payload req (uuidv4 env)) d
                          ++ ws_sends env frame
                          ++ hook_calls "notification" hp d)).
Proof.
  unfold run, post_notify.
  destruct (negb (truthy (prop req "title")) || negb (truthy (prop req "body"))).
  { unfold ret. intros [= <- <-]. left. split; [reflexivity|]. discriminate. }
  match goal with
  | |- context [insertMessage_run ?e ?i ?t ?b ?ty ?p ?u ?dt] =>
      destruct (insertMessage_run e i t b ty p u dt (mkWorld d [])) as [r0 w0]
        eqn:Hrun;
      pose proof (insertMessage_run_inv _ _ _ _ _ _ _ _ _ Hrun) as Hinv
  end.
  destruct Hinv as [[e [-> ->]]
                   | (t'' & b'' & ty'' & p' & -> & -> & Hbind & Hfresh & _)].
  - erewrite bind_Raise by exact Hrun. intros [= <- <-].
    left. split; [reflexivity|]. discriminate.
  - erewrite bind_Ret by exact Hrun.
    unfold getAllSubs at 1, get_db, ret at 1. unfold bind at 1 2. cbn [db].
    unfold bind at 1. rewrite sendToAll_run.
    unfold bind at 1. rewrite broadcastWs_run.
    unfold bind at 1. rewrite fireWebhooks_run.
    unfold ret. intros [= <- <-]. right. cbn [trace db app].
    apply notification_binding in Hbind. destruct Hbind as (t' & b' & Hbind).
    injection Hbind as _ _ Hty Hp.
    apply (@type_text_inj ty'' notification) in Hty. subst ty'' p'.
    match goal with |- context [EvInsertMessage ?row] => exists row end.
    do 3 eexists. split; [reflexivity|].
    cbn [msg_id type parentId data sentAt]. repeat (split; [reflexivity|]).
    split; [exact Hfresh|].
    unfold dispatched, dispatch_trace, notify_payload.
    rewrite <- !app_assoc. reflexivity.
Qed.

Lemma ws_message_shape env raw d r w' :
  run (ws_message env raw) d = (r, w') ->
  (w' = mkWorld d [])
  \/ (exists msg row frame,
         raw = Some msg /\ r = Ret tt
         /\ prop msg "type" = Some (JStr "notify")
         /\ truthy (prop msg "title") = true /\ truthy (prop msg "body") = true
         /\ msg_id row = uuidv4 env /\ type row = notification
         /\ parentId row = None /\ ui row = None /\ data row = None
         /\ w' = mkWorld (dispatched env (ws_payload msg (uuidv4 env)) d row)
                         (EvInsertMessage row
                          :: dispatch_trace env (ws_payload msg (uuidv4 env)) d
                          ++ ws_sends env frame)).
Proof.
  unfold run, ws_message.
  destruct raw as [msg|]; [|intros [= <- <-]; left; reflexivity].
  destruct msg as [| b | n | s | items | fields];
    try (intros [= <- <-]; left; reflexivity).
  set (msg := JObj fields).
  destruct (prop msg "type") as [[| | |ty| |]|] eqn:Hty;
    try (intros [= <- <-]; left; reflexivity).
  destruct (String.eqb_spec ty "notify") as [->|Hne];
    [|intros [= <- <-]; left; reflexivity].
  destruct (truthy (prop msg "title")) eqn:Ht;
    [|intros [= <- <-]; left; reflexivity].
  destruct (truthy (prop msg "body")) eqn:Hb;
    [|intros [= <- <-]; left; reflexivity].
  cbn [andb].
  match goal with
  | |- context [insertMessage_run ?e ?i ?t ?b ?ty ?p ?u ?dt] =>
      destruct (insertMessage_run e i t b ty p u dt (mkWorld d [])) as [r0 w0]
        eqn:Hrun;
      pose proof (insertMessage_run_inv _ _ _ _ _ _ _ _ _ Hrun) as Hinv
  end.
  destruct Hinv as [[e [-> ->]]
                   | (t'' & b'' & ty'' & p' & -> & -> & Hbind & _ & _)].
  - erewrite bind_Raise by exact Hrun. intros [= <- <-]. left. reflexivity.
  - erewrite bind_Ret by exact Hrun.
    unfold getAllSubs at 1, get_db, ret at 1. unfold bind at 1 2. cbn [db].
    unfold bind at 1. rewrite sendToAll_run.
    rewrite broadcastWs_run.
    intros [= <- <-]. right. cbn [trace db app].
    apply notification_binding in Hbind. destruct Hbind as (t' & b' & Hbind).
    injection Hbind as _ _ Hkind Hp.
    apply (@type_text_inj ty'' notification) in Hkind. subst ty'' p'.
    exists msg.
    match goal with |- context [EvInsertMessage ?row] => exists row end.
    eexists. split; [reflexivity|]. split; [reflexivity|].
    split; [exact Hty|]. split; [exact Ht|]. split; [exact Hb|].
    cbn [msg_id type parentId ui data]. repeat (split; [reflexivity|]).
    unfold dispatched, dispatch_trace, ws_payload.
    rewrite <- !app_assoc. reflexivity.
Qed.

(** X4. A frame on the WebSocket channel never calls a webhook and never
    writes to the webhooks table. A frame that is not an object with type
    "notify" and truthy title and body has no effect at all; one that is
    appends, before any push starts, one notification row without ui and
    without data, or raises before it wrote anything. *)
Theorem ws_notify_is_a_reduced_notify env raw d :
  forallb (fun e => negb (is_fetch e))
          (trace (snd (run (ws_message env raw) d))) = true
  /\ webhooks (db (snd (run (ws_message env raw) d))) = webhooks d
  /\ (snd (run (ws_message env raw) d) = mkWorld d []
      \/ exists msg row rest,
           raw = Some msg
           /\ prop msg "type" = Some (JStr "notify")
           /\ truthy (prop msg "title") = true
           /\ truthy (prop msg "body") = true
           /\ messages (db (snd (run (ws_message env raw) d))) = messages d ++ [row]
           /\ type row = notification /\ ui row = None /\ data row = None
           /\ trace (snd (run (ws_message env raw) d)) = EvInsertMessage row :: rest
           /\ forallb (fun e => negb (is_message_insert e)) rest = true).
Proof.
  destruct (run (ws_message env raw) d) as [r w'] eqn:Hrun.
  apply ws_message_shape in Hrun. cbn [snd].
  destruct Hrun as [-> | (msg & row & frame & -> & _ & Hty & Ht & Hb & _ & Hk
                          & _ & Hui & Hdt & ->)].
  - cbn. repeat (split; [reflexivity|]). left. reflexivity.
  - cbn [db trace dispatched with_subs with_msgs webhooks messages].
    split; [|split; [reflexivity|]].
    + cbn [forallb is_fetch negb andb].
      unfold dispatch_trace, ws_sends. rewrite !forallb_app, !andb_true_iff.
      repeat split; apply forallb_forall; intros e He; apply in_map_iff in He;
        destruct He as [x [<- _]]; reflexivity.
    + right. exists msg, row. eexists.
      repeat (split; [first [assumption | reflexivity]|]).
      unfold dispatch_trace, ws_sends. rewrite !forallb_app, !andb_true_iff.
      repeat split; apply forallb_forall; intros e He; apply in_map_iff in He;
        destruct He as [x [<- _]]; reflexivity.
Qed.

(** ** The message listing *)

Section ListingFacts.
Variable A : Type.

Lemma In_firstn n (l : list A) x : In x (firstn n l) -> In x l.
Proof.
  intros H. rewrite <- (firstn_skipn n l). apply in_or_app. left. exact H.
Qed.

Lemma sorted_app_rel (R : A -> A -> Prop) l1 l2 :
  StronglySorted R (l1 ++ l2) ->
  forall a b, In a l1 -> In b l2 -> R a b.
Proof.
  induction l1 as [|x l1 IH]; simpl; intros Hs a b Ha Hb; [destruct Ha|].
  apply StronglySorted_inv in Hs. destruct Hs as [Hs Hall].
  destruct Ha as [->|Ha]; [|eauto].
  rewrite Forall_forall in Hall. apply Hall, in_or_app. right. exact Hb.
Qed.

Lemma In_firstn_middle n (l1 l2 : list A) x :
  List.length l1 < n -> In x (firstn n (l1 ++ x :: l2)).
Proof.
  intros H. rewrite firstn_app.
  rewrite (firstn_all2 l1) by lia.
  apply in_or_app. right.
  destruct (n - List.length l1) as [|k] eqn:E; [lia|]. left. reflexivity.
Qed.

Lemma firstn_app_short n (l1 l2 : list A) :
  n <= List.length l1 -> firstn n (l1 ++ l2) = firstn n l1.
Proof.
  intros H. rewrite firstn_app.
  replace (n - List.length l1) with 0 by lia. simpl. apply app_nil_r.
Qed.

End ListingFacts.

(** X5. GET /api/messages replies 200 with at most 100 messages, newest
    first, all of them rows of the log; every message of the log it leaves
    out is no more recent than each message it lists, and a log of at most
    100 messages is listed whole. The store is not changed. *)
Theorem message_listing_is_the_newest_hundred d :
  run get_messages d
  = (Ret (Replied 200
            (obj [("messages", Some (JArr (map msg_json (getMessages_all d))))])),
     mkWorld d [])
  /\ List.length (getMessages_all d) <= 100
  /\ newest_first sentAt (getMessages_all d)
  /\ incl (getMessages_all d) (messages d)
  /\ (forall m m', In m (messages d) -> ~ In m (getMessages_all d) ->
                   In m' (getMessages_all d) -> sentAt m <= sentAt m')
  /\ (List.length (messages d) <= 100 ->
      Permutation (getMessages_all d) (messages d)).
Proof.
  unfold getMessages_all.
  set (S := order_by_desc sentAt (messages d)).
  assert (Hperm : Permutation S (messages d)) by apply order_by_desc_perm.
  assert (Hsorted : newest_first sentAt S) by apply order_by_desc_sorted.
  split; [reflexivity|]. split; [apply firstn_le_length|].
  split.
  { unfold newest_first in *. rewrite <- (firstn_skipn 100 S) in Hsorted.
    clear Hperm. revert Hsorted.
    generalize (firstn 100 S) as l1, (skipn 100 S) as l2.
    induction l1 as [|x l1 IH]; simpl; intros l2 Hs; [constructor|].
    apply StronglySorted_inv in Hs. destruct Hs as [Hs Hall].
    constructor; [eapply IH; exact Hs|].
    rewrite Forall_forall in *. intros y Hy. apply Hall, in_or_app. left. exact Hy. }
  split.
  { intros m Hm. apply (Permutation_in _ Hperm). eapply In_firstn. exact Hm. }
  split.
  { intros m m' Hm Hnot Hm'.
    assert (HmS : In m S) by (apply (Permutation_in _ (Permutation_sym Hperm)), Hm).
    rewrite <- (firstn_skipn 100 S) in HmS. apply in_app_or in HmS.
    destruct HmS as [HmS|HmS]; [contradiction|].
    unfold newest_first in Hsorted. rewrite <- (firstn_skipn 100 S) in Hsorted.
    exact (@sorted_app_rel _ _ _ _ Hsorted _ _ Hm' HmS). }
  intros Hlen. rewrite firstn_all2; [exact Hperm|].
  rewrite (Permutation_length Hperm). exact Hlen.
Qed.

(** X6. After a notify request answered 200, the log holds a row with the
    returned messageId, and GET /api/messages lists it exactly when fewer
    than 100 messages of the log before the request carry the current time
    or a later one as sentAt: messages of the same second that were stored
    earlier come first and can crowd it out. *)
Theorem notified_message_is_listed env req d j w' :
  run (post_notify env req) d = (Ret (Replied 200 j), w') ->
  exists row,
    In row (messages (db w')) /\ msg_id row = uuidv4 env
    /\ (In row (getMessages_all (db w'))
        <-> List.length (filter (fun m => Nat.leb (now env) (sentAt m)) (messages d))
            < 100).
Proof.
  intros Hrun. apply post_notify_shape in Hrun.
  destruct Hrun as [[_ Hno] | (row & results & frame & hp & _ & Hid & _ & _ & _
                                & Hat & Hfresh & ->)];
    [elim (Hno j); reflexivity|].
  exists row. cbn [db dispatched with_subs with_msgs messages].
  split; [apply in_or_app; right; left; reflexivity|]. split; [exact Hid|].
  unfold getMessages_all, dispatched, with_subs, with_msgs; cbn [messages].
  rewrite order_by_desc_snoc.
  set (S := order_by_desc sentAt (messages d)).
  assert (Hlen : List.length (not_older sentAt row S)
                 = List.length (filter (fun m => Nat.leb (now env) (sentAt m))
                                       (messages d))).
  { unfold not_older. rewrite Hat. apply filter_length_perm, order_by_desc_perm. }
  rewrite <- Hlen. split.
  - intros Hin.
    destruct (Nat.lt_ge_cases (List.length (not_older sentAt row S)) 100)
      as [|Hge]; [assumption|].
    exfalso. rewrite firstn_app_short in Hin by exact Hge.
    apply In_firstn in Hin. unfold not_older in Hin. apply filter_In in Hin.
    destruct Hin as [Hin _].
    apply (Permutation_in _ (order_by_desc_perm sentAt (messages d))) in Hin.
    apply existsb_has_id_In in Hin. rewrite Hid in Hin. congruence.
  - apply In_firstn_middle.
Qed.

Lemma notified_message_is_listed_witness :
  exists row,
    In row (messages (db (snd (run (post_notify env0 deploy) db_thread))))
    /\ msg_id row = "id-1"
    /\ (In row (getMessages_all (db (snd (run (post_notify env0 deploy) db_thread))))
        <-> List.length (filter (fun m => Nat.leb 100 (sentAt m)) (messages db_thread))
            < 100).
Proof.
  apply (@notified_message_is_listed env0 deploy db_thread
           (obj [("messageId", Some (JStr "id-1"));
                 ("results", Some (results_json (mkResults 0 0 0 [])))])).
  reflexivity.
Defined.

(** ** The log only grows *)

Lemma insertMessage_keeps_log msgs env id t b ty p u dt :
  keeps (extends_log msgs) (insertMessage_run env id t b ty p u dt).
Proof.
  intros w [more Hm].
  destruct (insertMessage_run env id t b ty p u dt w) as [r w'] eqn:Hrun.
  apply insertMessage_run_inv in Hrun.
  destruct Hrun as [[e [_ ->]] | (t'' & b'' & ty'' & p' & _ & -> & _)];
    [exists more; exact Hm|].
  cbn [snd db with_msgs]. unfold extends_log; cbn [messages].
  eexists. rewrite Hm, <- app_assoc. reflexivity.
Qed.

Lemma step_extends_log d ei : extends_log (messages d) (step d ei).
Proof.
  apply step_keeps; intros;
    auto using insertMessage_keeps_log;
    try apply (insertSub_keeps_messages (fun ms => exists more, ms = messages d ++ more));
    try apply (deleteSub_keeps_messages (fun ms => exists more, ms = messages d ++ more));
    try apply (insertWebhook_keeps_messages
                 (fun ms => exists more, ms = messages d ++ more));
    try apply (deleteWebhook_keeps_messages
                 (fun ms => exists more, ms = messages d ++ more)).
  exists []. symmetry. apply app_nil_r.
Qed.

(** X7. The message log is append-only: whatever inputs the server
    handles, in whatever order and with whatever outcome, the log
    afterwards is the log before followed by the new rows; no stored
    message is ever changed, moved or deleted. *)
Theorem log_is_append_only d (inputs : list (Env * Input)) :
  exists more, messages (fold_left step inputs d) = messages d ++ more.
Proof.
  revert d. induction inputs as [|ei inputs IH]; intros d; simpl.
  - exists []. symmetry. apply app_nil_r.
  - destruct (IH (step d ei)) as [more2 H2].
    destruct (step_extends_log d ei) as [more1 H1].
    exists (more1 ++ more2). rewrite H2, H1, app_assoc. reflexivity.
Qed.

(** ** Rows of the registries are replaced, never rewritten *)

Lemma Forall_kept A (P : A -> Prop) (f : A -> bool) l :
  Forall P l -> Forall P (filter f l).
Proof.
  rewrite !Forall_forall. intros H x Hin. apply filter_In in Hin. apply H. tauto.
Qed.

Section RowsKept.
Variable d0 : DB.

Lemma rows_kept_refl : rows_kept_or_new d0 d0.
Proof.
  unfold rows_kept_or_new. repeat split; try lia;
    apply Forall_forall; intros x Hx; left; exact Hx.
Qed.

Lemma insertSub_keeps_rows env e p a :
  keeps (rows_kept_or_new d0) (insertSub_run env e p a).
Proof.
  unfold insertSub_run. keeps_binding.
  intros w Hk; pose proof Hk as (Hs & Hh & Hsub & Hhook). unfold bind, get_db.
  destruct (MAX_ROWID <=? sub_seq (db w))%Z; simpl; [exact Hk|].
  unfold rows_kept_or_new; simpl. repeat split; try lia; try assumption.
  apply Forall_app. split; [apply Forall_kept, Hsub|].
  constructor; [|constructor]. right. simpl. lia.
Qed.

Lemma deleteSub_keeps_rows env e :
  keeps (rows_kept_or_new d0) (deleteSub_run env e).
Proof.
  unfold deleteSub_run. keeps_binding.
  intros w Hk; pose proof Hk as (Hs & Hh & Hsub & Hhook). unfold bind, get_db.
  match goal with |- context [match ?x with _ => _ end] => destruct x end;
    simpl; [|exact Hk].
  unfold rows_kept_or_new; simpl. repeat split; try assumption.
  apply Forall_kept, Hsub.
Qed.

Lemma insertWebhook_keeps_rows env u ev :
  keeps (rows_kept_or_new d0) (insertWebhook_run env u ev).
Proof.
  unfold insertWebhook_run. keeps_binding.
  intros w Hk; pose proof Hk as (Hs & Hh & Hsub & Hhook). unfold bind, get_db.
  destruct (MAX_ROWID <=? hook_seq (db w))%Z; simpl; [exact Hk|].
  unfold rows_kept_or_new; simpl. repeat split; try lia; try assumption.
  apply Forall_app. split; [apply Forall_kept, Hhook|].
  constructor; [|constructor]. right. simpl. lia.
Qed.

Lemma deleteWebhook_keeps_rows env u :
  keeps (rows_kept_or_new d0) (deleteWebhook_run env u).
Proof.
  unfold deleteWebhook_run. keeps_binding.
  intros w Hk; pose proof Hk as (Hs & Hh & Hsub & Hhook). unfold bind, get_db.
  match goal with |- context [match ?x with _ => _ end] => destruct x end;
    simpl; [|exact Hk].
  unfold rows_kept_or_new; simpl. repeat split; try assumption.
  apply Forall_kept, Hhook.
Qed.

Lemma insertMessage_keeps_rows env id t b ty p u dt :
  keeps (rows_kept_or_new d0) (insertMessage_run env id t b ty p u dt).
Proof.
  intros w Hk.
  destruct (insertMessage_run env id t b ty p u dt w) as [r w'] eqn:Hrun.
  apply insertMessage_run_inv in Hrun.
  destruct Hrun as [[e [_ ->]] | (t'' & b'' & ty'' & p' & _ & -> & _)]; exact Hk.
Qed.

Lemma step_keeps_rows ei : rows_kept_or_new d0 (step d0 ei).
Proof.
  apply step_keeps; intros;
    auto using insertSub_keeps_rows, deleteSub_keeps_rows,
      insertWebhook_keeps_rows, deleteWebhook_keeps_rows,
      insertMessage_keeps_rows, rows_kept_refl.
Qed.

End RowsKept.

(** X8. No input rewrites a row of the subscriptions or webhooks table in
    place or reuses a rowid: after any input, each row of either table is a
    row the table held before, unchanged, or a new row whose id is greater
    than every id the table held before. *)
Theorem registry_rows_are_kept_or_new d env i :
  db_ok d ->
  (forall s', In s' (subscriptions (step d (env, i))) ->
              In s' (subscriptions d)
              \/ forall s, In s (subscriptions d) -> (sub_id s < sub_id s')%Z)
  /\ (forall h', In h' (webhooks (step d (env, i))) ->
                 In h' (webhooks d)
                 \/ forall h, In h (webhooks d) -> (hook_id h < hook_id h')%Z).
Proof.
  intros ((_ & _ & Hsb & _) & (_ & _ & Hhb & _) & _).
  destruct (step_keeps_rows d (env, i)) as (_ & _ & Hs & Hh).
  rewrite Forall_forall in *. split.
  - intros s' Hin. destruct (Hs s' Hin) as [H|H]; [left; exact H|].
    right. intros s Hs0. specialize (Hsb s Hs0). lia.
  - intros h' Hin. destruct (Hh h' Hin) as [H|H]; [left; exact H|].
    right. intros h Hh0. specialize (Hhb h Hh0). lia.
Qed.

Lemma registry_rows_are_kept_or_new_witness :
  (forall s', In s' (subscriptions
                       (step db_ab (env0, Http (mkReq POST_subscribe bearer None
                                                      resubscribe_a)))) ->
              In s' (subscriptions db_ab)
              \/ forall s, In s (subscriptions db_ab) -> (sub_id s < sub_id s')%Z)
  /\ (forall h', In h' (webhooks
                          (step db_ab (env0, Http (mkReq POST_subscribe bearer None
                                                         resubscribe_a)))) ->
                 In h' (webhooks db_ab)
                 \/ forall h, In h (webhooks db_ab) -> (hook_id h < hook_id h')%Z).
Proof.
  apply (@registry_rows_are_kept_or_new db_ab env0
           (Http (mkReq POST_subscribe bearer None resubscribe_a)) db_ab_ok).
Defined.

(** ** The webhook registry *)

Lemma insertWebhook_run_ok env u e w :
  (hook_seq (db w) < MAX_ROWID)%Z ->
  let row := mkHook (hook_seq (db w) + 1) u e (now env) in
  insertWebhook_run env (Some (JStr u)) (Some (JStr e)) w
  = (Ret tt, mkWorld (hook_upserted (db w) row) (trace w ++ [EvInsertWebhook row])).
Proof.
  intros Hseq row. apply Z.leb_gt in Hseq.
  unfold insertWebhook_run, bind, lift, not_null, ret, get_db, put_db, emit.
  cbn -[Z.leb MAX_ROWID Z.add filter hook_upserted]. rewrite Hseq. reflexivity.
Qed.

Lemma hook_upserted_ok d row :
  db_ok d -> hook_id row = (hook_seq d + 1)%Z -> db_ok (hook_upserted d row).
Proof.
  intros (Hs & Hh & Hm) Hid. split; [assumption|]. split; [|assumption].
  apply (@table_ok_replace _ hook_id url _ _ row Hh Hid).
Qed.

Lemma hook_upserted_rows d row h :
  In h (webhooks (hook_upserted d row))
  <-> (In h (webhooks d) /\ url h <> url row) \/ h = row.
Proof.
  unfold hook_upserted; cbn [webhooks]. rewrite in_app_iff, filter_In.
  unfold has_url. simpl.
  destruct (String.eqb_spec (url h) (url row)); simpl; intuition congruence.
Qed.

Lemma hook_deleted_rows d u h :
  In h (webhooks (hook_deleted d u)) <-> In h (webhooks d) /\ url h <> u.
Proof.
  unfold hook_deleted; cbn [webhooks]. rewrite filter_In. unfold has_url.
  destruct (String.eqb_spec (url h) u); simpl; intuition congruence.
Qed.

Lemma post_webhooks_run env req d u e :
  prop req "url" = Some (JStr u) -> nonempty u = true ->
  (if truthy (prop req "events") then prop req "events" else Some (JStr "response"))
  = Some (JStr e) ->
  (hook_seq d < MAX_ROWID)%Z ->
  let row := mkHook (hook_seq d + 1) u e (now env) in
  run (post_webhooks env req) d
  = (Ret (Replied 200 ok_json),
     mkWorld (hook_upserted d row) [EvInsertWebhook row]).
Proof.
  intros Hu Hnu He Hseq row.
  unfold run, post_webhooks. rewrite Hu, He. cbn [truthy]. rewrite Hnu.
  cbn [negb].
  erewrite bind_Ret by (apply insertWebhook_run_ok; exact Hseq).
  reflexivity.
Qed.

Lemma delete_webhooks_run env req d u :
  prop req "url" = Some (JStr u) -> nonempty u = true ->
  run (delete_webhooks env req) d
  = (Ret (Replied 200 ok_json), mkWorld (hook_deleted d u) [EvDeleteWebhook u]).
Proof.
  intros Hu Hnu. unfold run, delete_webhooks. rewrite Hu. cbn [truthy].
  rewrite Hnu. reflexivity.
Qed.

(** No request goes to a URL that no webhook row carries. *)
Lemma no_hook_no_fetch d u :
  (forall h, In h (webhooks d) -> url h <> u) ->
  (forall env req p,
      ~ In (EvFetch u p) (trace (snd (run (post_notify env req) d))))
  /\ (forall env req p,
         ~ In (EvFetch u p) (trace (snd (run (post_respond env req) d)))).
Proof.
  intros Hnone.
  assert (Hcalls : forall k payload p, ~ In (EvFetch u p) (hook_calls k payload d)).
  { intros k payload p Hin. apply in_hook_calls in Hin.
    destruct Hin as [_ [h [Hin [Hu _]]]]. exact (Hnone h Hin Hu). }
  split; intros env req p Hfetch.
  - destruct (run (post_notify env req) d) as [r w'] eqn:Hrun.
    apply post_notify_cases in Hrun. cbn [snd] in Hfetch.
    destruct Hrun as [[Htr _] | (tr & payload & j & _ & Htr & Hnf)];
      rewrite Htr in Hfetch; [destruct Hfetch|].
    apply in_app_or in Hfetch. destruct Hfetch as [Hfetch|Hfetch].
    + rewrite Forall_forall in Hnf. apply (Hnf _ Hfetch).
    + exact (Hcalls _ _ _ Hfetch).
  - destruct (run (post_respond env req) d) as [r w'] eqn:Hrun.
    apply post_respond_cases in Hrun. cbn [snd] in Hfetch.
    destruct Hrun as [[Htr _] | (tr & payload & j & _ & Htr & Hnf)];
      rewrite Htr in Hfetch; [destruct Hfetch|].
    apply in_app_or in Hfetch. destruct Hfetch as [Hfetch|Hfetch].
    + rewrite Forall_forall in Hnf. apply (Hnf _ Hfetch).
    + exact (Hcalls _ _ _ Hfetch).
Qed.

(** X9. A webhook registered without an events field (or with a falsy
    one) is stored with events "response": from then on every respond
    request answered 200 sends it a request, and no notify request ever
    does. *)
Theorem webhook_without_events_gets_responses_only env req d u :
  db_ok d ->
  prop req "url" = Some (JStr u) -> nonempty u = true ->
  truthy (prop req "events") = false ->
  (hook_seq d < MAX_ROWID)%Z ->
  exists w' h,
    run (post_webhooks env req) d = (Ret (Replied 200 ok_json), w')
    /\ In h (webhooks (db w')) /\ url h = u /\ events h = "response"
    /\ (forall env' req' j w'',
           run (post_respond env' req') (db w') = (Ret (Replied 200 j), w'') ->
           exists p, In (EvFetch u p) (trace w''))
    /\ (forall env' req' p,
           ~ In (EvFetch u p) (trace (snd (run (post_notify env' req') (db w'))))).
Proof.
  intros Hok Hu Hnu Hev Hseq.
  assert (He : (if truthy (prop req "events") then prop req "events"
                else Some (JStr "response")) = Some (JStr "response"))
    by (rewrite Hev; reflexivity).
  rewrite (@post_webhooks_run env req d u "response" Hu Hnu He Hseq).
  set (row := mkHook (hook_seq d + 1) u "response" (now env)).
  assert (Hok' : db_ok (hook_upserted d row))
    by (apply hook_upserted_ok; [exact Hok|reflexivity]).
  assert (Hin : In row (webhooks (hook_upserted d row)))
    by (apply hook_upserted_rows; right; reflexivity).
  exists (mkWorld (hook_upserted d row) [EvInsertWebhook row]), row.
  split; [reflexivity|]. cbn [db].
  split; [exact Hin|]. split; [reflexivity|]. split; [reflexivity|].
  split.
  - intros env' req' j w'' Hrun. apply post_respond_cases in Hrun.
    destruct Hrun as [[_ Hno] | (tr & payload & j' & _ & Htr & _)];
      [elim (Hno j); reflexivity|].
    exists (Stringify payload). rewrite Htr. apply in_or_app. right.
    apply in_hook_calls. split; [reflexivity|]. exists row.
    split; [exact Hin|]. split; reflexivity.
  - intros env' req' p Hfetch.
    destruct (run (post_notify env' req') (hook_upserted d row)) as [r w''] eqn:Hrun.
    apply post_notify_cases in Hrun. cbn [snd] in Hfetch.
    destruct Hrun as [[Htr _] | (tr & payload & j & _ & Htr & Hnf)];
      rewrite Htr in Hfetch; [destruct Hfetch|].
    apply in_app_or in Hfetch. destruct Hfetch as [Hfetch|Hfetch].
    + rewrite Forall_forall in Hnf. apply (Hnf _ Hfetch).
    + apply in_hook_calls in Hfetch. destruct Hfetch as [_ [h' [Hin' [Hu' Hm]]]].
      assert (h' = row)
        by (eapply NoDup_map_inj; eauto using db_ok_urls). subst h'.
      discriminate Hm.
Qed.

Lemma webhook_without_events_gets_responses_only_witness :
  exists w' h,
    run (post_webhooks env0 register_plain) db_hooks = (Ret (Replied 200 ok_json), w')
    /\ In h (webhooks (db w')) /\ url h = "https://hooks/new"
    /\ events h = "response"
    /\ (forall env' req' j w'',
           run (post_respond env' req') (db w') = (Ret (Replied 200 j), w'') ->
           exists p, In (EvFetch "https://hooks/new" p) (trace w''))
    /\ (forall env' req' p,
           ~ In (EvFetch "https://hooks/new" p)
                (trace (snd (run (post_notify env' req') (db w'))))).
Proof.
  apply (@webhook_without_events_gets_responses_only env0 register_plain db_hooks
           "https://hooks/new" db_hooks_ok); reflexivity.
Defined.

(** X10. Registering a URL again replaces its events filter: the table
    then holds one row for that URL, with the new filter and a new id, and
    every other webhook is untouched. Deleting a URL removes its row and
    nothing else, after which no notify or respond request sends it a
    request; deleting a URL that is not registered changes no row. A
    request without url is answered 400 by both routes and changes
    nothing. *)
Theorem webhook_upsert_and_delete :
  (forall env req d u e,
      db_ok d ->
      prop req "url" = Some (JStr u) -> nonempty u = true ->
      prop req "events" = Some (JStr e) -> nonempty e = true ->
      (hook_seq d < MAX_ROWID)%Z ->
      exists w' h,
        run (post_webhooks env req) d = (Ret (Replied 200 ok_json), w')
        /\ filter (has_url u) (webhooks (db w')) = [h]
        /\ events h = e /\ hook_id h = (hook_seq d + 1)%Z
        /\ NoDup (map url (webhooks (db w')))
        /\ (forall h', url h' <> u ->
                       (In h' (webhooks (db w')) <-> In h' (webhooks d))))
  /\ (forall env req d u,
         prop req "url" = Some (JStr u) -> nonempty u = true ->
         exists w',
           run (delete_webhooks env req) d = (Ret (Replied 200 ok_json), w')
           /\ (forall h, In h (webhooks (db w'))
                         <-> In h (webhooks d) /\ url h <> u)
           /\ ((forall h, In h (webhooks d) -> url h <> u) -> db w' = d)
           /\ (forall env' req' p,
                  ~ In (EvFetch u p)
                       (trace (snd (run (post_notify env' req') (db w')))))
           /\ (forall env' req' p,
                  ~ In (EvFetch u p)
                       (trace (snd (run (post_respond env' req') (db w'))))))
  /\ (forall env req d,
         truthy (prop req "url") = false ->
         run (post_webhooks env req) d
         = (Ret (Replied 400 (error_json "url required")), mkWorld d [])
         /\ run (delete_webhooks env req) d
            = (Ret (Replied 400 (error_json "url required")), mkWorld d [])).
Proof.
  split; [|split].
  - intros env req d u e Hok Hu Hnu He Hne Hseq.
    assert (He' : (if truthy (prop req "events") then prop req "events"
                   else Some (JStr "response")) = Some (JStr e))
      by (rewrite He; cbn [truthy]; rewrite Hne; reflexivity).
    rewrite (@post_webhooks_run env req d u e Hu Hnu He' Hseq).
    set (row := mkHook (hook_seq d + 1) u e (now env)).
    exists (mkWorld (hook_upserted d row) [EvInsertWebhook row]), row.
    split; [reflexivity|]. cbn [db]. split.
    { unfold hook_upserted; cbn [webhooks]. rewrite filter_app. simpl.
      unfold has_url at 3. cbn [url]. rewrite String.eqb_refl.
      rewrite filter_none; [reflexivity|].
      intros x Hx. apply filter_In in Hx. destruct Hx as [_ Hx].
      destruct (has_url u x); [discriminate|reflexivity]. }
    split; [reflexivity|]. split; [reflexivity|].
    split; [apply db_ok_urls, hook_upserted_ok; [exact Hok|reflexivity]|].
    intros h' Hne'. rewrite hook_upserted_rows. cbn [url]. split.
    + intros [[H _]|H]; [exact H|]. subst h'. elim Hne'. reflexivity.
    + intros H. left. split; assumption.
  - intros env req d u Hu Hnu.
    rewrite (@delete_webhooks_run env req d u Hu Hnu).
    eexists. split; [reflexivity|]. cbn [db].
    split; [intros h; apply hook_deleted_rows|].
    split.
    { intros Hnone. unfold hook_deleted.
      rewrite forallb_filter_id.
      - destruct d; reflexivity.
      - apply forallb_forall. intros h Hh. unfold has_url.
        destruct (String.eqb_spec (url h) u) as [Heq|]; [|reflexivity].
        elim (Hnone h Hh Heq). }
    apply no_hook_no_fetch. intros h Hh. apply hook_deleted_rows in Hh. tauto.
  - intros env req d Hu. unfold run, post_webhooks, delete_webhooks.
    rewrite Hu. split; reflexivity.
Qed.

Lemma webhook_upsert_and_delete_witness :
  (exists w' h,
      run (post_webhooks env0 register_n_as_response) db_hooks
      = (Ret (Replied 200 ok_json), w')
      /\ filter (has_url "https://hooks/n") (webhooks (db w')) = [h]
      /\ events h = "response" /\ hook_id h = 4%Z
      /\ NoDup (map url (webhooks (db w')))
      /\ (forall h', url h' <> "https://hooks/n" ->
                     (In h' (webhooks (db w')) <-> In h' (webhooks db_hooks))))
  /\ (exists w',
         run (delete_webhooks env0 unregister_all) db_hooks
         = (Ret (Replied 200 ok_json), w')
         /\ (forall h, In h (webhooks (db w'))
                       <-> In h (webhooks db_hooks) /\ url h <> "https://hooks/all")
         /\ ((forall h, In h (webhooks db_hooks) -> url h <> "https://hooks/all") ->
             db w' = db_hooks)
         /\ (forall env' req' p,
                ~ In (EvFetch "https://hooks/all" p)
                     (trace (snd (run (post_notify env' req') (db w')))))
         /\ (forall env' req' p,
                ~ In (EvFetch "https://hooks/all" p)
                     (trace (snd (run (post_respond env' req') (db w'))))))
  /\ (run (post_webhooks env0 (JObj [])) db_hooks
      = (Ret (Replied 400 (error_json "url required")), mkWorld db_hooks [])
      /\ run (delete_webhooks env0 (JObj [])) db_hooks
         = (Ret (Replied 400 (error_json "url required")), mkWorld db_hooks [])).
Proof.
  destruct webhook_upsert_and_delete as (Hup & Hdel & Hbad).
  split; [|split].
  - apply (Hup env0 register_n_as_response db_hooks "https://hooks/n" "response"
               db_hooks_ok); reflexivity.
  - apply (Hdel env0 unregister_all db_hooks "https://hooks/all"); reflexivity.
  - apply (Hbad env0 (JObj []) db_hooks). reflexivity.
Defined.

(** ** Strings *)

Lemma length_append (a b : string) :
  String.length (a ++ b)%string = String.length a + String.length b.
Proof. induction a as [|c a IH]; simpl; [reflexivity|]. now rewrite IH. Qed.

Lemma length_slice0 n s : String.length (slice0 n s) = Nat.min n (String.length s).
Proof.
  unfold slice0. revert s. induction n as [|n IH]; intros s.
  - destruct s; reflexivity.
  - destruct s as [|c s]; simpl; [reflexivity|]. now rewrite IH.
Qed.

Lemma slice0_short n s : String.length s <= n -> slice0 n s = s.
Proof.
  unfold slice0. revert s. induction n as [|n IH]; intros s H.
  - destruct s; [reflexivity|simpl in H; lia].
  - destruct s as [|c s]; simpl in *; [reflexivity|]. rewrite IH by lia. reflexivity.
Qed.

Lemma slice0_prefix n s : String.prefix (slice0 n s) s = true.
Proof.
  unfold slice0. revert s. induction n as [|n IH]; intros s.
  - destruct s; reflexivity.
  - destruct s as [|c s]; simpl; [reflexivity|].
    destruct (ascii_dec c c) as [_|H]; [apply IH|elim H; reflexivity].
Qed.

(** ** The error list of the delivery summary *)

Lemma errors_length env payload l :
  List.length (flat_map (attempt_error env payload None) l)
  = count (fun s => negb (attempt_ok env payload None s)) l.
Proof.
  unfold count. induction l as [|sub l IH]; [reflexivity|].
  cbn [flat_map filter].
  case_attempt env payload (@None nat) sub; cbn [negb app List.length];
    rewrite IH; reflexivity.
Qed.

Lemma errors_In env payload l e :
  In e (flat_map (attempt_error env payload None) l)
  <-> exists s st b,
        In s l /\ sendNotification env (pushSub s) payload None = PushErr st b
        /\ e = mkErr st b (slice0 60 (endpoint s) ++ "...")%string.
Proof.
  rewrite in_flat_map. split.
  - intros [s [Hin He]]. unfold attempt_error in He.
    destruct (sendNotification env (pushSub s) payload None) as [|st b] eqn:E;
      [destruct He|].
    destruct He as [<-|[]]. exists s, st, b. auto.
  - intros (s & st & b & Hin & E & ->). exists s. split; [exact Hin|].
    unfold attempt_error. rewrite E. left. reflexivity.
Qed.

(** X11. The errors list of a delivery summary has one entry per failed
    attempt and none for a successful one. An entry carries the status and
    body the transport reported and, instead of the endpoint, its first 60
    characters followed by "...": an endpoint of at most 60 characters
    appears whole, and no entry is longer than 63 characters. *)
Theorem dispatch_errors_are_truncated env subs payload d :
  Permutation subs (settle env subs) ->
  exists r w',
    run (sendToAll env subs payload) d = (Ret r, w')
    /\ List.length (errors r) = failed r
    /\ (forall e, In e (errors r) ->
          exists s,
            In s subs
            /\ sendNotification env (pushSub s) payload None
               = PushErr (err_status e) (err_body e)
            /\ err_endpoint e = (slice0 60 (endpoint s) ++ "...")%string
            /\ String.prefix (slice0 60 (endpoint s)) (endpoint s) = true
            /\ String.length (err_endpoint e)
               = Nat.min 60 (String.length (endpoint s)) + 3
            /\ (String.length (endpoint s) <= 60 ->
                err_endpoint e = (endpoint s ++ "...")%string))
    /\ (forall s st b,
          In s subs ->
          sendNotification env (pushSub s) payload None = PushErr st b ->
          In (mkErr st b (slice0 60 (endpoint s) ++ "...")%string) (errors r)).
Proof.
  intros Hperm. unfold run. rewrite sendToAll_run.
  do 2 eexists. split; [reflexivity|]. cbn [errors failed].
  split; [apply errors_length|]. split.
  - intros e He. apply errors_In in He.
    destruct He as (s & st & b & Hin & E & ->). exists s. cbn.
    split; [eapply Permutation_in; [symmetry|]; eassumption|].
    split; [exact E|]. split; [reflexivity|].
    split; [apply slice0_prefix|].
    split; [rewrite length_append, length_slice0; reflexivity|].
    intros Hshort. rewrite slice0_short by exact Hshort. reflexivity.
  - intros s st b Hin E. apply errors_In. exists s, st, b.
    split; [eapply Permutation_in; eassumption|]. auto.
Qed.

Lemma dispatch_errors_are_truncated_witness :
  exists r w',
    run (sendToAll env_down [sub_long; sub_a] (Stringify (JStr "hello"))) db_ab
    = (Ret r, w')
    /\ List.length (errors r) = failed r
    /\ (forall e, In e (errors r) ->
          exists s,
            In s [sub_long; sub_a]
            /\ sendNotification env_down (pushSub s) (Stringify (JStr "hello")) None
               = PushErr (err_status e) (err_body e)
            /\ err_endpoint e = (slice0 60 (endpoint s) ++ "...")%string
            /\ String.prefix (slice0 60 (endpoint s)) (endpoint s) = true
            /\ String.length (err_endpoint e)
               = Nat.min 60 (String.length (endpoint s)) + 3
            /\ (String.length (endpoint s) <= 60 ->
                err_endpoint e = (endpoint s ++ "...")%string))
    /\ (forall s st b,
          In s [sub_long; sub_a] ->
          sendNotification env_down (pushSub s) (Stringify (JStr "hello")) None
          = PushErr st b ->
          In (mkErr st b (slice0 60 (endpoint s) ++ "...")%string) (errors r)).
Proof.
  apply (@dispatch_errors_are_truncated env_down [sub_long; sub_a]
           (Stringify (JStr "hello")) db_ab).
  apply Permutation_refl.
Defined.

Example dispatch_errors_sample :
  map err_endpoint
      (flat_map (attempt_error env_down (Stringify (JStr "hello")) None)
                [sub_long; sub_a])
  = ["https://push.example.org/wpush/v2/gAAAAABl0123456789abcdefgh...";
     "https://push/a..."].
Proof. reflexivity. Qed.

(** ** Frames to the WebSocket clients *)

Section Silent.

Lemma silent_ret A (a : A) : sends_no_frame (ret a).
Proof. intros w; reflexivity. Qed.

Lemma silent_raise A e : sends_no_frame (@raise A e).
Proof. intros w; reflexivity. Qed.

Lemma silent_get_db : sends_no_frame get_db.
Proof. intros w; reflexivity. Qed.

Lemma silent_put_db d : sends_no_frame (put_db d).
Proof. intros w; reflexivity. Qed.

Lemma silent_emit e : is_ws_send e = false -> sends_no_frame (emit e).
Proof.
  intros He w. unfold emit; cbn [snd trace].
  rewrite filter_app; cbn [filter]. rewrite He. apply app_nil_r.
Qed.

Lemma silent_bind A B (m : M A) (k : A -> M B) :
  sends_no_frame m -> (forall a, sends_no_frame (k a)) -> sends_no_frame (bind m k).
Proof.
  intros Hm Hk w. unfold bind. specialize (Hm w).
  destruct (m w) as [[a|e] w']; cbn [snd] in *; [rewrite Hk|]; exact Hm.
Qed.

Lemma silent_lift A (r : Res A) : sends_no_frame (lift r).
Proof. intros w; reflexivity. Qed.

Lemma silent_not_null c : sends_no_frame (not_null c).
Proof. destruct c; [apply silent_ret | apply silent_raise]. Qed.

End Silent.

Ltac silent_step :=
  match goal with
  | |- sends_no_frame (bind _ _) => apply silent_bind; [|intros ?]
  | |- sends_no_frame (ret _) => apply silent_ret
  | |- sends_no_frame (raise _) => apply silent_raise
  | |- sends_no_frame get_db => apply silent_get_db
  | |- sends_no_frame (put_db _) => apply silent_put_db
  | |- sends_no_frame (emit _) => apply silent_emit; reflexivity
  | |- sends_no_frame (lift _) => apply silent_lift
  | |- sends_no_frame (not_null _) => apply silent_not_null
  | |- sends_no_frame (if ?c then _ else _) => destruct c
  | |- sends_no_frame (match ?x with _ => _ end) => destruct x
  end.

Lemma insertSub_silent env e p a : sends_no_frame (insertSub_run env e p a).
Proof. unfold insertSub_run. repeat silent_step. Qed.

Lemma deleteSub_silent env e : sends_no_frame (deleteSub_run env e).
Proof. unfold deleteSub_run. repeat silent_step. Qed.

Lemma ws_sends_are_frames env data :
  filter is_ws_send (ws_sends env data) = ws_sends env data.
Proof.
  unfold ws_sends. induction (filter _ (clients env)) as [|c cs IH];
    [reflexivity|]. cbn [map filter is_ws_send]. rewrite IH. reflexivity.
Qed.

Lemma no_frame_in_map A (f : A -> Event) l :
  (forall x, is_ws_send (f x) = false) -> filter is_ws_send (map f l) = [].
Proof.
  intros Hf. induction l as [|x l IH]; [reflexivity|].
  cbn [map filter]. rewrite Hf. exact IH.
Qed.

(** The purge route, step by step: the probes are started in listing order,
    the gone endpoints are deleted as the probes settle, the count is
    broadcast and the reply sent. *)
Lemma post_purge_run env d :
  let order := settle env (getAllSubs_all d) in
  let left := prune (gone_endpoints env probe (Some 0) order) (subscriptions d) in
  run (post_purge env) d
  = (Ret (purge_reply (count (attempt_gone env probe (Some 0)) order)
                      (List.length left)),
     mkWorld (with_subs d left)
             (map (fun s => EvPush (pushSub s) probe (Some 0)) (getAllSubs_all d)
              ++ map EvDeleteSub (gone_endpoints env probe (Some 0) order)
              ++ ws_sends env (count_frame (List.length left)))).
Proof.
  intros order left. unfold run, post_purge.
  unfold getAllSubs at 1, get_db, ret at 1. unfold bind at 1 2. cbn [db].
  erewrite bind_Ret by apply forEach_emit.
  unfold bind at 1. rewrite probe_all_run.
  unfold getSubCount, get_db, ret at 1 2. unfold bind at 1 2.
  unfold bind at 1. rewrite broadcastWs_run.
  unfold bind, ret, purge_reply, count_frame.
  cbn [db trace with_subs subscriptions getSubCount_get app].
  rewrite Nat.add_0_l, <- app_assoc. reflexivity.
Qed.

(** X12. The subscribe, unsubscribe and purge routes tell the WebSocket
    clients the size of the registry: when the request is answered with
    200, every open client is sent exactly one frame, of type subscription,
    whose count is the number of subscriptions in the store once the
    request is done; a request that is refused (401, 400) or that raises
    sends no frame at all. *)
Theorem count_frames_follow_the_registry env req d out w' :
  registry_route (route req) = true ->
  run (http env req) d = (out, w') ->
  filter is_ws_send (trace w')
  = if succeeded out
    then ws_sends env (count_frame (List.length (subscriptions (db w'))))
    else [].
Proof.
  intros Hroute. unfold http.
  destruct (checkAuth env req); cbn [negb];
    [|intros H; injection H as <- <-; reflexivity].
  destruct (route req); try discriminate Hroute.
  - unfold run, post_subscribe.
    match goal with |- context [if ?c then _ else _] => destruct c end;
      [intros H; injection H as <- <-; reflexivity|].
    unfold bind at 1.
    match goal with |- context [insertSub_run ?e ?a ?b ?c ?w] =>
      pose proof (@insertSub_silent e a b c w) as Hs;
      destruct (insertSub_run e a b c w) as [[[]|x] w1]
    end; cbn [snd trace filter] in Hs.
    + unfold getSubCount, get_db, ret at 1. unfold bind at 1 2.
      unfold bind at 1. rewrite broadcastWs_run. unfold ret.
      intros H; injection H as <- <-. cbn [succeeded Nat.eqb db trace].
      rewrite filter_app, Hs, ws_sends_are_frames. reflexivity.
    + intros H; injection H as <- <-. exact Hs.
  - unfold run, delete_subscribe.
    match goal with |- context [if ?c then _ else _] => destruct c end;
      [intros H; injection H as <- <-; reflexivity|].
    unfold bind at 1.
    match goal with |- context [deleteSub_run ?e ?a ?w] =>
      pose proof (@deleteSub_silent e a w) as Hs;
      destruct (deleteSub_run e a w) as [[[]|x] w1]
    end; cbn [snd trace filter] in Hs.
    + unfold getSubCount, get_db, ret at 1. unfold bind at 1 2.
      unfold bind at 1. rewrite broadcastWs_run. unfold ret.
      intros H; injection H as <- <-. cbn [succeeded Nat.eqb db trace].
      rewrite filter_app, Hs, ws_sends_are_frames. reflexivity.
    + intros H; injection H as <- <-. exact Hs.
  - rewrite post_purge_run. intros H; injection H as <- <-.
    cbn [succeeded purge_reply Nat.eqb db trace with_subs subscriptions].
    rewrite !filter_app, ws_sends_are_frames.
    rewrite !no_frame_in_map by reflexivity. reflexivity.
Qed.

Lemma count_frames_follow_the_registry_witness :
  filter is_ws_send (trace (snd (run (http env1 purge_request) db_abc)))
  = [EvWsSend 1 (Stringify (count_frame 2))].
Proof.
  exact (@count_frames_follow_the_registry env1 purge_request db_abc
           (fst (run (http env1 purge_request) db_abc))
           (snd (run (http env1 purge_request) db_abc))
           eq_refl eq_refl).
Defined.

(** ** Purging twice *)

Lemma settled_rows env d :
  (forall l, Permutation l (settle env l)) ->
  Permutation (settle env (getAllSubs_all d)) (subscriptions d).
Proof.
  intros Hsettle. rewrite <- Hsettle. apply order_by_desc_perm.
Qed.

(** X13. A purge that follows a purge removes nothing, the push service
    answering each probe as before: it replies removed 0 with the same
    remaining count, deletes no subscription and leaves the store as the
    first purge left it. *)
Theorem purge_twice_removes_nothing env d :
  db_ok d ->
  (forall l, Permutation l (settle env l)) ->
  exists tr,
    run (post_purge env) (db (snd (run (post_purge env) d)))
    = (Ret (purge_reply 0 (List.length
                             (subscriptions (db (snd (run (post_purge env) d)))))),
       mkWorld (db (snd (run (post_purge env) d))) tr)
    /\ filter is_delete_sub tr = []
    /\ List.length (filter is_ws_send tr)
       = List.length (filter (fun c : nat * nat => Nat.eqb (snd c) 1) (clients env)).
Proof.
  intros ((Hu & _) & _) Hsettle.
  rewrite (post_purge_run env d). cbn [snd db].
  set (d1 := with_subs d _).
  assert (Hleft : subscriptions d1
                  = filter (fun s => negb (attempt_gone env probe (Some 0) s))
                           (subscriptions d)).
  { unfold d1, gone_endpoints. cbn [with_subs subscriptions].
    apply prune_all; [exact Hu|apply settled_rows, Hsettle]. }
  assert (Hnone : filter (attempt_gone env probe (Some 0))
                         (settle env (getAllSubs_all d1)) = []).
  { apply filter_none. intros s Hs.
    eapply Permutation_in in Hs; [|apply settled_rows, Hsettle].
    rewrite Hleft in Hs. apply filter_In in Hs. destruct Hs as [_ Hs].
    apply negb_true_iff in Hs. exact Hs. }
  rewrite (post_purge_run env d1).
  unfold gone_endpoints, count. rewrite Hnone. cbn [map List.length app].
  rewrite prune_nil, with_subs_same.
  eexists. split; [reflexivity|]. split.
  - rewrite filter_app. rewrite (@filter_none _ is_delete_sub (map _ _)).
    + unfold ws_sends. apply filter_none. intros e He.
      apply in_map_iff in He. destruct He as [c [<- _]]. reflexivity.
    + intros e He. apply in_map_iff in He. destruct He as [s [<- _]]. reflexivity.
  - rewrite filter_app, no_frame_in_map by reflexivity.
    rewrite ws_sends_are_frames. unfold ws_sends. apply length_map.
Qed.

Lemma purge_twice_removes_nothing_witness :
  exists tr,
    run (post_purge env1) (db (snd (run (post_purge env1) db_abc)))
    = (Ret (purge_reply 0 (List.length
                             (subscriptions (db (snd (run (post_purge env1) db_abc)))))),
       mkWorld (db (snd (run (post_purge env1) db_abc))) tr)
    /\ filter is_delete_sub tr = []
    /\ List.length (filter is_ws_send tr)
       = List.length (filter (fun c : nat * nat => Nat.eqb (snd c) 1) (clients env1)).
Proof.
  apply (@purge_twice_removes_nothing env1 db_abc db_abc_ok).
  intros l. apply Permutation_rev.
Defined.

Example purge_twice_sample :
  subscriptions (db (snd (run (post_purge env1) db_abc))) = [sub_b; sub_c]
  /\ fst (run (post_purge env1) (db (snd (run (post_purge env1) db_abc))))
     = Ret (purge_reply 0 2).
Proof. split; reflexivity. Qed.

(** ** Access control *)









(** ** The VAPID keys across restarts *)

Lemma loadVapidKeys_keeps_file penv gen stored :
  snd (loadVapidKeys penv gen (Some stored)) = Some stored.
Proof.
  unfold loadVapidKeys. destruct (env_full penv); [reflexivity|].
  destruct stored; reflexivity.
Qed.

Lemma restarts_keep_file starts : forall stored,
  restarts (Some stored) starts = Some stored.
Proof.
  unfold restarts. induction starts as [|s starts IH]; intros stored;
    [reflexivity|].
  cbn [fold_left]. rewrite loadVapidKeys_keeps_file. apply IH.
Qed.

(** X15. The first start without a vapid.json (and without the three
    variables) generates a key pair and writes the file; from then on no
    start changes the file, and every start that does not carry the three
    variables reports the generated key pair again, whatever
    generateVAPIDKeys would return now. The subject is VAPID_SUBJECT when
    it is set, the subject written at the first start otherwise. *)
Theorem vapid_keys_survive_restarts penv gen starts penv' gen' :
  env_full penv = false ->
  env_full penv' = false ->
  exists stored,
    loadVapidKeys penv gen None
    = (Loaded (mkVapid (Some (JStr (subject_or penv "mailto:oncall@localhost")))
                       (Some (JStr (fst gen))) (Some (JStr (snd gen)))),
       Some stored)
    /\ restarts (Some stored) starts = Some stored
    /\ loadVapidKeys penv' gen' (restarts (Some stored) starts)
       = (Loaded (mkVapid
                    (Some (JStr (subject_or penv'
                                   (subject_or penv "mailto:oncall@localhost"))))
                    (Some (JStr (fst gen))) (Some (JStr (snd gen)))),
          Some stored).
Proof.
  intros Hfull Hfull'. unfold loadVapidKeys at 1. rewrite Hfull.
  eexists. split; [reflexivity|]. split; [apply restarts_keep_file|].
  rewrite restarts_keep_file. unfold loadVapidKeys. rewrite Hfull'.
  unfold stored_vapid, subject_or, env_set, obj. cbn [mkobj assoc String.eqb].
  destruct (VAPID_SUBJECT penv') as [s|]; [|reflexivity].
  destruct (nonempty s); reflexivity.
Qed.

Lemma vapid_keys_survive_restarts_witness :
  exists stored,
    loadVapidKeys no_vars ("BGen1", "priv1") None
    = (Loaded (mkVapid (Some (JStr "mailto:oncall@localhost"))
                       (Some (JStr "BGen1")) (Some (JStr "priv1"))),
       Some stored)
    /\ restarts (Some stored) [(all_vars, ("BGen2", "priv2"))] = Some stored
    /\ loadVapidKeys subject_only ("BGen3", "priv3")
         (restarts (Some stored) [(all_vars, ("BGen2", "priv2"))])
       = (Loaded (mkVapid (Some (JStr "mailto:ops@example.org"))
                          (Some (JStr "BGen1")) (Some (JStr "priv1"))),
          Some stored).
Proof.
  apply (@vapid_keys_survive_restarts no_vars ("BGen1", "priv1")
           [(all_vars, ("BGen2", "priv2"))] subject_only ("BGen3", "priv3"));
    reflexivity.
Defined.

(** X16. The key variables count only as a full set. With
    VAPID_PUBLIC_KEY, VAPID_PRIVATE_KEY and VAPID_SUBJECT all set the
    start reports them and neither reads nor writes vapid.json. With one
    of the three unset or empty the two key variables are not looked at:
    the start gives what it gives with both unset, the stored or a
    generated key pair. *)
Theorem vapid_variables_count_as_a_full_set penv gen file :
  (env_full penv = true ->
   exists s pk sk,
     VAPID_SUBJECT penv = Some s /\ VAPID_PUBLIC_KEY penv = Some pk
     /\ VAPID_PRIVATE_KEY penv = Some sk
     /\ loadVapidKeys penv gen file
        = (Loaded (mkVapid (Some (JStr s)) (Some (JStr pk)) (Some (JStr sk))),
           file))
  /\ (env_full penv = false ->
      loadVapidKeys penv gen file = loadVapidKeys (without_keys penv) gen file).
Proof.
  unfold loadVapidKeys, without_keys. cbn [VAPID_SUBJECT].
  change (env_full (mkProcessEnv None None (VAPID_SUBJECT penv))) with false.
  split; intros Hfull; rewrite Hfull; [|reflexivity].
  unfold env_full, env_set in Hfull.
  destruct (VAPID_PUBLIC_KEY penv) as [pk|]; [|discriminate].
  destruct (VAPID_PRIVATE_KEY penv) as [sk|];
    [|rewrite andb_false_r in Hfull; discriminate].
  destruct (VAPID_SUBJECT penv) as [s|];
    [|rewrite andb_false_r in Hfull; discriminate].
  exists s, pk, sk. auto.
Qed.

Lemma vapid_variables_count_as_a_full_set_witness :
  loadVapidKeys keys_without_subject ("BGen1", "priv1") None
  = loadVapidKeys no_vars ("BGen1", "priv1") None
  /\ exists s pk sk,
       VAPID_SUBJECT all_vars = Some s /\ VAPID_PUBLIC_KEY all_vars = Some pk
       /\ VAPID_PRIVATE_KEY all_vars = Some sk
       /\ loadVapidKeys all_vars ("BGen1", "priv1") (Some None)
          = (Loaded (mkVapid (Some (JStr s)) (Some (JStr pk)) (Some (JStr sk))),
             Some None).
Proof.
  split.
  - apply (@vapid_variables_count_as_a_full_set keys_without_subject
             ("BGen1", "priv1") None). reflexivity.
  - apply (@vapid_variables_count_as_a_full_set all_vars
             ("BGen1", "priv1") (Some None)). reflexivity.
Defined.

(** ** From the notify request to the device *)


Lemma or_default_truthy v j :
  truthy (Some j) = true -> truthy (Some (or_default v j)) = true.
Proof.
  intros Hj. unfold or_default. destruct v as [x|]; [|exact Hj].
  destruct (truthy (Some x)) eqn:Hx; [exact Hx|exact Hj].
Qed.

Lemma or_default_idem v j :
  truthy (Some j) = true -> or_default (Some (or_default v j)) j = or_default v j.
Proof.
  intros Hj. unfold or_default at 1. rewrite (@or_default_truthy v j Hj). reflexivity.
Qed.








(** ** The schema at start-up *)

Lemma try_add_column_some cols c :
  try_add_column (Some cols) c
  = Some (if includes c cols then cols else cols ++ [c]).
Proof.
  unfold try_add_column, add_column. destruct (includes c cols); reflexivity.
Qed.

Lemma has_columns_incl cols named :
  has_columns (Some cols) named = true <-> incl named cols.
Proof.
  unfold has_columns. rewrite forallb_forall. split.
  - intros H x Hx. apply includes_In, H, Hx.
  - intros H x Hx. apply includes_In, H, Hx.
Qed.

Lemma added_columns cols :
  exists more,
    try_add_column (try_add_column (Some cols) "ui") "data" = Some (cols ++ more)
    /\ incl ["ui"; "data"] (cols ++ more)
    /\ (incl ["ui"; "data"] cols -> more = []).
Proof.
  rewrite try_add_column_some.
  destruct (includes "ui" cols) eqn:Hui; rewrite try_add_column_some.
  - destruct (includes "data" cols) eqn:Hdata.
    + exists []. rewrite app_nil_r. apply includes_In in Hui, Hdata.
      split; [reflexivity|]. split; [|reflexivity].
      intros x [<-|[<-|[]]]; assumption.
    + exists ["data"]. split; [reflexivity|]. apply includes_In in Hui. split.
      * intros x [<-|[<-|[]]]; apply in_or_app; [left; exact Hui|right; left; reflexivity].
      * intros H. assert (Hin : In "data" cols) by (apply H; right; left; reflexivity).
        apply includes_In in Hin. congruence.
  - destruct (includes "data" (cols ++ ["ui"])) eqn:Hdata.
    + exists ["ui"]. split; [reflexivity|]. apply includes_In in Hdata. split.
      * intros x [<-|[<-|[]]]; [apply in_or_app; right; left; reflexivity|exact Hdata].
      * intros H. assert (Hin : In "ui" cols) by (apply H; left; reflexivity).
        apply includes_In in Hin. congruence.
    + exists ["ui"; "data"]. rewrite <- app_assoc. split; [reflexivity|]. split.
      * intros x Hx. apply in_or_app. right. exact Hx.
      * intros H. assert (Hin : In "ui" cols) by (apply H; left; reflexivity).
        apply includes_In in Hin. congruence.
Qed.

(** X19. The statements the start-up runs on oncall.db bring any database
    up to date: whether the file is new, was created by the previous
    revision (no webhooks table, no ui and data columns) or has been opened
    by this revision before, afterwards the three tables exist with every
    column the prepared statements name; a table that existed keeps its
    columns, new ones being added at the end; and running the start-up
    again changes nothing. *)
Theorem start_up_brings_the_schema_up_to_date c :
  at_least ["endpoint"; "keys_p256dh"; "keys_auth"; "createdAt"] (t_subscriptions c) ->
  at_least ["id"; "title"; "body"; "sentAt"; "type"; "parentId"] (t_messages c) ->
  at_least ["url"; "events"] (t_webhooks c) ->
  prepares (open_schema c) = true
  /\ open_schema (open_schema c) = open_schema c
  /\ columns_kept (t_subscriptions c) (t_subscriptions (open_schema c))
  /\ columns_kept (t_messages c) (t_messages (open_schema c))
  /\ columns_kept (t_webhooks c) (t_webhooks (open_schema c)).
Proof.
  destruct c as [subs msgs hooks]. cbn [t_subscriptions t_messages t_webhooks].
  intros Hs Hm Hh. unfold open_schema, prepares.
  cbn [t_subscriptions t_messages t_webhooks].
  assert (Hmsgs : exists cols more,
             create_if_not_exists msgs messages_columns = Some cols
             /\ try_add_column (try_add_column (Some cols) "ui") "data"
                = Some (cols ++ more)
             /\ incl ["id"; "title"; "body"; "sentAt"; "type"; "parentId"] cols
             /\ incl ["ui"; "data"] (cols ++ more)
             /\ (incl ["ui"; "data"] cols -> more = [])).
  { destruct msgs as [cols|]; cbn [create_if_not_exists at_least] in *.
    - destruct (added_columns cols) as (more & E & Hin & Hnil).
      exists cols, more. auto.
    - destruct (added_columns messages_columns) as (more & E & Hin & Hnil).
      exists messages_columns, more. repeat split; try assumption.
      intros x Hx. unfold messages_columns. cbn in *. tauto. }
  destruct Hmsgs as (cols & more & Ecreate & Eadd & Hold & Hnew & Hnil).
  rewrite Ecreate, Eadd. split; [|split; [|split; [|split]]].
  - rewrite !andb_true_iff. repeat split.
    + destruct subs as [have|]; cbn [create_if_not_exists];
        [apply has_columns_incl, Hs|reflexivity].
    + apply has_columns_incl. intros x Hx. cbn in Hx.
      destruct Hx as [<-|[<-|[<-|[<-|[<-|[<-|Hx]]]]]];
        try (apply in_or_app; left; apply Hold; cbn; tauto).
      apply Hnew. exact Hx.
    + destruct hooks as [have|]; cbn [create_if_not_exists];
        [apply has_columns_incl, Hh|reflexivity].
  - f_equal.
    + destruct subs; reflexivity.
    + cbn [create_if_not_exists].
      destruct (added_columns (cols ++ more)) as (more' & E & _ & Hnil').
      rewrite E, (Hnil' Hnew), app_nil_r. reflexivity.
    + destruct hooks; reflexivity.
  - destruct subs as [have|]; cbn; [exists []; rewrite app_nil_r; reflexivity|exact I].
  - destruct msgs as [have|]; cbn; [|exact I].
    cbn in Ecreate. injection Ecreate as ->. exists more. reflexivity.
  - destruct hooks as [have|]; cbn; [exists []; rewrite app_nil_r; reflexivity|exact I].
Qed.

Lemma start_up_brings_the_schema_up_to_date_witness :
  prepares (open_schema older_tables) = true
  /\ open_schema (open_schema older_tables) = open_schema older_tables
  /\ columns_kept (t_subscriptions older_tables)
                  (t_subscriptions (open_schema older_tables))
  /\ columns_kept (t_messages older_tables) (t_messages (open_schema older_tables))
  /\ columns_kept (t_webhooks older_tables) (t_webhooks (open_schema older_tables)).
Proof.
  apply (@start_up_brings_the_schema_up_to_date older_tables).
  - intros x Hx. cbn in *. tauto.
  - intros x Hx. cbn in *. tauto.
  - exact I.
Defined.

Example older_tables_become_current :
  open_schema older_tables = open_schema no_tables
  /\ prepares older_tables = false.
Proof. split; reflexivity. Qed.

(** ** The listings of the two registries *)

(** X20. GET /api/subscriptions lists every subscription of the registry
    exactly as often as it is stored, newest first and without a limit, and
    its count is the size of the registry; GET /api/webhooks lists every
    webhook in the order of registration. Neither changes the store nor
    issues an effect. *)
Theorem registry_listings_are_complete d :
  run get_subscriptions d
  = (Ret (Replied 200
            (obj [("subscriptions", Some (JArr (map sub_json (getAllSubs_all d))));
                  ("count", Some (jnat (List.length (subscriptions d))))])),
     mkWorld d [])
  /\ Permutation (getAllSubs_all d) (subscriptions d)
  /\ newest_first sub_createdAt (getAllSubs_all d)
  /\ run get_webhooks d
     = (Ret (Replied 200 (obj [("webhooks", Some (JArr (map hook_json (webhooks d))))])),
        mkWorld d []).
Proof.
  assert (Hperm : Permutation (getAllSubs_all d) (subscriptions d))
    by apply order_by_desc_perm.
  split; [|split; [exact Hperm|split; [apply order_by_desc_sorted|reflexivity]]].
  unfold run, get_subscriptions, getAllSubs, get_db, bind, ret. cbn [db].
  rewrite (Permutation_length Hperm). reflexivity.
Qed.

(** ** What is left of the message-kind invariant *)

(** X21. In every store the server can reach, a stored response has the
    title "Response", a message that carries response data has the title
    "Response", and a message with any other title is a notification
    without response data: the notify routes only store notifications
    without data, and the respond route only stores rows titled
    "Response". *)
Theorem other_titles_are_plain_notifications d :
  reachable d ->
  forall m, In m (messages d) ->
    (type m = response -> title m = "Response")
    /\ (data m <> None -> title m = "Response")
    /\ (title m <> "Response" -> type m = notification /\ data m = None).
Proof.
  intros Hr m Hin. pose proof (reachable_title_inv Hr) as Hinv.
  unfold title_inv in Hinv. rewrite Forall_forall in Hinv.
  destruct (Hinv m Hin) as [Ht|[Hty Hd]].
  - split; [intros _; exact Ht|]. split; [intros _; exact Ht|].
    intros Hne. elim Hne. exact Ht.
  - split; [intros H; congruence|]. split; [intros H; elim H; exact Hd|].
    intros _. split; assumption.
Qed.

Lemma other_titles_are_plain_notifications_witness :
  (type shifted_row = response -> title shifted_row = "Response")
  /\ (data shifted_row <> None -> title shifted_row = "Response")
  /\ (title shifted_row <> "Response" ->
      type shifted_row = notification /\ data shifted_row = None).
Proof.
  apply (@other_titles_are_plain_notifications
           (step empty_db (env0, Http (mkReq POST_respond bearer None
                                             shifted_respond)))
           (reach_step env0 (Http (mkReq POST_respond bearer None shifted_respond))
                       reach_init)
           shifted_row).
  vm_compute. left. reflexivity.
Defined.
